(** * SpotifyDataAnalytics: the star-schema ETL and the geolocation enricher

    A shallow embedding of [config.py], [src/ReadProcess.py],
    [src/localization.py], [src/utils.py], [src/validate.py] and [main.py],
    followed by the properties of the pipeline.

    Tables are pandas data frames: a list of column names and a list of
    labelled rows, each row a finite map from column name to cell.  The
    transforms of [ReadProcess.py] are written against an object store, so
    that assigning a column mutates the frame a variable refers to; the
    stages that touch the disk and the log run in a state monad over a
    [World]. *)

From stdpp Require Import base option list gmap strings numbers pretty.
From Stdlib Require Import ZArith QArith_base Ascii.
Close Scope Q_scope.

Set Default Proof Using "Type".

(** ** Text: lower-casing and the [in] operator on strings *)

Module Text.

Definition lower_ascii (c : ascii) : ascii :=
  let n := nat_of_ascii c in
  if bool_decide (65 ≤ n ≤ 90) then ascii_of_nat (n + 32) else c.

(** [str.lower()].  The strings are byte sequences (UTF-8); only the
    letters A-Z change, every other byte is kept. *)
Fixpoint lower (s : string) : string :=
  match s with
  | EmptyString => EmptyString
  | String c s' => String (lower_ascii c) (lower s')
  end.

(** [needle in hay] *)
Fixpoint contains (needle hay : string) : bool :=
  String.prefix needle hay ||
  match hay with
  | EmptyString => false
  | String _ hay' => contains needle hay'
  end.

(** What [contains] decides: [needle] occurs somewhere inside [hay]. *)
Definition occurs_in (needle hay : string) : Prop :=
  ∃ pre post, hay = pre +:+ needle +:+ post.

Definition digit (n : Z) : ascii := ascii_of_nat (48 + Z.to_nat (n `mod` 10)).

(** [n] in decimal, zero-padded to [width] digits, as the [%Y], [%m], [%d]
    and [%H] directives of [strftime] print their fields. *)
Fixpoint zero_padded (width : nat) (n : Z) : string :=
  match width with
  | O => EmptyString
  | S w => zero_padded w (n `div` 10) +:+ String (digit n) EmptyString
  end.

(** [s.endswith(suffix)] *)
Fixpoint ends_with (suffix s : string) : bool :=
  String.eqb suffix s ||
  match s with
  | EmptyString => false
  | String _ s' => ends_with suffix s'
  end.

(** [fnmatch.fnmatchcase(name, pattern)], for a pattern without character
    classes: [*] stands for any run of characters, [?] for any one
    character, every other character for itself. *)
Fixpoint fnmatch (pattern name : string) : bool :=
  match pattern with
  | EmptyString => bool_decide (name = EmptyString)
  | String "*" rest =>
      (fix star (name : string) : bool :=
         fnmatch rest name ||
         match name with
         | EmptyString => false
         | String _ name' => star name'
         end) name
  | String "?" rest =>
      match name with
      | EmptyString => false
      | String _ name' => fnmatch rest name'
      end
  | String c rest =>
      match name with
      | EmptyString => false
      | String d name' => Ascii.eqb c d && fnmatch rest name'
      end
  end.


Definition upper_ascii (c : ascii) : ascii :=
  let n := nat_of_ascii c in
  if bool_decide (97 ≤ n ≤ 122) then ascii_of_nat (n - 32) else c.

(** The line feed that Python writes [\n]. *)
Definition nl : string := String (ascii_of_nat 10) EmptyString.

(** [s.capitalize()] *)
Definition capitalize (s : string) : string :=
  match s with
  | EmptyString => EmptyString
  | String c s' => String (upper_ascii c) (lower s')
  end.

Fixpoint name_from (acc s : string) : string :=
  match s with
  | EmptyString => acc
  | String c s' =>
      if Ascii.eqb c "/" then name_from EmptyString s'
      else name_from (acc +:+ String c EmptyString) s'
  end.

(** [path.name]: the last component of a path *)
Definition path_name (path : string) : string := name_from EmptyString path.

Fixpoint before_last_dot (s : string) : option string :=
  match s with
  | EmptyString => None
  | String c s' =>
      match before_last_dot s' with
      | Some t => Some (String c t)
      | None => if Ascii.eqb c "." then Some EmptyString else None
      end
  end.

Fixpoint before_last_slash (s : string) : option string :=
  match s with
  | EmptyString => None
  | String c s' =>
      match before_last_slash s' with
      | Some t => Some (String c t)
      | None => if Ascii.eqb c "/" then Some EmptyString else None
      end
  end.

(** [path.parent], for a path with a parent of its own: none for a single
    component, whose parent is the directory the paths are relative to. *)
Definition path_parent (path : string) : option string :=
  match before_last_slash path with
  | Some (String c t) => Some (String c t)
  | _ => None
  end.

Fixpoint parents_upto (fuel : nat) (path : string) : list string :=
  match fuel, path_parent path with
  | S n, Some p => p :: parents_upto n p
  | _, _ => []
  end.

(** [path.parents]: the ancestors of a path, the nearest first *)
Definition path_parents (path : string) : list string :=
  parents_upto (String.length path) path.

(** [path.stem]: the name without its last suffix *)
Definition path_stem (path : string) : string :=
  let name := path_name path in
  match before_last_dot name with
  | Some (String c t) => String c t
  | _ => name
  end.

End Text.

(** ** Calendar fields of a UTC instant

    A timestamp cell is the number of seconds since 1970-01-01T00:00:00Z.
    The fields are those of the proleptic Gregorian calendar. *)

Module Calendar.

Definition days_of (t : Z) : Z := (t `div` 86400)%Z.
Definition hour_of (t : Z) : Z := ((t `mod` 86400) `div` 3600)%Z.

(** Year, month and day of a day number counted from 1970-01-01. *)
Definition civil_of_days (d : Z) : Z * Z * Z :=
  let z := (d + 719468)%Z in
  let era := (z `div` 146097)%Z in
  let doe := (z `mod` 146097)%Z in
  let yoe := ((doe - doe `div` 1460 + doe `div` 36524 - doe `div` 146096) `div` 365)%Z in
  let doy := (doe - (365 * yoe + yoe `div` 4 - yoe `div` 100))%Z in
  let mp := ((5 * doy + 2) `div` 153)%Z in
  let day := (doy - (153 * mp + 2) `div` 5 + 1)%Z in
  let month := (if bool_decide (mp < 10)%Z then mp + 3 else mp - 9)%Z in
  let year := (yoe + era * 400 + (if bool_decide (month ≤ 2)%Z then 1 else 0))%Z in
  (year, month, day).

Definition year_of (t : Z) : Z := (civil_of_days (days_of t)).1.1.
Definition month_of (t : Z) : Z := (civil_of_days (days_of t)).1.2.
Definition day_of (t : Z) : Z := (civil_of_days (days_of t)).2.

Definition day_names : list string :=
  ["Monday"; "Tuesday"; "Wednesday"; "Thursday"; "Friday"; "Saturday"; "Sunday"].

(** [day_name()]; 1970-01-01 was a Thursday. *)
Definition day_name (t : Z) : string :=
  default "" (day_names !! Z.to_nat ((days_of t + 3) `mod` 7)).

Definition minute_of (t : Z) : Z := ((t `mod` 3600) `div` 60)%Z.
Definition second_of (t : Z) : Z := (t `mod` 60)%Z.

(** [str(ts)] of a UTC timestamp *)
Definition isoformat (t : Z) : string :=
  Text.zero_padded 4 (year_of t) +:+ "-" +:+ Text.zero_padded 2 (month_of t) +:+ "-" +:+
  Text.zero_padded 2 (day_of t) +:+ " " +:+ Text.zero_padded 2 (hour_of t) +:+ ":" +:+
  Text.zero_padded 2 (minute_of t) +:+ ":" +:+ Text.zero_padded 2 (second_of t) +:+ "+00:00".

(** [strftime("%Y%m%d%H")] *)
Definition strftime_YmdH (t : Z) : string :=
  Text.zero_padded 4 (year_of t) +:+ Text.zero_padded 2 (month_of t) +:+
  Text.zero_padded 2 (day_of t) +:+ Text.zero_padded 2 (hour_of t).

End Calendar.

(** ** Python exceptions and results *)

Inductive exn :=
  | FileNotFoundError (msg : string)
  | KeyError (key : string)
  | ValueError (msg : string)
  | AttributeError (msg : string)
  | OSError (msg : string)
  | RuntimeError (msg : string)
  | AddressNotFoundError (msg : string)
  | SystemExit (code : Z).

(** [str(e)], as an f-string prints an exception. *)
Definition str_exn (e : exn) : string :=
  match e with
  | KeyError key => "'" +:+ key +:+ "'"
  | FileNotFoundError msg | ValueError msg | AttributeError msg
  | OSError msg | RuntimeError msg | AddressNotFoundError msg => msg
  | SystemExit code => pretty code
  end.

(** The exceptions [except Exception] catches: all but [SystemExit], which
    derives from [BaseException] only. *)
Definition is_Exception (e : exn) : bool :=
  match e with SystemExit _ => false | _ => true end.

Definition is_FileNotFoundError (e : exn) : bool :=
  match e with FileNotFoundError _ => true | _ => false end.

(** The exceptions [except OSError] catches: [FileNotFoundError] is one of
    its subclasses. *)
Definition is_OSError (e : exn) : bool :=
  match e with OSError _ | FileNotFoundError _ => true | _ => false end.

Inductive result (A : Type) :=
  | Ok (a : A)
  | Raise (e : exn).
Arguments Ok {A} a.
Arguments Raise {A} e.

#[global] Instance result_ret : MRet result := λ A a, Ok a.
#[global] Instance result_bind : MBind result := λ A B f m,
  match m with Ok a => f a | Raise e => Raise e end.
#[global] Instance result_fmap : FMap result := λ A B f m,
  match m with Ok a => Ok (f a) | Raise e => Raise e end.

(** A computation that reads and writes a state [S] and may raise: the
    state reached when the exception was raised is kept. *)
Definition M (S A : Type) : Type := S → result A * S.

#[global] Instance M_ret {S} : MRet (M S) := λ A a s, (Ok a, s).
#[global] Instance M_bind {S} : MBind (M S) := λ A B f m s,
  match m s with
  | (Ok a, s') => f a s'
  | (Raise e, s') => (Raise e, s')
  end.

Definition lift {S A} (r : result A) : M S A := λ s, (r, s).
Definition raise {S A} (e : exn) : M S A := lift (Raise e).

(** [try: body except C as e: handler(e)], where [catches] tells the
    exceptions of class [C] *)
Definition try_catch {S A} (catches : exn → bool)
    (body : M S A) (handler : exn → M S A) : M S A :=
  λ s, match body s with
       | (Ok a, s') => (Ok a, s')
       | (Raise e, s') => if catches e then handler e s' else (Raise e, s')
       end.

(** [try: body except Exception as e: handler(e)] *)
Definition try_except {S A} : M S A → (exn → M S A) → M S A := try_catch is_Exception.

(** [if c: body] *)
Definition when {S} (c : bool) (body : M S unit) : M S unit :=
  if c then body else mret ().

(** [for x in xs: body(x)] *)
Fixpoint for_each {S A} (xs : list A) (body : A → M S unit) : M S unit :=
  match xs with
  | [] => mret ()
  | x :: xs' => body x ;; for_each xs' body
  end.

(** ** Cells *)

#[global] Instance Q_eq_dec : EqDecision Q.
Proof. solve_decision. Defined.

(** A cell of a table.  [NaN] stands for every missing marker of pandas
    ([None], [NaN], [NaT]); [VTs t] is a UTC instant, [t] seconds after the
    epoch; a float is given by a rational. *)
Inductive value :=
  | NaN
  | VStr (s : string)
  | VInt (z : Z)
  | VFloat (q : Q)
  | VBool (b : bool)
  | VTs (t : Z).

#[global] Instance value_eq_dec : EqDecision value.
Proof. solve_decision. Defined.

(** Conversions that pandas and Python perform on cells and that the
    repository does not define: they are parameters of the development. *)
Class Library := {
  (** [str(x)] of a float *)
  repr_float : Q → string;
  (** the number [pd.to_numeric] reads from a string, if any *)
  numeric_of_str : string → option Q;
  (** [int(s)], when it does not raise *)
  int_of_str : string → option Z;
  (** the instant [pd.to_datetime] reads from a string or a number, if any *)
  datetime_of : value → option Z;
}.

(** ** Data frames

    The part of pandas the repository uses.  A frame has its column names
    in order and its rows, each with an index label.  A cell that a row
    does not hold reads as [NaN].  A Series is the list of its values, in
    row order: every Series the code assigns to a column was computed from
    a column of that same frame, so assignment is positional. *)

Module Pandas.

Record Row := mkRow { label : Z; cells : gmap string value }.
Record DataFrame := mkDataFrame { columns : list string; rows : list Row }.

Abbreviation Series := (list value).

Definition cell (r : Row) (c : string) : value := default NaN (cells r !! c).

(** [len(df)] *)
Definition len (df : DataFrame) : nat := length (rows df).

(** The values [df[c]] holds, whether or not [c] is a column name. *)
Definition col (c : string) (df : DataFrame) : Series := (λ r, cell r c) <$> rows df.

(** [df[c]] *)
Definition getitem (c : string) (df : DataFrame) : result Series :=
  if decide (c ∈ columns df) then Ok (col c df) else Raise (KeyError c).

(** [df.index] *)
Definition index (df : DataFrame) : Series := (λ r, VInt (label r)) <$> rows df.

(** [df[c] = s] *)
Definition setitem (c : string) (s : Series) (df : DataFrame) : DataFrame :=
  {| columns := if decide (c ∈ columns df) then columns df else columns df ++ [c];
     rows := zip_with (λ r v, mkRow (label r) (<[c := v]> (cells r))) (rows df) s |}.

Definition restrict (cs : list string) (r : Row) : Row :=
  mkRow (label r) (filter (λ kv, kv.1 ∈ cs) (cells r)).

(** [df[[c1, ..., cn]]] *)
Definition getitems (cs : list string) (df : DataFrame) : result DataFrame :=
  match list_find (λ c, c ∉ columns df) cs with
  | Some (_, c) => Raise (KeyError c)
  | None => Ok {| columns := cs; rows := restrict cs <$> rows df |}
  end.

(** [df.drop(columns=cs)], for names taken from [df.columns] *)
Definition drop_columns (cs : list string) (df : DataFrame) : DataFrame :=
  {| columns := filter (λ c, c ∉ cs) (columns df);
     rows := (λ r, mkRow (label r) (filter (λ kv, kv.1 ∉ cs) (cells r))) <$> rows df |}.

(** [df[cs].isnull().all().all()] *)
Definition all_null (cs : list string) (df : DataFrame) : bool :=
  forallb (λ r, forallb (λ c, bool_decide (cell r c = NaN)) cs) (rows df).

Definition relabel (rs : list Row) : list Row :=
  imap (λ i r, mkRow (Z.of_nat i) (cells r)) rs.

(** The index of the table is the default one: 0, 1, ..., n-1. *)
Definition default_index (df : DataFrame) : Prop :=
  ∀ i r, rows df !! i = Some r → label r = Z.of_nat i.

(** [df.reset_index(drop=True)] *)
Definition reset_index (df : DataFrame) : DataFrame :=
  {| columns := columns df; rows := relabel (rows df) |}.

(** The rows whose value in column [c] was not seen before, in order. *)
Fixpoint keep_first (c : string) (seen : list value) (rs : list Row) : list Row :=
  match rs with
  | [] => []
  | r :: rs' =>
      if decide (cell r c ∈ seen) then keep_first c seen rs'
      else r :: keep_first c (cell r c :: seen) rs'
  end.

(** [df.drop_duplicates(subset=[c])]: the first row of every distinct
    value is kept; two missing values count as equal. *)
Definition drop_duplicates (c : string) (df : DataFrame) : result DataFrame :=
  if decide (c ∈ columns df)
  then Ok {| columns := columns df; rows := keep_first c [] (rows df) |}
  else Raise (KeyError c).

(** [s.notna()], [s.isin(vs)], [~mask] and [df[mask]] *)
Definition notna (s : Series) : list bool := (λ v, bool_decide (v ≠ NaN)) <$> s.
Definition isin (vs : list value) (s : Series) : list bool :=
  (λ v, bool_decide (v ≠ NaN ∧ v ∈ vs)) <$> s.
Definition invert (mask : list bool) : list bool := negb <$> mask.
Definition select (mask : list bool) (df : DataFrame) : DataFrame :=
  {| columns := columns df;
     rows := (filter (λ rb : Row * bool, rb.2 = true) (zip (rows df) mask)).*1 |}.

(** [s.unique()]: the distinct values in order of first appearance. *)
Fixpoint unique_from (seen : list value) (s : Series) : Series :=
  match s with
  | [] => []
  | v :: s' =>
      if decide (v ∈ seen) then unique_from seen s'
      else v :: unique_from (v :: seen) s'
  end.
Definition unique (s : Series) : Series := unique_from [] s.

Definition rename_key (old new : string) (m : gmap string value) : gmap string value :=
  match m !! old with
  | Some v => <[new := v]> (delete old m)
  | None => m
  end.

Definition new_name (mapping : list (string * string)) (c : string) : string :=
  match list_find (λ on : string * string, on.1 = c) mapping with
  | Some (_, on) => on.2
  | None => c
  end.

(** [df.rename(columns={old1: new1, ...})], for a mapping whose new names
    are none of its old names *)
Definition rename (mapping : list (string * string)) (df : DataFrame) : DataFrame :=
  {| columns := new_name mapping <$> columns df;
     rows := (λ r, mkRow (label r)
                (foldl (λ m on, rename_key on.1 on.2 m) (cells r) mapping)) <$> rows df |}.

(** [pd.DataFrame(records)] for a list of dicts *)
Definition from_records (records : list (list (string * value))) : DataFrame :=
  {| columns := foldl (λ acc rec, acc ++ filter (λ c, c ∉ acc) rec.*1) [] records;
     rows := imap (λ i rec, mkRow (Z.of_nat i) (list_to_map rec)) records |}.

(** [pd.concat(frames, ignore_index=True)] *)
Definition concat_all (frames : list DataFrame) : DataFrame :=
  {| columns := foldl (λ acc df, acc ++ filter (λ c, c ∉ acc) (columns df)) [] frames;
     rows := relabel (frames ≫= rows) |}.

(** [pd.concat([a, b], ignore_index=True)] *)
Definition concat (a b : DataFrame) : DataFrame :=
  {| columns := columns a ++ filter (λ c, c ∉ columns a) (columns b);
     rows := relabel (rows a ++ rows b) |}.

(** *** Left merge on one key

    [pd.merge(left, right, on=key, how="left")]: every left row, in
    order, once per right row with an equal key (missing keys match each
    other), or once with missing right cells when no right row matches.
    A right column whose name the left frame has too gets the suffix
    [_y], and the left one [_x].  The result has a fresh index. *)

Definition suffixed (overlap : list string) (sfx c : string) : string :=
  if decide (c ∈ overlap) then c +:+ sfx else c.

Definition merge_cells (rcols overlap : list string) (l : Row) (r : option Row)
    : gmap string value :=
  let lcells := foldr (λ c m, rename_key c (c +:+ "_x") m) (cells l) overlap in
  foldr (λ c m, <[suffixed overlap "_y" c := from_option (λ r, cell r c) NaN r]> m)
        lcells rcols.

Definition matches (key : string) (right : DataFrame) (l : Row) : list Row :=
  filter (λ r, cell r key = cell l key) (rows right).

Definition merge_rows (key : string) (rcols overlap : list string)
    (right : DataFrame) (l : Row) : list Row :=
  match matches key right l with
  | [] => [mkRow 0 (merge_cells rcols overlap l None)]
  | ms => (λ r, mkRow 0 (merge_cells rcols overlap l (Some r))) <$> ms
  end.

Definition merge_left (left right : DataFrame) (key : string) : result DataFrame :=
  if decide (key ∈ columns left ∧ key ∈ columns right) then
    let rcols := filter (λ c, c ≠ key) (columns right) in
    let overlap := filter (λ c, c ∈ columns left) rcols in
    Ok {| columns := (suffixed overlap "_x" <$> columns left) ++
                     (suffixed overlap "_y" <$> rcols);
          rows := relabel (rows left ≫= merge_rows key rcols overlap right) |}
  else Raise (KeyError key).

(** *** Series *)

Definition fill_cell (v x : value) : value := if decide (x = NaN) then v else x.

(** [s.fillna(v)] *)
Definition fillna (v : value) (s : Series) : Series := fill_cell v <$> s.

(** The field [f] of one cell of a column of instants. *)
Definition dt_value (f : Z → value) (v : value) : value :=
  match v with VTs t => f t | _ => NaN end.

(** A cell of a column of instants: an instant or a missing value. *)
Definition datetimelike (v : value) : Prop :=
  match v with VTs _ | NaN => True | _ => False end.

Definition dt_error : exn :=
  AttributeError "Can only use .dt accessor with datetimelike values".

(** [s.dt.f], for a field or formatter [f] of an instant: defined on a
    column of instants and missing values, which stay missing *)
Definition dt (f : Z → value) (s : Series) : result Series :=
  mapM (λ v, match v with
             | VTs t => Ok (f t)
             | NaN => Ok NaN
             | _ => Raise dt_error
             end) s.

Section conversions.
Context `{!Library}.

(** [str(v)] *)
Definition py_str (v : value) : string :=
  match v with
  | NaN => "nan"
  | VStr s => s
  | VInt z => pretty z
  | VFloat q => repr_float q
  | VBool b => if b then "True" else "False"
  | VTs t => Calendar.isoformat t
  end.

Definition to_int (v : value) : result value :=
  match v with
  | NaN => Raise (ValueError "cannot convert float NaN to integer")
  | VStr s =>
      match int_of_str s with
      | Some z => Ok (VInt z)
      | None => Raise (ValueError ("invalid literal for int() with base 10: '" +:+ s +:+ "'"))
      end
  | VInt z => Ok (VInt z)
  | VFloat q => Ok (VInt (Qnum q `quot` Z.pos (Qden q)))
  | VBool b => Ok (VInt (if b then 1 else 0))
  | VTs t => Ok (VInt (t * 1000000000))
  end.

(** [s.astype(int)] *)
Definition astype_int (s : Series) : result Series := mapM to_int s.

(** [pd.to_numeric(s, errors="coerce")] *)
Definition to_numeric_coerce (s : Series) : Series :=
  (λ v, match v with
        | VStr s => from_option VFloat NaN (numeric_of_str s)
        | VTs t => VInt (t * 1000000000)
        | _ => v
        end) <$> s.

(** What [pd.to_datetime] makes of one cell. *)
Definition to_datetime_cell (v : value) : option value :=
  match v with
  | NaN => Some NaN
  | VTs t => Some (VTs t)
  | _ => VTs <$> datetime_of v
  end.

(** How [read_json] converts a column it takes for dates: the column of
    instants when it is not empty and every cell can be read as one, the
    column as it is otherwise. *)
Definition try_convert_to_date (s : Series) : Series :=
  match s with
  | [] => s
  | _ => default s (mapM to_datetime_cell s)
  end.

(** The column names [read_json] takes for dates by itself. *)
Definition default_date_column (c : string) : bool :=
  let c := Text.lower c in
  Text.ends_with "_at" c || Text.ends_with "_time" c ||
  bool_decide (c = "modified") || bool_decide (c = "date") ||
  bool_decide (c = "datetime") || String.prefix "timestamp" c.

(** The conversion of the column [c], when it is named in [cs] or has a
    date-like name. *)
Definition convert_step (cs : list string) (df : DataFrame) (c : string) : DataFrame :=
  if bool_decide (c ∈ cs) || default_date_column c
  then setitem c (try_convert_to_date (col c df)) df
  else df.

(** The date conversion of [pd.read_json(..., convert_dates=cs)]: the
    columns are converted one after the other. *)
Definition convert_dates (cs : list string) (df : DataFrame) : DataFrame :=
  foldl (convert_step cs) df (columns df).

(** [s.astype(bool)] *)
Definition astype_bool (s : Series) : Series :=
  (λ v, VBool (match v with
               | NaN => true
               | VStr s => bool_decide (s ≠ "")
               | VInt z => bool_decide (z ≠ 0%Z)
               | VFloat q => bool_decide (Qnum q ≠ 0%Z)
               | VBool b => b
               | VTs _ => true
               end)) <$> s.
End conversions.

End Pandas.

(** ** The object store

    A variable of the Python code holds a reference to a frame.  The pandas
    calls below either build a new frame, which gets a fresh reference, or,
    for [df[c] = s], change the frame a reference points to.  The
    [logger] calls inside the transforms only append to the log; they are
    left out here. *)

Module Obj.
Import Pandas.

Abbreviation ref := nat.
Abbreviation Store := (list DataFrame).

Definition new (df : DataFrame) : M Store ref :=
  λ h, (Ok (length h), h ++ [df]).

Definition deref (l : ref) : M Store DataFrame :=
  λ h, match h !! l with
       | Some df => (Ok df, h)
       | None => (Raise (RuntimeError "dangling reference"), h)
       end.

Definition update (l : ref) (f : DataFrame → DataFrame) : M Store unit :=
  λ h, (Ok (), alter f l h).

(** [df.copy()] *)
Definition copy (l : ref) : M Store ref := df ← deref l; new df.
(** [df.columns] *)
Definition columns (l : ref) : M Store (list string) := df ← deref l; mret (columns df).
(** [df.index] *)
Definition index (l : ref) : M Store Series := df ← deref l; mret (index df).
(** [df[c]] *)
Definition getitem (l : ref) (c : string) : M Store Series :=
  df ← deref l; lift (getitem c df).
(** [df[c] = s]: the frame at [l] itself changes *)
Definition setitem (l : ref) (c : string) (s : Series) : M Store unit :=
  update l (setitem c s).
(** [df[[c1, ..., cn]]] *)
Definition getitems (l : ref) (cs : list string) : M Store ref :=
  df ← deref l; sel ← lift (getitems cs df); new sel.
(** [df[mask]] *)
Definition select (l : ref) (mask : list bool) : M Store ref :=
  df ← deref l; new (select mask df).
(** [df.drop(columns=cs)] *)
Definition drop (l : ref) (cs : list string) : M Store ref :=
  df ← deref l; new (drop_columns cs df).
(** [df[cs].isnull().all().all()] *)
Definition all_null (l : ref) (cs : list string) : M Store bool :=
  df ← deref l; mret (all_null cs df).
(** [df.reset_index(drop=True)] *)
Definition reset_index (l : ref) : M Store ref :=
  df ← deref l; new (reset_index df).
(** [df.drop_duplicates(subset=[c])] *)
Definition drop_duplicates (l : ref) (c : string) : M Store ref :=
  df ← deref l; ded ← lift (drop_duplicates c df); new ded.
(** [df.rename(columns=mapping)] *)
Definition rename (l : ref) (mapping : list (string * string)) : M Store ref :=
  df ← deref l; new (rename mapping df).
(** [pd.DataFrame(records)] *)
Definition from_records (records : list (list (string * value))) : M Store ref :=
  new (from_records records).
(** [pd.concat([a, b], ignore_index=True)] *)
Definition concat (a b : ref) : M Store ref :=
  da ← deref a; db ← deref b; new (concat da db).

(** Running [m] on the store [h] leaves the first [n] objects as they are
    and removes none, and what it returns satisfies [Q] in the store it
    leaves. *)
Definition run_keeps {A} (n : nat) (m : M Store A) (h : Store)
    (Q : A → Store → Prop) : Prop :=
  take n (m h).2 = take n h ∧ length h ≤ length (m h).2 ∧
  ∀ a, (m h).1 = Ok a → Q a (m h).2.

(** A reference to an object of the store that is none of the first [n]. *)
Definition later (n : nat) (l : ref) (h : Store) : Prop := n ≤ l < length h.

Definition anything {A} (a : A) (h : Store) : Prop := True.

(** A call of a transform on a table: the transform runs on a store that
    holds the table, and the table it returns is read back. *)
Definition call (f : ref → M Store ref) (df : DataFrame) : result DataFrame :=
  match (l ← f 0; deref l) [df] with
  | (r, _) => r
  end.

End Obj.

(** ** [config.py] *)

(** The process environment the configuration reads. *)
Class Environment := { SPOTIFY_USER_SUFFIX : option string }.

Module Config.

(** [a / b] on paths, which are strings relative to [PROJECT_ROOT] *)
Definition joinpath (a b : string) : string := a +:+ "/" +:+ b.

Section config.
Context `{!Environment}.

Definition DATA_DIR : string := "data".
Definition USER_SUFFIX : string := default "" SPOTIFY_USER_SUFFIX.
Definition RAW_DATA_DIR : string := joinpath DATA_DIR ("raw" +:+ USER_SUFFIX).
Definition PROCESSED_DATA_DIR : string := joinpath DATA_DIR ("processed" +:+ USER_SUFFIX).
Definition LOGS_DIR : string := "logs".
Definition DB_DIR : string := joinpath DATA_DIR ("Databases" +:+ USER_SUFFIX).

Definition CITY_DB : string := joinpath DB_DIR "GeoLite2-City.mmdb".
Definition ASN_DB : string := joinpath DB_DIR "GeoLite2-ASN.mmdb".
Definition COUNTRY_DB : string := joinpath DB_DIR "GeoLite2-Country.mmdb".

Definition DIM_DATE_FILE : string := joinpath PROCESSED_DATA_DIR "dim_date.parquet".
Definition DIM_DEVICE_FILE : string := joinpath PROCESSED_DATA_DIR "dim_device.parquet".
Definition DIM_TRACK_FILE : string := joinpath PROCESSED_DATA_DIR "dim_track.parquet".
Definition DIM_EPISODE_FILE : string := joinpath PROCESSED_DATA_DIR "dim_episode.parquet".
Definition DIM_LOCATION_FILE : string := joinpath PROCESSED_DATA_DIR "dim_location.parquet".
Definition DIM_LOCATION_ENRICHED_FILE : string :=
  joinpath PROCESSED_DATA_DIR "dim_location_enriched.parquet".
Definition FACT_TABLE_FILE : string := joinpath PROCESSED_DATA_DIR "fact_table.parquet".
End config.

Definition UNKNOWN_VALUE : string := "Unknown".
Definition UNKNOWN_ID : Z := (-1)%Z.
Definition UNKNOWN_COORDS : Q * Q := ((0 # 1)%Q, (0 # 1)%Q).
Definition AUDIOBOOK_COLUMNS_PATTERN : string := "audiobook".

End Config.

(** ** The world outside the process: files, databases and the log *)

Module OS.
Import Pandas.

Inductive Level := DEBUG | INFO | WARNING | ERROR.

(** The records of [geoip2]; every attribute may be absent. *)
Record City := mkCity {
  city_name : option string;
  subdivision_name : option string;
  latitude : option Q;
  longitude : option Q }.
Record ASN := mkASN { autonomous_system_organization : option string }.
Record Country := mkCountry { country_name : option string }.

(** A MaxMind database: a query on an address returns a record, or none
    and then it raises (address not found, malformed address, wrong kind
    of database). *)
Record Reader := mkReader {
  city : value → option City;
  asn : value → option ASN;
  country : value → option Country }.

Inductive Node :=
  | Directory (entries : list string)
    (** the names of its entries, in the order [glob] enumerates them *)
  | JsonFile (content : option DataFrame)
    (** the records of the file as [pd.read_json] parses them, before it
        converts any date, if the file can be parsed *)
  | ParquetFile (table : DataFrame)
    (** the table [pd.read_parquet] reads from the file *)
  | GeoDatabase (db : Reader)
  | OtherFile.

Record World := mkWorld {
  fs : gmap string Node;
  (** [path.resolve()] *)
  resolved : string → string;
  (** whether a file can be written at a path *)
  writable : string → bool;
  (** whether a table can be encoded for the columnar file format *)
  encodable : DataFrame → bool;
  (** whether a missing directory can be created *)
  creatable : string → bool;
  (** the records the logger received, oldest first *)
  log : list (Level * string);
  (** the database queries made, oldest first: method and address *)
  lookups : list (string * value) }.

Definition set_fs (f : gmap string Node → gmap string Node) (w : World) : World :=
  mkWorld (f (fs w)) (resolved w) (writable w) (encodable w) (creatable w) (log w) (lookups w).
Definition add_log (entry : Level * string) (w : World) : World :=
  mkWorld (fs w) (resolved w) (writable w) (encodable w) (creatable w) (log w ++ [entry]) (lookups w).
Definition add_lookup (q : string * value) (w : World) : World :=
  mkWorld (fs w) (resolved w) (writable w) (encodable w) (creatable w) (log w) (lookups w ++ [q]).

(** *** [logger] *)
Definition logger (lvl : Level) (msg : string) : M World unit :=
  λ w, (Ok (), add_log (lvl, msg) w).

(** *** [pathlib] *)
Definition path_exists (path : string) : M World bool :=
  λ w, (Ok (bool_decide (is_Some (fs w !! path))), w).

Definition path_is_dir (path : string) : M World bool :=
  λ w, (Ok (match fs w !! path with Some (Directory _) => true | _ => false end), w).

Definition path_is_file (path : string) : M World bool :=
  λ w, (Ok (match fs w !! path with
            | Some (Directory _) | None => false
            | Some _ => true
            end), w).

Definition path_resolve (path : string) : M World string :=
  λ w, (Ok (resolved w path), w).

(** [list(path.glob(pattern))]: the matching entries of a directory; a
    path that is no directory has none. *)
Definition path_glob (path pattern : string) : M World (list string) :=
  λ w, (Ok (match fs w !! path with
            | Some (Directory entries) =>
                Config.joinpath path <$>
                  filter (λ name, Text.fnmatch pattern name = true) entries
            | _ => []
            end), w).

Definition is_file_node (node : option Node) : bool :=
  match node with
  | Some (Directory _) | None => false
  | Some _ => true
  end.

(** The new directory [path], with its name added to the listing of its
    parent. *)
Definition add_directory (path : string) (files : gmap string Node) : gmap string Node :=
  let files :=
    match Text.path_parent path with
    | Some parent =>
        match files !! parent with
        | Some (Directory entries) =>
            <[parent := Directory (entries ++ [Text.path_name path])]> files
        | _ => files
        end
    | None => files
    end in
  <[path := Directory []]> files.

Definition missing_parent (path : string) (w : World) : bool :=
  match Text.path_parent path with
  | Some parent => match fs w !! parent with None => true | Some _ => false end
  | None => false
  end.

(** [os.mkdir(path)]: it creates one directory, and raises when a file
    stands in the way, when the path exists, when its parent is missing or
    when the system refuses. *)
Definition os_mkdir (path : string) : M World unit :=
  λ w, if existsb (λ a, is_file_node (fs w !! a)) (Text.path_parents path) then
         (Raise (OSError ("Not a directory: " +:+ path)), w)
       else if bool_decide (is_Some (fs w !! path)) then
         (Raise (OSError ("File exists: " +:+ path)), w)
       else if missing_parent path w then
         (Raise (FileNotFoundError ("No such file or directory: " +:+ path)), w)
       else if creatable w path then (Ok (), set_fs (add_directory path) w)
       else (Raise (OSError ("Permission denied: " +:+ path)), w).

(** [path.mkdir(exist_ok=True)] *)
Definition mkdir_exist_ok (path : string) : M World unit :=
  try_catch is_OSError (os_mkdir path)
    (λ e, if is_FileNotFoundError e then raise e
          else isd ← path_is_dir path; if isd : bool then mret () else raise e).

(** [path.mkdir(parents=True, exist_ok=True)], where [up] holds the
    ancestors of [path], the nearest first: when the parent is missing it
    is made in the same way, and then the directory itself. *)
Fixpoint mkdir_parents (path : string) (up : list string) : M World unit :=
  try_catch is_OSError (os_mkdir path)
    (λ e, if is_FileNotFoundError e then
            match up with
            | [] => raise e
            | parent :: up' => mkdir_parents parent up';; mkdir_exist_ok path
            end
          else isd ← path_is_dir path; if isd : bool then mret () else raise e).

Definition mkdir (path : string) : M World unit :=
  mkdir_parents path (Text.path_parents path).

(** *** pandas input and output *)

(** [pd.read_json(f, convert_dates=cs)] *)
Definition read_json `{!Library} (f : string) (convert_dates : list string)
    : M World DataFrame :=
  λ w, (match fs w !! f with
        | Some (JsonFile (Some records)) => Ok (Pandas.convert_dates convert_dates records)
        | Some _ => Raise (ValueError ("Expected object or value: " +:+ f))
        | None => Raise (FileNotFoundError ("File " +:+ f +:+ " does not exist"))
        end, w).

(** [df.to_parquet(path, index=False)]: the table is encoded and then
    written.  The index is not written, so the table in the file has the
    default labels. *)
Definition to_parquet (df : DataFrame) (path : string) : M World unit :=
  λ w, if negb (encodable w df) then
         (Raise (ValueError "Conversion failed for a column of the table"), w)
       else if writable w path then
         (Ok (), set_fs <[path := ParquetFile (reset_index df)]> w)
       else (Raise (OSError ("Permission denied: " +:+ path)), w).

(** [pd.read_parquet(path)] *)
Definition read_parquet (path : string) : M World DataFrame :=
  λ w, (match fs w !! path with
        | Some (ParquetFile table) => Ok table
        | Some _ => Raise (OSError ("Parquet magic bytes not found: " +:+ path))
        | None => Raise (FileNotFoundError ("No such file or directory: " +:+ path))
        end, w).

(** *** [geoip2.database] *)

(** [geoip2.database.Reader(path)] *)
Definition open_reader (path : string) : M World Reader :=
  λ w, (match fs w !! path with
        | Some (GeoDatabase db) => Ok db
        | Some _ => Raise (ValueError ("Error opening database file: " +:+ path))
        | None => Raise (FileNotFoundError ("No such file or directory: '" +:+ path +:+ "'"))
        end, w).

(** [reader.method(ip)] *)
Definition query `{!Library} {A} (method : string) (f : value → option A) (ip : value)
    : M World A :=
  λ w, (match f ip with
        | Some record => Ok record
        | None => Raise (AddressNotFoundError
                           ("The address " +:+ py_str ip +:+ " is not in the database."))
        end, add_lookup (method, ip) w).

End OS.

(** ** [src/ReadProcess.py] *)

Module ReadProcess.
Import Config OS.

Section extract.
Context `{!Library}.

Definition extract_json_files (path : string) : M World Pandas.DataFrame :=
  ex ← path_exists path;
  if negb ex then
    r ← path_resolve path;
    logger ERROR ("Ruta no existe: " +:+ r);;
    r ← path_resolve path;
    raise (FileNotFoundError ("No existe la ruta: " +:+ r))
  else
    files ← path_glob path "*.json";
    if decide (files = []) then
      r ← path_resolve path;
      logger ERROR ("No se encontraron JSONs en: " +:+ r);;
      r ← path_resolve path;
      raise (FileNotFoundError ("No se encontraron JSON en: " +:+ r))
    else
      logger INFO ("✓ Se encontraron " +:+ pretty (length files) +:+ " archivos JSON");;
      try_except
        (frames ← mapM (λ f, read_json f ["ts"]) files;
         let df := Pandas.concat_all frames in
         logger INFO ("✓ Extract completado: " +:+ pretty (Pandas.len df) +:+
                      " registros, " +:+ pretty (length (Pandas.columns df)) +:+
                      " columnas");;
         mret df)
        (λ e, logger ERROR ("Error al leer JSONs: " +:+ str_exn e);; raise e).

Definition save_to_parquet (df : Pandas.DataFrame) (output_file : string) : M World unit :=
  try_except
    (to_parquet df output_file;;
     logger INFO ("✓ Tabla [" +:+ Text.path_stem output_file +:+ "] guardada: " +:+
                  Text.path_name output_file +:+ " (" +:+ pretty (Pandas.len df) +:+
                  " filas)"))
    (λ e, logger ERROR ("Error guardando " +:+ Text.path_stem output_file +:+ ": " +:+
                        str_exn e);;
          raise e).

End extract.

Section transforms.
Context `{!Library}.

(** [temp[c] = temp["ts"].dt.f] *)
Definition assign_dt (temp : Obj.ref) (c : string) (f : Z → value) : M Obj.Store unit :=
  ts ← Obj.getitem temp "ts";
  s ← lift (Pandas.dt f ts);
  Obj.setitem temp c s.

Definition clean_data (df : Obj.ref) : M Obj.Store Obj.ref :=
  df ← Obj.copy df;
  cols ← Obj.columns df;
  let audiobook_cols :=
    filter (λ col, Text.contains AUDIOBOOK_COLUMNS_PATTERN col = true) cols in
  empty ← (if decide (audiobook_cols = []) then mret false
           else Obj.all_null df audiobook_cols);
  df ← (if empty : bool then Obj.drop df audiobook_cols else mret df);
  df ← Obj.reset_index df;
  idx ← Obj.index df;
  Obj.setitem df "event_id" idx;;
  mret df.

Definition create_dim_date (df : Obj.ref) : M Obj.Store Obj.ref :=
  temp ← Obj.copy df;
  assign_dt temp "date_id" (λ t, VStr (Calendar.strftime_YmdH t));;
  assign_dt temp "year" (λ t, VInt (Calendar.year_of t));;
  assign_dt temp "month" (λ t, VInt (Calendar.month_of t));;
  assign_dt temp "day" (λ t, VInt (Calendar.day_of t));;
  assign_dt temp "weekday" (λ t, VStr (Calendar.day_name t));;
  assign_dt temp "hour" (λ t, VInt (Calendar.hour_of t));;
  sel ← Obj.getitems temp ["date_id"; "year"; "month"; "day"; "weekday"; "hour"];
  ded ← Obj.drop_duplicates sel "date_id";
  dim_date ← Obj.reset_index ded;
  mret dim_date.

Definition classify_device (platform : value) : string :=
  if decide (platform = NaN) then "unknown"
  else
    let platform := Text.lower (Pandas.py_str platform) in
    if Text.contains "android" platform || Text.contains "ios" platform then "mobile"
    else if Text.contains "windows" platform || Text.contains "mac" platform then "desktop"
    else if Text.contains "web" platform then "web"
    else "other".

Definition create_dim_device (df : Obj.ref) : M Obj.Store Obj.ref :=
  temp ← Obj.copy df;
  platform ← Obj.getitem temp "platform";
  Obj.setitem temp "device_type" ((λ p, VStr (classify_device p)) <$> platform);;
  sel ← Obj.getitems temp ["platform"; "device_type"];
  ded ← Obj.drop_duplicates sel "platform";
  dim_device ← Obj.reset_index ded;
  idx ← Obj.index dim_device;
  Obj.setitem dim_device "device_id" idx;;
  unknown ← Obj.from_records
    [[("platform", VStr UNKNOWN_VALUE); ("device_type", VStr "unknown");
      ("device_id", VInt UNKNOWN_ID)]];
  dim_device ← Obj.concat unknown dim_device;
  mret dim_device.

Definition create_dim_track (df : Obj.ref) : M Obj.Store Obj.ref :=
  uri ← Obj.getitem df "spotify_track_uri";
  sel ← Obj.select df (Pandas.notna uri);
  music_df ← Obj.copy sel;
  sel ← Obj.getitems music_df
    ["spotify_track_uri"; "master_metadata_track_name";
     "master_metadata_album_artist_name"; "master_metadata_album_album_name"];
  ded ← Obj.drop_duplicates sel "spotify_track_uri";
  dim_track ← Obj.reset_index ded;
  dim_track ← Obj.rename dim_track
    [("master_metadata_track_name", "track_name");
     ("master_metadata_album_artist_name", "artist_name");
     ("master_metadata_album_album_name", "album_name")];
  idx ← Obj.index dim_track;
  Obj.setitem dim_track "track_id" idx;;
  unknown ← Obj.from_records
    [[("spotify_track_uri", VStr UNKNOWN_VALUE); ("track_name", VStr "Non-Music Content");
      ("artist_name", VStr "N/A"); ("album_name", VStr "N/A");
      ("track_id", VInt UNKNOWN_ID)]];
  dim_track ← Obj.concat unknown dim_track;
  mret dim_track.

Definition create_dim_episode (df : Obj.ref) : M Obj.Store Obj.ref :=
  uri ← Obj.getitem df "spotify_episode_uri";
  sel ← Obj.select df (Pandas.notna uri);
  podcast_df ← Obj.copy sel;
  sel ← Obj.getitems podcast_df ["spotify_episode_uri"; "episode_name"; "episode_show_name"];
  ded ← Obj.drop_duplicates sel "spotify_episode_uri";
  dim_episode ← Obj.reset_index ded;
  dim_episode ← Obj.rename dim_episode [("episode_show_name", "show_name")];
  idx ← Obj.index dim_episode;
  Obj.setitem dim_episode "episode_id" idx;;
  unknown ← Obj.from_records
    [[("spotify_episode_uri", VStr UNKNOWN_VALUE);
      ("episode_name", VStr "Non-Podcast Content");
      ("show_name", VStr "N/A");
      ("episode_id", VInt UNKNOWN_ID)]];
  dim_episode ← Obj.concat unknown dim_episode;
  mret dim_episode.

Definition create_dim_location (df : Obj.ref) : M Obj.Store Obj.ref :=
  sel ← Obj.getitems df ["ip_addr"; "conn_country"];
  ded ← Obj.drop_duplicates sel "ip_addr";
  dim_location ← Obj.reset_index ded;
  idx ← Obj.index dim_location;
  Obj.setitem dim_location "location_id" idx;;
  unknown ← Obj.from_records
    [[("ip_addr", VStr "0.0.0.0"); ("conn_country", VStr "XX");
      ("location_id", VInt UNKNOWN_ID)]];
  dim_location ← Obj.concat unknown dim_location;
  mret dim_location.

(** [fact[c] = fact[c].fillna(UNKNOWN_ID).astype(int)] *)
Definition fill_key (fact : Obj.ref) (c : string) : M Obj.Store unit :=
  s ← Obj.getitem fact c;
  s ← lift (Pandas.astype_int (Pandas.fillna (VInt UNKNOWN_ID) s));
  Obj.setitem fact c s.

(** The body of [for col in bool_cols] *)
Definition to_flag (fact : Obj.ref) (col : string) : M Obj.Store unit :=
  cols ← Obj.columns fact;
  if decide (col ∈ cols) then
    s ← Obj.getitem fact col;
    Obj.setitem fact col
      (Pandas.astype_bool (Pandas.fillna (VInt 0) (Pandas.to_numeric_coerce s)))
  else mret ().

Definition create_fact_table (df : Obj.ref) : M Obj.Store Obj.ref :=
  temp ← Obj.copy df;
  assign_dt temp "date_id" (λ t, VStr (Calendar.strftime_YmdH t));;
  sel ← Obj.getitems temp
    ["event_id"; "date_id"; "track_id"; "episode_id";
     "device_id"; "location_id"; "ms_played";
     "skipped"; "shuffle"; "offline"; "incognito_mode"];
  fact ← Obj.copy sel;
  fill_key fact "track_id";;
  fill_key fact "episode_id";;
  fill_key fact "device_id";;
  fill_key fact "location_id";;
  let bool_cols := ["skipped"; "shuffle"; "offline"; "incognito_mode"] in
  for_each bool_cols (to_flag fact);;
  mret fact.

End transforms.

(** The tables of one run. *)
Record Tables := mkTables {
  dim_date : Pandas.DataFrame;
  dim_device : Pandas.DataFrame;
  dim_track : Pandas.DataFrame;
  dim_episode : Pandas.DataFrame;
  dim_location : Pandas.DataFrame;
  (** the cleaned rows with the four surrogate keys attached *)
  merged : Pandas.DataFrame;
  fact_table : Pandas.DataFrame }.

Section main.
Context `{!Library, !Environment}.

(** [df.merge(dim[[key, id]], on=key, how="left")] *)
Definition attach_key (df dim : Pandas.DataFrame) (key id : string)
    : result Pandas.DataFrame :=
  mapping ← Pandas.getitems [key; id] dim;
  Pandas.merge_left df mapping key.

(** Steps 2 to 4 of [main]: from the cleaned rows to the tables.  [main]
    keeps every table in a variable of its own and hands it to the
    transforms, none of which writes to a frame it was given. *)
Definition star_schema (df : Pandas.DataFrame) : result Tables :=
  dim_date ← Obj.call create_dim_date df;
  dim_device ← Obj.call create_dim_device df;
  dim_track ← Obj.call create_dim_track df;
  dim_episode ← Obj.call create_dim_episode df;
  dim_location ← Obj.call create_dim_location df;
  df ← attach_key df dim_device "platform" "device_id";
  df ← attach_key df dim_track "spotify_track_uri" "track_id";
  df ← attach_key df dim_episode "spotify_episode_uri" "episode_id";
  df ← attach_key df dim_location "ip_addr" "location_id";
  fact_table ← Obj.call create_fact_table df;
  mret (mkTables dim_date dim_device dim_track dim_episode dim_location df fact_table).

(** [nulls.to_dict()] in an f-string *)
Definition dict_str (counts : list (string * nat)) : string :=
  "{" +:+ String.concat ", " ((λ kv, "'" +:+ kv.1 +:+ "': " +:+ pretty kv.2) <$> counts)
      +:+ "}".

Definition main : M World unit :=
  df ← extract_json_files RAW_DATA_DIR;
  df ← lift (Obj.call clean_data df);
  t ← lift (star_schema df);
  logger INFO "--- VALIDACIÓN FINAL ---";;
  logger INFO ("Filas originales: " +:+ pretty (Pandas.len (merged t)));;
  logger INFO ("Filas Fact Table: " +:+ pretty (Pandas.len (fact_table t)));;
  let keys_to_check := ["track_id"; "episode_id"; "device_id"; "location_id"] in
  nulls ← lift (mapM (λ c, s ← Pandas.getitem c (fact_table t);
                           mret (c, length (filter (λ v, v = NaN) s)))
                     keys_to_check);
  (if bool_decide (0 < sum_list nulls.*2) then
     logger WARNING ("Valores nulos encontrados en Fact Table: " +:+ dict_str nulls)
   else
     logger INFO "✓ Sin valores nulos en claves foráneas");;
  save_to_parquet (dim_date t) DIM_DATE_FILE;;
  save_to_parquet (dim_device t) DIM_DEVICE_FILE;;
  save_to_parquet (dim_track t) DIM_TRACK_FILE;;
  save_to_parquet (dim_episode t) DIM_EPISODE_FILE;;
  save_to_parquet (dim_location t) DIM_LOCATION_FILE;;
  save_to_parquet (fact_table t) FACT_TABLE_FILE.

End main.
End ReadProcess.

(** ** [src/localization.py] *)

Module Localization.
Import Config OS.

Section localization.
Context `{!Library, !Environment}.

Definition text (o : option string) : value := from_option VStr NaN o.
Definition number (o : option Q) : value := from_option VFloat NaN o.

(** The addresses the enricher does not query. *)
Definition placeholders : list value := [VStr "0.0.0.0"; VStr "unknown"; VStr "Unknown"].

(** The body of [for ip in ips_unicas]; [geo_data] is the list built so
    far, the result is the list after this address. *)
Definition lookup_ip (city_reader asn_reader country_reader : Reader)
    (geo_data : list (list (string * value))) (ip : value)
    : M World (list (list (string * value))) :=
  try_except
    (res_city ← query "city" (city city_reader) ip;
     res_asn ← query "asn" (asn asn_reader) ip;
     res_country ← query "country" (country country_reader) ip;
     mret (geo_data ++
           [[("ip_addr", ip);
             ("city", text (city_name res_city));
             ("country", text (country_name res_country));
             ("region", text (subdivision_name res_city));
             ("latitude", number (latitude res_city));
             ("longitude", number (longitude res_city));
             ("isp", text (autonomous_system_organization res_asn))]]))
    (λ e, logger DEBUG ("IP no encontrada en BD: " +:+ Pandas.py_str ip);;
          mret geo_data).

Fixpoint lookup_loop (city_reader asn_reader country_reader : Reader)
    (ips : list value) (geo_data : list (list (string * value)))
    : M World (list (list (string * value))) :=
  match ips with
  | [] => mret geo_data
  | ip :: ips' =>
      geo_data ← lookup_ip city_reader asn_reader country_reader geo_data ip;
      lookup_loop city_reader asn_reader country_reader ips' geo_data
  end.

(** [dim_enriched[col] = dim_enriched[col].fillna(v)] *)
Definition fill (col : string) (v : value) (dim_enriched : Pandas.DataFrame)
    : M World Pandas.DataFrame :=
  s ← lift (Pandas.getitem col dim_enriched);
  mret (Pandas.setitem col (Pandas.fillna v s) dim_enriched).

Definition enrich_location_dimension : M World unit :=
  ex ← path_exists DIM_LOCATION_FILE;
  if negb ex then
    logger ERROR ("No se encontró: " +:+ DIM_LOCATION_FILE);;
    raise (FileNotFoundError ("Error: No se encontró " +:+ DIM_LOCATION_FILE))
  else
    dim_location ← read_parquet DIM_LOCATION_FILE;
    logger INFO ("✓ Iniciando enriquecimiento para " +:+
                 pretty (Pandas.len dim_location) +:+ " registros");;
    ip_addr ← lift (Pandas.getitem "ip_addr" dim_location);
    let queried := Pandas.select (Pandas.invert (Pandas.isin placeholders ip_addr))
                                 dim_location in
    ip_addr ← lift (Pandas.getitem "ip_addr" queried);
    let ips_unicas := Pandas.unique ip_addr in
    geo_data ← try_catch is_FileNotFoundError
      (city_reader ← open_reader CITY_DB;
       asn_reader ← open_reader ASN_DB;
       country_reader ← open_reader COUNTRY_DB;
       lookup_loop city_reader asn_reader country_reader ips_unicas [])
      (λ e, logger ERROR ("Bases GeoLite2 no encontradas en: " +:+ DB_DIR);;
            logger ERROR ("Detalle: " +:+ str_exn e);;
            raise e);
    let df_geo := Pandas.from_records geo_data in
    logger INFO ("✓ " +:+ pretty (Pandas.len df_geo) +:+
                 " IPs enriquecidas geográficamente");;
    dim_enriched ← lift (Pandas.merge_left dim_location df_geo "ip_addr");
    let cols_to_fix := ["city"; "region"; "isp"] in
    dim_enriched ← foldl (λ acc col, d ← acc; fill col (VStr "Unknown") d)
                         (mret dim_enriched) cols_to_fix;
    dim_enriched ← fill "latitude" (VInt 0) dim_enriched;
    dim_enriched ← fill "longitude" (VInt 0) dim_enriched;
    try_except
      (to_parquet dim_enriched DIM_LOCATION_ENRICHED_FILE;;
       logger INFO ("✓ Dimensión enriquecida guardada: " +:+
                    Text.path_name DIM_LOCATION_ENRICHED_FILE);;
       logger INFO "   Campos: City, Region, Latitude, Longitude, ISP")
      (λ e, logger ERROR ("Error guardando dim_location_enriched: " +:+ str_exn e);;
            raise e).

End localization.
End Localization.

(** ** [src/utils.py] *)

Module Utils.
Import OS.

Definition validate_input_file (file_path file_type : string) : M World bool :=
  ex ← path_exists file_path;
  if negb ex then
    logger ERROR (file_type +:+ " no existe: " +:+ file_path);; mret false
  else
    isf ← path_is_file file_path;
    if negb isf then
      logger ERROR (file_type +:+ " no es un archivo válido: " +:+ file_path);; mret false
    else
      logger DEBUG ("✓ " +:+ file_type +:+ " validado: " +:+ file_path);; mret true.

Definition validate_input_directory (dir_path : string) (must_contain : option string)
    : M World bool :=
  ex ← path_exists dir_path;
  if negb ex then
    logger ERROR ("Directorio no existe: " +:+ dir_path);; mret false
  else
    isd ← path_is_dir dir_path;
    if negb isd then
      logger ERROR ("No es un directorio válido: " +:+ dir_path);; mret false
    else
      match must_contain with
      | Some (String c p as pattern) =>
          files ← path_glob dir_path pattern;
          if decide (files = []) then
            logger ERROR ("Directorio vacío o sin archivos '" +:+ pattern +:+ "': " +:+
                          dir_path);;
            mret false
          else
            logger DEBUG ("✓ Directorio contiene " +:+ pretty (length files) +:+
                          " archivos: " +:+ pattern);;
            logger DEBUG ("✓ Directorio validado: " +:+ dir_path);; mret true
      | _ => logger DEBUG ("✓ Directorio validado: " +:+ dir_path);; mret true
      end.

Definition ensure_output_directory (output_dir : string) : M World bool :=
  try_except
    (mkdir output_dir;;
     logger DEBUG (" Directorio de salida listo: " +:+ output_dir);;
     mret true)
    (λ e, logger ERROR ("No se pudo crear directorio: " +:+ output_dir +:+
                        ". Error: " +:+ str_exn e);;
          mret false).

End Utils.

(** ** [src/validate.py] *)

(** What pandas prints in the report of [validate_data]: parameters too. *)
Class Reporting := {
  (** [s.value_counts().head(n)] as (value, count) pairs *)
  value_counts_head : nat → Pandas.Series → list (value * nat);
  (** [df.to_string()] *)
  to_string : Pandas.DataFrame → string;
}.

Module Validate.
Import Config OS.

Section validate.
Context `{!Library, !Reporting, !Environment}.

(** [df[col].dtype == object]: the column holds strings *)
Definition is_object (s : Pandas.Series) : bool :=
  existsb (λ v, match v with VStr _ => true | _ => false end) s.

(** [(s != v).sum()] *)
Definition count_ne (v : value) (s : Pandas.Series) : nat :=
  length (filter (λ x, x ≠ v) s).

(** [(s != 0).sum()] on a numeric column *)
Definition count_nonzero (s : Pandas.Series) : nat :=
  length (List.filter (λ x, match x with
                            | VInt z => bool_decide (z ≠ 0%Z)
                            | VFloat q => bool_decide (Qnum q ≠ 0%Z)
                            | VBool b => b
                            | _ => true
                            end) s).

(** [df[df[col] != "Unknown"][col].value_counts().head(10)], logged *)
Definition log_top (col what : string) (df : Pandas.DataFrame) : M World unit :=
  try_except
    (s ← lift (Pandas.getitem col df);
     let top := value_counts_head 10 (filter (λ x, x ≠ VStr "Unknown") s) in
     for_each (imap (λ i vc, (S i, vc)) top) (λ entry,
       logger INFO ("   " +:+ pretty entry.1 +:+ ". " +:+ Pandas.py_str entry.2.1 +:+
                    ": " +:+ pretty entry.2.2)))
    (λ e, logger WARNING ("   Error procesando " +:+ what +:+ ": " +:+ str_exn e)).

Definition validate_data : M World unit :=
  ex ← path_exists DIM_LOCATION_ENRICHED_FILE;
  if negb ex then
    logger WARNING ("El archivo enriquecido no existe: " +:+ DIM_LOCATION_ENRICHED_FILE)
  else
    read ← try_except (df ← read_parquet DIM_LOCATION_ENRICHED_FILE; mret (Some df))
             (λ e, logger ERROR ("Error leyendo archivo de validación: " +:+ str_exn e);;
                   mret None);
    match read with
    | None => mret ()
    | Some df =>
        logger INFO (Text.nl +:+ "---  RESUMEN DE ENRIQUECIMIENTO ---");;
        logger INFO ("Total de registros: " +:+ pretty (Pandas.len df));;
        logger INFO (Text.nl +:+ " Conteo de valores por columna:");;
        for_each ["city"; "region"; "isp"; "latitude"] (λ col,
          if decide (col ∈ Pandas.columns df) then
            try_except
              (s ← lift (Pandas.getitem col df);
               let count := if is_object s then count_ne (VStr "Unknown") s
                            else count_nonzero s in
               logger INFO ("   " +:+ Text.capitalize col +:+ ": " +:+ pretty count +:+
                            " registros encontrados"))
              (λ e, logger WARNING ("   Error contando " +:+ col +:+ ": " +:+ str_exn e))
          else logger WARNING ("   Columna '" +:+ col +:+ "' no encontrada"));;
        when (bool_decide ("isp" ∈ Pandas.columns df))
          (logger INFO (Text.nl +:+ " TOP 10 COMPAÑÍAS DE INTERNET (ISP):");; log_top "isp" "ISPs" df);;
        when (bool_decide ("city" ∈ Pandas.columns df))
          (logger INFO (Text.nl +:+ " TOP 10 CIUDADES DETECTADAS:");; log_top "city" "ciudades" df);;
        logger INFO (Text.nl +:+ " MUESTRA DE DATOS:");;
        try_except
          (let cols_to_show := filter (λ col, col ∈ Pandas.columns df)
                                      ["ip_addr"; "city"; "region"; "isp"] in
           shown ← lift (Pandas.getitems cols_to_show df);
           let sample := to_string (Pandas.mkDataFrame (Pandas.columns shown)
                                      (take 5 (Pandas.rows shown))) in
           logger INFO (Text.nl +:+ sample))
          (λ e, logger WARNING ("   Error mostrando muestra: " +:+ str_exn e))
    end.

End validate.
End Validate.

(** ** [main.py]: the orchestrator *)

Module Orchestrator.
Import Config OS.

Section orchestrator.
Context `{!Library, !Reporting, !Environment}.

(** [sys.exit(code)] *)
Definition sys_exit {A} (code : Z) : M World A := raise (SystemExit code).

(** The directories [config.py] creates when it is imported. *)
Definition import_config : M World unit :=
  mkdir RAW_DATA_DIR;; mkdir PROCESSED_DATA_DIR;; mkdir LOGS_DIR;; mkdir DB_DIR.

Definition validate_paths : M World unit :=
  logger INFO " VALIDANDO CONFIGURACIÓN Y RUTAS";;
  try_except
    (ok ← Utils.validate_input_directory RAW_DATA_DIR (Some "*.json");
     when (negb ok)
       (logger ERROR ("Directorio de entrada no válido: " +:+ RAW_DATA_DIR);;
        sys_exit 1);;
     ok ← Utils.ensure_output_directory PROCESSED_DATA_DIR;
     when (negb ok)
       (logger ERROR ("No se pudo crear directorio de salida: " +:+ PROCESSED_DATA_DIR);;
        sys_exit 1);;
     ok ← Utils.ensure_output_directory LOGS_DIR;
     when (negb ok)
       (logger ERROR ("No se pudo crear directorio de logs: " +:+ LOGS_DIR);;
        sys_exit 1);;
     logger INFO "✓ Rutas validadas correctamente")
    (λ e, logger ERROR ("Error en validación de configuración: " +:+ str_exn e);;
          sys_exit 1).

Definition paso_1 : M World unit :=
  logger INFO " PASO 1: EXTRACT & TRANSFORM";;
  try_except
    (ReadProcess.main;; logger INFO " ETL completado exitosamente")
    (λ e, logger ERROR (" Error en ETL: " +:+ str_exn e);; sys_exit 1).

Definition paso_2 : M World unit :=
  logger INFO " PASO 2: ENRIQUECIMIENTO GEOGRÁFICO";;
  try_except
    (Localization.enrich_location_dimension;;
     logger INFO "✓ Enriquecimiento de geolocalización completado")
    (λ e, logger WARNING (" No se pudo enriquecer datos geográficos: " +:+ str_exn e);;
          logger INFO "   Continuando sin enriquecimiento (requiere GeoLite2)...").

Definition paso_3 : M World unit :=
  logger INFO " PASO 3: VALIDACIÓN DE DATOS";;
  try_except
    (Validate.validate_data;; logger INFO "✓ Validación completada")
    (λ e, logger WARNING (" Advertencia en validación: " +:+ str_exn e)).

Definition resumen : M World unit :=
  logger INFO " PIPELINE COMPLETADO";;
  logger INFO (Text.nl +:+ " Datos procesados guardados en:");;
  logger INFO ("   → " +:+ PROCESSED_DATA_DIR);;
  logger INFO (Text.nl +:+ " Archivos generados:");;
  logger INFO "   - dim_date.parquet";;
  logger INFO "   - dim_device.parquet";;
  logger INFO "   - dim_track.parquet";;
  logger INFO "   - dim_episode.parquet";;
  logger INFO "   - dim_location.parquet";;
  logger INFO "   - dim_location_enriched.parquet (si aplicó geolocalización)";;
  logger INFO "   - fact_table.parquet";;
  logger INFO (Text.nl +:+ " Log de ejecución guardado en:");;
  logger INFO ("   → " +:+ LOGS_DIR);;
  logger INFO (Text.nl +:+ " Listo para análisis").

(** The module body of [main.py], after its imports. *)
Definition main_py : M World unit :=
  import_config;;
  validate_paths;;
  paso_1;;
  paso_2;;
  paso_3;;
  resumen.

End orchestrator.
End Orchestrator.

(** ** The tables the transforms return

    What each transform of [ReadProcess.py] computes, as a function of the
    table it is given.  [call_clean_data] to [call_create_fact_table] below
    prove that running the transform on the object store returns exactly
    this table. *)

Module Functional.
Import Config Pandas.

Section functional.
Context `{!Library}.

Definition audiobook_cols (df : DataFrame) : list string :=
  filter (λ col, Text.contains AUDIOBOOK_COLUMNS_PATTERN col = true) (columns df).

(** Whether the cleaner drops the audiobook columns. *)
Definition drops_group (df : DataFrame) : bool :=
  if decide (audiobook_cols df = []) then false
  else all_null (audiobook_cols df) df.

(** The frame the cleaner numbers: the input, without the audiobook
    columns when they are dropped. *)
Definition reduced (df : DataFrame) : DataFrame :=
  if drops_group df then drop_columns (audiobook_cols df) df else df.

Definition clean_data (df : DataFrame) : DataFrame :=
  let df := reset_index (reduced df) in
  setitem "event_id" (index df) df.

Definition assign_dt (c : string) (f : Z → value) (temp : DataFrame)
    : result DataFrame :=
  ts ← getitem "ts" temp;
  s ← dt f ts;
  Ok (setitem c s temp).

Definition create_dim_date (df : DataFrame) : result DataFrame :=
  temp ← assign_dt "date_id" (λ t, VStr (Calendar.strftime_YmdH t)) df;
  temp ← assign_dt "year" (λ t, VInt (Calendar.year_of t)) temp;
  temp ← assign_dt "month" (λ t, VInt (Calendar.month_of t)) temp;
  temp ← assign_dt "day" (λ t, VInt (Calendar.day_of t)) temp;
  temp ← assign_dt "weekday" (λ t, VStr (Calendar.day_name t)) temp;
  temp ← assign_dt "hour" (λ t, VInt (Calendar.hour_of t)) temp;
  sel ← getitems ["date_id"; "year"; "month"; "day"; "weekday"; "hour"] temp;
  ded ← drop_duplicates "date_id" sel;
  Ok (reset_index ded).

(** The last three steps of a builder with a sentinel: number the rows,
    then put the sentinel row in front. *)
Definition with_sentinel (id : string) (unknown : list (string * value))
    (dim : DataFrame) : DataFrame :=
  concat (from_records [unknown]) (setitem id (index dim) dim).

Definition create_dim_device (df : DataFrame) : result DataFrame :=
  platform ← getitem "platform" df;
  let temp :=
    setitem "device_type" ((λ p, VStr (ReadProcess.classify_device p)) <$> platform) df in
  sel ← getitems ["platform"; "device_type"] temp;
  ded ← drop_duplicates "platform" sel;
  Ok (with_sentinel "device_id"
        [("platform", VStr UNKNOWN_VALUE); ("device_type", VStr "unknown");
         ("device_id", VInt UNKNOWN_ID)]
        (reset_index ded)).

Definition create_dim_track (df : DataFrame) : result DataFrame :=
  uri ← getitem "spotify_track_uri" df;
  let music_df := select (notna uri) df in
  sel ← getitems
    ["spotify_track_uri"; "master_metadata_track_name";
     "master_metadata_album_artist_name"; "master_metadata_album_album_name"] music_df;
  ded ← drop_duplicates "spotify_track_uri" sel;
  Ok (with_sentinel "track_id"
        [("spotify_track_uri", VStr UNKNOWN_VALUE); ("track_name", VStr "Non-Music Content");
         ("artist_name", VStr "N/A"); ("album_name", VStr "N/A");
         ("track_id", VInt UNKNOWN_ID)]
        (rename [("master_metadata_track_name", "track_name");
                 ("master_metadata_album_artist_name", "artist_name");
                 ("master_metadata_album_album_name", "album_name")]
                (reset_index ded))).

Definition create_dim_episode (df : DataFrame) : result DataFrame :=
  uri ← getitem "spotify_episode_uri" df;
  let podcast_df := select (notna uri) df in
  sel ← getitems ["spotify_episode_uri"; "episode_name"; "episode_show_name"] podcast_df;
  ded ← drop_duplicates "spotify_episode_uri" sel;
  Ok (with_sentinel "episode_id"
        [("spotify_episode_uri", VStr UNKNOWN_VALUE);
         ("episode_name", VStr "Non-Podcast Content");
         ("show_name", VStr "N/A");
         ("episode_id", VInt UNKNOWN_ID)]
        (rename [("episode_show_name", "show_name")] (reset_index ded))).

Definition create_dim_location (df : DataFrame) : result DataFrame :=
  sel ← getitems ["ip_addr"; "conn_country"] df;
  ded ← drop_duplicates "ip_addr" sel;
  Ok (with_sentinel "location_id"
        [("ip_addr", VStr "0.0.0.0"); ("conn_country", VStr "XX");
         ("location_id", VInt UNKNOWN_ID)]
        (reset_index ded)).

Definition fill_key (c : string) (fact : DataFrame) : result DataFrame :=
  s ← getitem c fact;
  s ← astype_int (fillna (VInt UNKNOWN_ID) s);
  Ok (setitem c s fact).

Definition to_flag (col : string) (fact : DataFrame) : result DataFrame :=
  if decide (col ∈ columns fact) then
    s ← getitem col fact;
    Ok (setitem col (astype_bool (fillna (VInt 0) (to_numeric_coerce s))) fact)
  else Ok fact.

Definition create_fact_table (df : DataFrame) : result DataFrame :=
  temp ← assign_dt "date_id" (λ t, VStr (Calendar.strftime_YmdH t)) df;
  fact ← getitems
    ["event_id"; "date_id"; "track_id"; "episode_id";
     "device_id"; "location_id"; "ms_played";
     "skipped"; "shuffle"; "offline"; "incognito_mode"] temp;
  fact ← fill_key "track_id" fact;
  fact ← fill_key "episode_id" fact;
  fact ← fill_key "device_id" fact;
  fact ← fill_key "location_id" fact;
  fact ← to_flag "skipped" fact;
  fact ← to_flag "shuffle" fact;
  fact ← to_flag "offline" fact;
  to_flag "incognito_mode" fact.

End functional.
End Functional.

(** ** The words of the specification

    Predicates that restate the specification, to compare the code with. *)

Module Spec.
Import Pandas.

Section device_rule.
Context `{!Library}.

(** [word] occurs in the lower-cased platform string. *)
Definition mentions (platform : value) (word : string) : Prop :=
  Text.occurs_in word (Text.lower (py_str platform)).

(** The classification rule of the specification, in its order of
    precedence: a rule applies only when no earlier one does. *)
Inductive device_rule (platform : value) : string → Prop :=
  | rule_unknown :
      platform = NaN → device_rule platform "unknown"
  | rule_mobile :
      platform ≠ NaN →
      mentions platform "android" ∨ mentions platform "ios" →
      device_rule platform "mobile"
  | rule_desktop :
      platform ≠ NaN →
      ¬ (mentions platform "android" ∨ mentions platform "ios") →
      mentions platform "windows" ∨ mentions platform "mac" →
      device_rule platform "desktop"
  | rule_web :
      platform ≠ NaN →
      ¬ (mentions platform "android" ∨ mentions platform "ios") →
      ¬ (mentions platform "windows" ∨ mentions platform "mac") →
      mentions platform "web" →
      device_rule platform "web"
  | rule_other :
      platform ≠ NaN →
      ¬ (mentions platform "android" ∨ mentions platform "ios") →
      ¬ (mentions platform "windows" ∨ mentions platform "mac") →
      ¬ mentions platform "web" →
      device_rule platform "other".

Definition device_types : list string :=
  ["mobile"; "desktop"; "web"; "other"; "unknown"].
End device_rule.

(** *** Dimension tables *)

Definition natural_keys_unique (nk : string) (dim : DataFrame) : Prop :=
  NoDup (col nk dim).

(** The first row has surrogate key -1 and no other row has. *)
Definition one_sentinel_first (pk : string) (dim : DataFrame) : Prop :=
  ∃ ids, col pk dim = VInt Config.UNKNOWN_ID :: ids ∧ VInt Config.UNKNOWN_ID ∉ ids.

(** What the specification says of the table a builder returns, with
    natural key [nk] and surrogate key [pk]. *)
Definition dimension_claim (builder : Obj.ref → M Obj.Store Obj.ref)
    (nk pk : string) : Prop :=
  ∀ df dim, Obj.call builder df = Ok dim →
    natural_keys_unique nk dim ∧ one_sentinel_first pk dim.

(** The five claims of the specification together. *)
Definition dimension_claims `{!Library} : Prop :=
  dimension_claim ReadProcess.create_dim_date "date_id" "date_id" ∧
  dimension_claim ReadProcess.create_dim_device "platform" "device_id" ∧
  dimension_claim ReadProcess.create_dim_track "spotify_track_uri" "track_id" ∧
  dimension_claim ReadProcess.create_dim_episode "spotify_episode_uri" "episode_id" ∧
  dimension_claim ReadProcess.create_dim_location "ip_addr" "location_id".

(** The columns of the cleaned events that the pipeline reads. *)
Definition event_columns : list string :=
  ["ts"; "platform"; "ms_played"; "conn_country"; "ip_addr";
   "master_metadata_track_name"; "master_metadata_album_artist_name";
   "master_metadata_album_album_name"; "spotify_track_uri";
   "episode_name"; "episode_show_name"; "spotify_episode_uri";
   "skipped"; "shuffle"; "offline"; "incognito_mode"; "event_id"].

(** A table of cleaned events: it has the columns above and its [ts]
    column holds instants. *)
Definition is_events (df : DataFrame) : Prop :=
  Forall (λ c, c ∈ columns df) event_columns ∧ Forall datetimelike (col "ts" df).

(** *** Resolving keys *)

(** The merged row [r] is the row [l] with, in column [id], the surrogate
    key of a row of [dim] that has the natural key of [l], or a missing value;
    it is missing when no row of [dim] has that key.  The columns [id_x] and
    [id_y] are those a merge makes when both sides have a column [id]. *)
Definition attaches (key id : string) (dim : DataFrame) (l r : Row) : Prop :=
  (∀ c, c ≠ id → c ≠ id +:+ "_x" → c ≠ id +:+ "_y" → cell r c = cell l c) ∧
  (cell r id = NaN ∨
   ∃ d, d ∈ rows dim ∧ cell d key = cell l key ∧ cell r id = cell d id) ∧
  ((∀ d, d ∈ rows dim → cell d key ≠ cell l key) → cell r id = NaN).

(** *** The fact table *)

(** [y] is [x] with a new cell in column [c], which [Q] relates to [x]. *)
Definition sets (c : string) (Q : Row → value → Prop) (x y : Row) : Prop :=
  Q x (cell y c) ∧ ∀ c', c' ≠ c → cell y c' = cell x c'.

(** The row [r] of the fact table made from the merged row [m]: the event
    number is kept, the date key is that of the timestamp, and each foreign
    key is the integer read from the merged cell, with -1 for a missing one. *)
Definition fact_row `{!Library} (m r : Row) : Prop :=
  cell r "event_id" = cell m "event_id" ∧
  cell r "date_id" = dt_value (λ t, VStr (Calendar.strftime_YmdH t)) (cell m "ts") ∧
  ∀ c, c ∈ ["track_id"; "episode_id"; "device_id"; "location_id"] →
    to_int (fill_cell (VInt Config.UNKNOWN_ID) (cell m c)) = Ok (cell r c).

(** A foreign key: an integer, either -1 or a surrogate key of [dim]. *)
Definition foreign_key (c : string) (dim : DataFrame) (r : Row) : Prop :=
  ∃ z, cell r c = VInt z ∧ (z = Config.UNKNOWN_ID ∨ VInt z ∈ col c dim).

(** *** Transforms and the tables they are given *)

(** The seven transforms of the core. *)
Definition transforms `{!Library} : list (Obj.ref → M Obj.Store Obj.ref) :=
  [ReadProcess.clean_data; ReadProcess.create_dim_date; ReadProcess.create_dim_device;
   ReadProcess.create_dim_track; ReadProcess.create_dim_episode;
   ReadProcess.create_dim_location; ReadProcess.create_fact_table].

(** A call of [f] changes no table that exists when it is made, whether it
    returns or raises, and the table it returns is a new one. *)
Definition returns_new_table (f : Obj.ref → M Obj.Store Obj.ref) : Prop :=
  ∀ (h : Obj.Store) (l : Obj.ref),
    (∀ l0 df0, h !! l0 = Some df0 → (f l h).2 !! l0 = Some df0) ∧
    (∀ l', (f l h).1 = Ok l' → h !! l' = None ∧ is_Some ((f l h).2 !! l')).

(** The natural keys of the rows after the first are distinct. *)
Definition data_keys_unique (nk : string) (dim : DataFrame) : Prop :=
  NoDup (drop 1 (col nk dim)).

(** The surrogate keys of the rows after the first are 0, 1, 2, ... *)
Definition data_ids_dense (pk : string) (dim : DataFrame) : Prop :=
  drop 1 (col pk dim) = (λ i, VInt (Z.of_nat i)) <$> seq 0 (len dim - 1).

End Spec.

(** ** Concrete inputs

    The tables and worlds the examples below run the code on. *)

Module Examples.
Import Pandas OS.

(** The two instants of the examples, as an export writes them. *)
Definition instants : list (value * Z) :=
  [(VStr "2021-03-04T12:34:56Z", 1614861296%Z); (VStr "2021-03-04T13:34:56Z", 1614864896%Z)].

Definition library : Library :=
  {| repr_float := λ _, "0.0"; numeric_of_str := λ _, None; int_of_str := λ _, None;
     datetime_of := λ v, (λ found, found.2.2) <$> list_find (λ kv, kv.1 = v) instants |}.

Definition environment : Environment := {| SPOTIFY_USER_SUFFIX := None |}.

(** One play event, as [read_json] delivers it with its date converted. *)
Definition event (ts : Z) (platform track_uri episode_uri ip : value)
    : list (string * value) :=
  [("ts", VTs ts); ("platform", platform); ("ms_played", VInt 1000);
   ("conn_country", VStr "ES"); ("ip_addr", ip);
   ("master_metadata_track_name", NaN); ("master_metadata_album_artist_name", NaN);
   ("master_metadata_album_album_name", NaN); ("spotify_track_uri", track_uri);
   ("episode_name", NaN); ("episode_show_name", NaN); ("spotify_episode_uri", episode_uri);
   ("audiobook_title", NaN); ("skipped", VBool false); ("shuffle", VBool true);
   ("offline", VBool false); ("incognito_mode", NaN)].

(** Two plays of 2021-03-04: a song on a phone and a play with neither a
    track nor an episode. *)
Definition two_plays : DataFrame :=
  from_records
    [event 1614861296 (VStr "iOS 15") (VStr "spotify:track:a") NaN (VStr "8.8.8.8");
     event 1614864896 NaN NaN NaN (VStr "10.0.0.1")].

(** One play whose platform string is the placeholder of the device
    dimension. *)
Definition unknown_platform : DataFrame :=
  from_records
    [event 1614861296 (VStr "Unknown") (VStr "spotify:track:a") NaN (VStr "8.8.8.8")].

(** The records of a table as an export file holds them: the instants are
    text. *)
Definition as_text (v : value) : value :=
  match v with
  | VTs t => from_option (λ found, found.2.1) v (list_find (λ kv, kv.2 = t) instants)
  | _ => v
  end.

Definition exported (df : DataFrame) : DataFrame :=
  setitem "ts" (as_text <$> col "ts" df) df.

(** The tables that steps 2 to 4 of [main] make of the cleaned rows of
    [df], or no tables when a step raises. *)
Definition no_tables : ReadProcess.Tables :=
  let none := mkDataFrame [] [] in
  ReadProcess.mkTables none none none none none none none.

Definition tables_of (df : DataFrame) : ReadProcess.Tables :=
  match @ReadProcess.star_schema library (Functional.clean_data df) with
  | Ok t => t
  | Raise _ => no_tables
  end.

Definition two_plays_tables : ReadProcess.Tables :=
  Eval vm_compute in tables_of two_plays.

Definition unknown_platform_tables : ReadProcess.Tables :=
  Eval vm_compute in tables_of unknown_platform.

End Examples.

(** ** What the specification says of the stages *)

Module Stages.
Import Pandas OS Config.

(** *** The record loader *)

(** The files of the directory [path] that match the pattern, in the order
    of enumeration. *)
Definition matching_files (w : World) (path : string) : list string :=
  match fs w !! path with
  | Some (Directory entries) =>
      joinpath path <$> filter (λ name, Text.fnmatch "*.json" name = true) entries
  | _ => []
  end.

(** The directory is absent or has no matching file. *)
Definition no_input (w : World) (path : string) : Prop :=
  fs w !! path = None ∨ matching_files w path = [].

(** A file-not-found error whose message contains the resolved path. *)
Definition not_found {A} (w : World) (path : string) (r : result A) : Prop :=
  ∃ msg, r = Raise (FileNotFoundError msg) ∧ Text.occurs_in (resolved w path) msg.

(** [frames] are the records of [files], one table for each file. *)
Definition parsed `{!Library} (w : World) (files : list string) (frames : list DataFrame)
    : Prop :=
  Forall2 (λ f df, ∃ records, fs w !! f = Some (JsonFile (Some records)) ∧
                              df = convert_dates ["ts"] records) files frames.

(** [records] are the tables the files hold, as they are written. *)
Definition stored (w : World) (files : list string) (records : list DataFrame) : Prop :=
  Forall2 (λ f table, fs w !! f = Some (JsonFile (Some table))) files records.

(** The [ts] field of the records of a file can be read: it is a column,
    and each of its values is missing or denotes an instant. *)
Definition timestamped `{!Library} (records : DataFrame) : Prop :=
  "ts" ∈ columns records ∧ Forall (λ v, is_Some (to_datetime_cell v)) (col "ts" records).

(** The loader as the specification describes it. *)
Definition loader_claim `{!Library} : Prop :=
  ∀ (w : World) (path : string),
    let r := (ReadProcess.extract_json_files path w).1 in
    (not_found w path r ↔ no_input w path) ∧
    (¬ no_input w path →
     ∃ frames, parsed w (matching_files w path) frames ∧ r = Ok (concat_all frames)).

(** *** Making directories *)

(** Every file of [before] is in [after] as it was, and so is every
    directory, to whose listing entries may have been added. *)
Definition extends (before after : gmap string Node) : Prop :=
  ∀ p node, before !! p = Some node →
    match node with
    | Directory entries => ∃ more, after !! p = Some (Directory (entries ++ more))
    | _ => after !! p = Some node
    end.

(** What making the directory [path] and its missing ancestors does, from
    the world [w] to the result [r] and the world [w']: it writes no log
    record, touches nothing but the path and its ancestors, keeps what
    exists, and changes nothing when the path exists; the path is a
    directory afterwards exactly when it returns, a new one being empty. *)
Definition makes_directory (path : string) (w : World) (r : result unit) (w' : World)
    : Prop :=
  log w' = log w ∧
  (∀ p, p ≠ path → p ∉ Text.path_parents path → fs w' !! p = fs w !! p) ∧
  extends (fs w) (fs w') ∧
  (is_Some (fs w !! path) → fs w' = fs w) ∧
  match r with
  | Ok _ => ∃ entries, fs w' !! path = Some (Directory entries) ∧
                       (fs w !! path = None → entries = [])
  | Raise e => is_Exception e = true ∧ ∀ entries, fs w' !! path ≠ Some (Directory entries)
  end.

(** *** Stages and the files they leave alone *)

(** Running [m] changes no file whose path satisfies [keep], queries the
    databases only for addresses that satisfy [asked], and what it raises is
    an [Exception], which [except Exception] catches. *)
Definition confined {A} (keep : string → Prop) (asked : value → Prop)
    (m : M World A) : Prop :=
  ∀ w, (∀ p, keep p → fs (m w).2 !! p = fs w !! p) ∧
       (∀ q, q ∈ lookups (m w).2 → q ∈ lookups w ∨ asked q.2) ∧
       (∀ e, (m w).1 = Raise e → is_Exception e = true).

Section paths.
Context `{!Environment}.

(** The six tables stage 1 persists. *)
Definition stage1_files : list string :=
  [DIM_DATE_FILE; DIM_DEVICE_FILE; DIM_TRACK_FILE; DIM_EPISODE_FILE;
   DIM_LOCATION_FILE; FACT_TABLE_FILE].

End paths.

End Stages.

Module Worlds.
Import Pandas OS.

Definition world (files : list (string * Node)) : World :=
  {| fs := list_to_map files;
     resolved := λ path, "/home/user/spotify/" +:+ path;
     writable := λ _, true;
     encodable := λ _, true;
     creatable := λ _, true;
     log := [];
     lookups := [] |}.

(** An input directory whose one JSON file cannot be parsed. *)
Definition unreadable : World :=
  world [("data/raw", Directory ["a.json"; "notes.txt"]);
         ("data/raw/a.json", JsonFile None);
         ("data/raw/notes.txt", OtherFile)].

(** An input directory with two exports. *)
Definition two_exports : World :=
  world [("data/raw", Directory ["a.json"; "b.json"]);
         ("data/raw/a.json", JsonFile (Some (Examples.exported Examples.two_plays)));
         ("data/raw/b.json", JsonFile (Some (Examples.exported Examples.unknown_platform)))].

End Worlds.

(** ** What the enricher reads and writes *)

Module Enrichment.
Import Pandas OS Config.

(** *** The geolocation enricher *)

Section enrichment.
Context `{!Library, !Environment}.

(** The record the enricher makes of an address that the three databases
    know, and none for an address one of them does not know. *)
Definition record (c a k : Reader) (ip : value) : option (list (string * value)) :=
  match city c ip, asn a ip, country k ip with
  | Some res_city, Some res_asn, Some res_country =>
      Some [("ip_addr", ip);
            ("city", Localization.text (city_name res_city));
            ("country", Localization.text (country_name res_country));
            ("region", Localization.text (subdivision_name res_city));
            ("latitude", Localization.number (latitude res_city));
            ("longitude", Localization.number (longitude res_city));
            ("isp", Localization.text (autonomous_system_organization res_asn))]
  | _, _, _ => None
  end.

(** An address that is in the enrichment table: it is queried and the three
    lookups succeed. *)
Definition enriched (c a k : Reader) (ip : value) : Prop :=
  (ip ∉ Localization.placeholders) ∧ is_Some (record c a k ip).

(** The database queries the enricher makes for one address: the next
    database is asked when the one before knows the address. *)
Definition queries (c a k : Reader) (ip : value) : list (string * value) :=
  ("city", ip) ::
  match city c ip with
  | Some _ => ("asn", ip) ::
              match asn a ip with Some _ => [("country", ip)] | None => [] end
  | None => []
  end.

(** The addresses of the location dimension the enricher queries, in the
    order of the queries. *)
Definition queried (dim : DataFrame) : list value :=
  unique (col "ip_addr"
    (select (invert (isin Localization.placeholders (col "ip_addr" dim))) dim)).

(** [df[c] = df[c].fillna(v)] on a table that has the column. *)
Definition fill (c : string) (v : value) (df : DataFrame) : DataFrame :=
  setitem c (fillna v (col c df)) df.

(** The merged table with the five fields filled. *)
Definition filled (merged : DataFrame) : DataFrame :=
  fill "longitude" (VInt 0) (fill "latitude" (VInt 0)
    (fill "isp" (VStr "Unknown") (fill "region" (VStr "Unknown")
      (fill "city" (VStr "Unknown") merged)))).

(** The value [fillna] puts in a column, for the columns the enricher
    fills. *)
Definition default_of (c : string) : option value :=
  if decide (c ∈ ["city"; "region"; "isp"]) then Some (VStr "Unknown")
  else if decide (c ∈ ["latitude"; "longitude"]) then Some (VInt 0)
  else None.

(** A cell of column [c] after the fills. *)
Definition filled_cell (c : string) (x : value) : value :=
  from_option (λ v, fill_cell v x) x (default_of c).

(** The fields the enricher fills, and a row that has the default in each. *)
Definition enrichment_fields : list string :=
  ["city"; "region"; "isp"; "latitude"; "longitude"].

Definition defaults (r : Row) : Prop :=
  cell r "city" = VStr "Unknown" ∧ cell r "region" = VStr "Unknown" ∧
  cell r "isp" = VStr "Unknown" ∧
  cell r "latitude" = VInt 0 ∧ cell r "longitude" = VInt 0.

(** The databases the enricher opens. *)
Definition readers (w : World) (c a k : Reader) : Prop :=
  fs w !! CITY_DB = Some (GeoDatabase c) ∧ fs w !! ASN_DB = Some (GeoDatabase a) ∧
  fs w !! COUNTRY_DB = Some (GeoDatabase k).

(** The enricher returns and [out] is the table it has persisted. *)
Definition persisted (w : World) (out : DataFrame) : Prop :=
  (Localization.enrich_location_dimension w).1 = Ok () ∧
  fs (Localization.enrich_location_dimension w).2 !! DIM_LOCATION_ENRICHED_FILE
    = Some (ParquetFile out).

(** The enricher as the specification describes it: in the table it
    persists, a row whose address was not enriched has the defaults, and no
    field of a row is missing. *)
Definition enrichment_claim : Prop :=
  ∀ (w : World) (out : DataFrame) (c a k : Reader) (r : Row),
    persisted w out → readers w c a k → r ∈ rows out →
    (¬ enriched c a k (cell r "ip_addr") → defaults r) ∧
    (∀ f, f ∈ columns out → cell r f ≠ NaN).

End enrichment.
End Enrichment.

Module Geo.
Import Pandas OS.

(** A city database that knows one address. *)
Definition google : Reader :=
  {| city := λ ip, if decide (ip = VStr "8.8.8.8")
                   then Some (mkCity (Some "Mountain View") (Some "California")
                                     (Some (37 # 1)%Q) (Some (-122 # 1)%Q))
                   else None;
     asn := λ ip, if decide (ip = VStr "8.8.8.8")
                  then Some (mkASN (Some "GOOGLE")) else None;
     country := λ ip, if decide (ip = VStr "8.8.8.8")
                      then Some (mkCountry (Some "United States")) else None |}.

(** The location dimension of stage 1 for two addresses, a public and a
    private one, after the reserved row. *)
Definition dim_location : DataFrame :=
  from_records
    [[("ip_addr", VStr "0.0.0.0"); ("conn_country", VStr "Unknown"); ("location_id", VInt (-1))];
     [("ip_addr", VStr "8.8.8.8"); ("conn_country", VStr "US"); ("location_id", VInt 0)];
     [("ip_addr", VStr "10.0.0.1"); ("conn_country", VStr "ES"); ("location_id", VInt 1)]].

(** The world after stage 1, with the three databases. *)
Definition after_stage_1 : World :=
  Worlds.world
    [("data/processed/dim_location.parquet", ParquetFile dim_location);
     ("data/Databases/GeoLite2-City.mmdb", GeoDatabase google);
     ("data/Databases/GeoLite2-ASN.mmdb", GeoDatabase google);
     ("data/Databases/GeoLite2-Country.mmdb", GeoDatabase google)].

(** A location dimension without a public address, and the world after
    stage 1 with it. *)
Definition private_dim : DataFrame :=
  from_records
    [[("ip_addr", VStr "0.0.0.0"); ("conn_country", VStr "Unknown"); ("location_id", VInt (-1))];
     [("ip_addr", VStr "10.0.0.1"); ("conn_country", VStr "ES"); ("location_id", VInt 0)]].

Definition private_only : World :=
  Worlds.world
    [("data/processed/dim_location.parquet", ParquetFile private_dim);
     ("data/Databases/GeoLite2-City.mmdb", GeoDatabase google);
     ("data/Databases/GeoLite2-ASN.mmdb", GeoDatabase google);
     ("data/Databases/GeoLite2-Country.mmdb", GeoDatabase google)].

(** The table the enricher persists in the world [after_stage_1]. *)
Definition dim_location_enriched : DataFrame :=
  Eval vm_compute in
    match fs (@Localization.enrich_location_dimension Examples.library
                Examples.environment after_stage_1).2
          !! "data/processed/dim_location_enriched.parquet" with
    | Some (ParquetFile out) => out
    | _ => mkDataFrame [] []
    end.

Definition public_row : Row :=
  Eval vm_compute in default (mkRow 0 ∅) (rows dim_location_enriched !! 1).
Definition private_row : Row :=
  Eval vm_compute in default (mkRow 0 ∅) (rows dim_location_enriched !! 2).

(** The record of the public address. *)
Definition google_record : list (string * value) :=
  Eval vm_compute in
    default [] (Enrichment.record google google google (VStr "8.8.8.8")).

End Geo.

(** ** What a stage may do *)

Module Behaviour.
Import OS.

(** What [r] raises, if it raises, is an [Exception]. *)
Definition raises_exceptions {A} (r : result A) : Prop :=
  ∀ e, r = Raise e → is_Exception e = true.

(** Running [m] always returns and changes no file. *)
Definition harmless {A} (m : M World A) : Prop :=
  ∀ w, (∃ a, (m w).1 = Ok a) ∧ fs (m w).2 = fs w.

End Behaviour.

(** ** More concrete inputs *)

Module Runs.
Import Pandas OS.

(** A report that prints nothing of the tables. *)
Definition reporting : Reporting :=
  {| value_counts_head := λ _ _, []; to_string := λ _, EmptyString |}.

(** A fresh checkout: no file, no directory. *)
Definition fresh : World := Worlds.world [].

End Runs.

(** * Properties *)

(** Membership in a list of given strings, by evaluation. *)
Ltac in_list :=
  match goal with
  | |- ?x ∈ ?l => apply (bool_decide_unpack (x ∈ l)); vm_compute; exact I
  end.

(** ** Strings *)

Section text_facts.
Import Text.

Lemma append_nil (b : string) : EmptyString +:+ b = b.
Proof. reflexivity. Qed.

Lemma append_cons (x : ascii) (a b : string) : String x a +:+ b = String x (a +:+ b).
Proof. reflexivity. Qed.

Lemma append_assoc (a b c : string) : (a +:+ b) +:+ c = a +:+ (b +:+ c).
Proof.
  induction a as [|x a IH]; [done|]. by rewrite !append_cons, IH.
Qed.

Lemma prefix_occurs (needle hay : string) :
  String.prefix needle hay = true ↔ ∃ post, hay = needle +:+ post.
Proof.
  revert hay. induction needle as [|c needle IH]; intros hay; simpl.
  - split; [by exists hay | by destruct hay].
  - destruct hay as [|d hay]; simpl.
    + split; [done | intros [post Hpost]; done].
    + destruct (Ascii.ascii_dec c d) as [->|Hcd].
      * rewrite IH. split; intros [post Hpost]; exists post;
          rewrite ?append_cons in *; congruence.
      * split; [done | intros [post Hpost]; rewrite append_cons in Hpost; congruence].
Qed.

Lemma contains_nil (needle : string) :
  contains needle EmptyString = String.prefix needle EmptyString || false.
Proof. reflexivity. Qed.

Lemma contains_cons (needle : string) (d : ascii) (hay : string) :
  contains needle (String d hay) =
  String.prefix needle (String d hay) || contains needle hay.
Proof. reflexivity. Qed.

Lemma contains_occurs (needle hay : string) :
  contains needle hay = true ↔ occurs_in needle hay.
Proof.
  unfold occurs_in. induction hay as [|d hay IH]; [rewrite contains_nil|rewrite contains_cons].
  - rewrite orb_false_r, prefix_occurs. split.
    + intros [post Hpost]. by exists EmptyString, post.
    + intros ([|x pre] & post & Hpost); [by exists post | done].
  - rewrite orb_true_iff, prefix_occurs, IH. split.
    + intros [[post Hpost] | (pre & post & Hpost)].
      * by exists EmptyString, post.
      * exists (String d pre), post. by rewrite append_cons, Hpost.
    + intros ([|x pre] & post & Hpost).
      * left. by exists post.
      * right. exists pre, post. rewrite append_cons in Hpost. congruence.
Qed.

Lemma not_contains_occurs (needle hay : string) :
  contains needle hay = false ↔ ¬ occurs_in needle hay.
Proof. rewrite <- contains_occurs. by destruct (contains needle hay). Qed.

Lemma lower_ascii_idemp (c : ascii) : lower_ascii (lower_ascii c) = lower_ascii c.
Proof.
  unfold lower_ascii. cbv zeta.
  destruct (bool_decide (65 ≤ nat_of_ascii c ≤ 90)) eqn:Hc.
  - apply bool_decide_eq_true in Hc.
    rewrite nat_ascii_embedding by lia. by rewrite bool_decide_eq_false_2 by lia.
  - by rewrite Hc.
Qed.

Lemma lower_idemp (s : string) : lower (lower s) = lower s.
Proof. induction s as [|c s IH]; simpl; [done | by rewrite lower_ascii_idemp, IH]. Qed.
End text_facts.

(** ** Device classification *)

Section classify_device_facts.
Context `{!Library}.
Import Spec ReadProcess.

Lemma mentions_contains (platform : value) (word : string) :
  Text.contains word (Text.lower (Pandas.py_str platform)) = true ↔ mentions platform word.
Proof. apply contains_occurs. Qed.

Lemma classify_device_rule (platform : value) :
  device_rule platform (classify_device platform).
Proof.
  unfold classify_device. destruct (decide (platform = NaN)) as [->|Hna].
  { by constructor. }
  destruct (Text.contains "android" _ || Text.contains "ios" _) eqn:Hmobile.
  { apply rule_mobile; [done|]. rewrite <- !mentions_contains. by apply orb_true_iff. }
  assert (¬ (mentions platform "android" ∨ mentions platform "ios")) as Hnm.
  { rewrite <- !mentions_contains, <- orb_true_iff. by rewrite Hmobile. }
  destruct (Text.contains "windows" _ || Text.contains "mac" _) eqn:Hdesktop.
  { apply rule_desktop; [done..|]. rewrite <- !mentions_contains. by apply orb_true_iff. }
  assert (¬ (mentions platform "windows" ∨ mentions platform "mac")) as Hnd.
  { rewrite <- !mentions_contains, <- orb_true_iff. by rewrite Hdesktop. }
  destruct (Text.contains "web" _) eqn:Hweb.
  { apply rule_web; [done..|]. by apply mentions_contains. }
  apply rule_other; [done..|]. rewrite <- mentions_contains. by rewrite Hweb.
Qed.

Lemma device_rule_functional (platform : value) (c1 c2 : string) :
  device_rule platform c1 → device_rule platform c2 → c1 = c2.
Proof. intros H1 H2. destruct H1; destruct H2; done. Qed.

(** C5.  [classify_device] is a function of the platform value that obeys
    the rule of the specification: a missing value is "unknown"; otherwise
    the lower-cased string decides, "android" or "ios" giving "mobile",
    else "windows" or "mac" giving "desktop", else "web" giving "web", else
    "other".  The rule leaves one category only, the result is one of the
    five, and two strings that differ in case only are classified alike. *)
Theorem classify_device_spec (platform : value) :
  device_rule platform (classify_device platform) ∧
  (∀ c, device_rule platform c ↔ c = classify_device platform) ∧
  classify_device platform ∈ device_types ∧
  (∀ s, classify_device (VStr (Text.lower s)) = classify_device (VStr s)).
Proof.
  split; [apply classify_device_rule|]. split; [|split].
  - intros c. split.
    + intros Hc. eapply device_rule_functional; [done | apply classify_device_rule].
    + intros ->. apply classify_device_rule.
  - unfold device_types.
    destruct (classify_device_rule platform); rewrite !elem_of_cons; tauto.
  - intros s. unfold classify_device. simpl. by rewrite lower_idemp.
Qed.
End classify_device_facts.

(** ** Data frames *)

Section pandas_facts.
Import Pandas.

Lemma cell_mkRow (l : Z) (m : gmap string value) (c : string) :
  cell (mkRow l m) c = default NaN (m !! c).
Proof. reflexivity. Qed.

Lemma getitem_Ok (c : string) (df : DataFrame) (s : Series) :
  getitem c df = Ok s ↔ c ∈ columns df ∧ s = col c df.
Proof.
  unfold getitem. destruct (decide (c ∈ columns df)); split;
    [intros [= <-]; done | intros [_ ->]; done | done | intros [? _]; done].
Qed.

Lemma length_col (c : string) (df : DataFrame) : length (col c df) = len df.
Proof. apply length_fmap. Qed.

Lemma length_index (df : DataFrame) : length (index df) = len df.
Proof. apply length_fmap. Qed.

(** *** Relabelling *)

Lemma relabel_lookup (rs : list Row) (i : nat) :
  relabel rs !! i = (λ r, mkRow (Z.of_nat i) (cells r)) <$> rs !! i.
Proof. apply list_lookup_imap. Qed.

Lemma length_relabel (rs : list Row) : length (relabel rs) = length rs.
Proof. apply length_imap. Qed.

Lemma cells_relabel (rs : list Row) : cells <$> relabel rs = cells <$> rs.
Proof.
  apply list_eq. intros i. rewrite !list_lookup_fmap, relabel_lookup.
  by destruct (rs !! i).
Qed.

Lemma col_cells (c : string) (rs1 rs2 : list Row) :
  cells <$> rs1 = cells <$> rs2 →
  (λ r, cell r c) <$> rs1 = (λ r, cell r c) <$> rs2.
Proof.
  intros Heq.
  change (λ r, cell r c) with ((λ m : gmap string value, default NaN (m !! c)) ∘ cells).
  by rewrite !list_fmap_compose, Heq.
Qed.

Lemma col_relabel (c : string) (rs : list Row) :
  (λ r, cell r c) <$> relabel rs = (λ r, cell r c) <$> rs.
Proof. apply col_cells, cells_relabel. Qed.

Lemma col_reset_index (c : string) (df : DataFrame) :
  col c (reset_index df) = col c df.
Proof. apply col_relabel. Qed.

Lemma len_reset_index (df : DataFrame) : len (reset_index df) = len df.
Proof. apply length_relabel. Qed.

Lemma label_relabel (rs : list Row) :
  label <$> relabel rs = Z.of_nat <$> seq 0 (length rs).
Proof.
  apply list_eq. intros i. rewrite !list_lookup_fmap, relabel_lookup.
  destruct (rs !! i) as [r|] eqn:Hi; simpl.
  - apply lookup_lt_Some in Hi. by rewrite lookup_seq_lt.
  - apply lookup_ge_None in Hi. by rewrite lookup_seq_ge.
Qed.

(** After [reset_index] the index is 0, 1, ..., n-1. *)
Lemma index_reset_index (df : DataFrame) :
  index (reset_index df) = (λ i, VInt (Z.of_nat i)) <$> seq 0 (len df).
Proof.
  unfold index. change (λ r, VInt (label r)) with (VInt ∘ label).
  rewrite list_fmap_compose. simpl. rewrite label_relabel.
  by rewrite <- list_fmap_compose.
Qed.

Lemma default_index_relabel (cs : list string) (rs : list Row) :
  default_index {| columns := cs; rows := relabel rs |}.
Proof.
  intros i r. simpl. rewrite relabel_lookup.
  destruct (rs !! i); [|done]. by intros [= <-].
Qed.

(** Resetting a default index changes nothing. *)
Lemma reset_index_id (df : DataFrame) : default_index df → reset_index df = df.
Proof.
  intros Hdf. destruct df as [cs rs]. unfold reset_index. simpl. f_equal.
  apply list_eq. intros i. rewrite relabel_lookup.
  destruct (rs !! i) as [r|] eqn:Hi; [|done]. simpl.
  specialize (Hdf i r Hi). destruct r as [l m]. simpl in *. by rewrite Hdf.
Qed.

(** *** Assigning a column *)

Lemma rows_setitem_lookup (c : string) (s : Series) (df : DataFrame) (i : nat) :
  rows (setitem c s df) !! i =
  match rows df !! i, s !! i with
  | Some r, Some v => Some (mkRow (label r) (<[c := v]> (cells r)))
  | _, _ => None
  end.
Proof.
  simpl. rewrite lookup_zip_with.
  destruct (rows df !! i) as [r|]; [simpl|done]. by destruct (s !! i) as [v|].
Qed.

Lemma default_index_setitem (c : string) (s : Series) (df : DataFrame) :
  default_index df → default_index (setitem c s df).
Proof.
  intros Hdf i r. rewrite rows_setitem_lookup.
  destruct (rows df !! i) as [r0|] eqn:Hi; [|done].
  destruct (s !! i); [|done]. intros [= <-]. simpl. by apply Hdf.
Qed.

Lemma len_setitem (c : string) (s : Series) (df : DataFrame) :
  length s = len df → len (setitem c s df) = len df.
Proof. unfold len. simpl. rewrite length_zip_with. lia. Qed.

Lemma col_setitem_eq (c : string) (s : Series) (df : DataFrame) :
  length s = len df → col c (setitem c s df) = s.
Proof.
  intros Hlen. apply list_eq. intros i. unfold col.
  rewrite list_lookup_fmap, rows_setitem_lookup.
  destruct (s !! i) as [v|] eqn:Hs.
  - destruct (rows df !! i) as [r|] eqn:Hr; simpl.
    + by rewrite cell_mkRow, lookup_insert_eq.
    + apply lookup_ge_None in Hr. apply lookup_lt_Some in Hs. unfold len in Hlen. lia.
  - by destruct (rows df !! i).
Qed.

Lemma col_setitem_ne (c c' : string) (s : Series) (df : DataFrame) :
  c ≠ c' → length s = len df → col c' (setitem c s df) = col c' df.
Proof.
  intros Hne Hlen. apply list_eq. intros i. unfold col.
  rewrite !list_lookup_fmap, rows_setitem_lookup.
  destruct (rows df !! i) as [r|] eqn:Hr; simpl; [|done].
  destruct (s !! i) as [v|] eqn:Hs; simpl.
  - by rewrite cell_mkRow, lookup_insert_ne.
  - apply lookup_ge_None in Hs. apply lookup_lt_Some in Hr. unfold len in Hlen. lia.
Qed.

Lemma columns_setitem (c : string) (s : Series) (df : DataFrame) (c' : string) :
  c' ∈ columns (setitem c s df) ↔ c' = c ∨ c' ∈ columns df.
Proof.
  simpl. destruct (decide (c ∈ columns df)).
  - split; [by right | by intros [->|]].
  - rewrite elem_of_app, list_elem_of_singleton. tauto.
Qed.

(** *** Projection *)

Lemma cell_restrict (cs : list string) (r : Row) (c : string) :
  c ∈ cs → cell (restrict cs r) c = cell r c.
Proof.
  intros Hc. unfold cell, restrict. simpl. f_equal.
  apply option_eq. intros v. rewrite map_lookup_filter_Some. simpl. tauto.
Qed.

Lemma getitems_Ok (cs : list string) (df sel : DataFrame) :
  getitems cs df = Ok sel ↔
  Forall (λ c, c ∈ columns df) cs ∧
  sel = {| columns := cs; rows := restrict cs <$> rows df |}.
Proof.
  unfold getitems.
  destruct (list_find _ cs) as [[i c]|] eqn:Hfind.
  - apply list_find_Some in Hfind as (Hi & Hc & _). split; [done|].
    intros [Hall _]. rewrite Forall_forall in Hall.
    destruct Hc. eapply Hall, list_elem_of_lookup_2, Hi.
  - apply list_find_None in Hfind. split.
    + intros [= <-]. split; [|done].
      eapply Forall_impl; [done|]. intros c Hc. simpl in Hc.
      by destruct (decide (c ∈ columns df)).
    + by intros [_ ->].
Qed.

Lemma default_index_getitems (cs : list string) (df sel : DataFrame) :
  getitems cs df = Ok sel → default_index df → default_index sel.
Proof.
  intros [_ ->]%getitems_Ok Hdf i r. simpl. rewrite list_lookup_fmap.
  destruct (rows df !! i) as [r0|] eqn:Hi; [|done]. intros [= <-]. simpl. by apply Hdf.
Qed.

Lemma default_index_merge_left (left right out : DataFrame) (key : string) :
  merge_left left right key = Ok out → default_index out.
Proof.
  unfold merge_left. destruct (decide _); [|done]. intros [= <-].
  apply default_index_relabel.
Qed.

Lemma getitems_total (cs : list string) (df : DataFrame) :
  Forall (λ c, c ∈ columns df) cs →
  getitems cs df = Ok {| columns := cs; rows := restrict cs <$> rows df |}.
Proof. intros Hcs. by apply getitems_Ok. Qed.

Lemma col_restrict (cs : list string) (rs : list Row) (c : string) :
  c ∈ cs → (λ r, cell r c) <$> (restrict cs <$> rs) = (λ r, cell r c) <$> rs.
Proof.
  intros Hc. rewrite <- list_fmap_compose. apply list_fmap_ext.
  intros i r _. simpl. by apply cell_restrict.
Qed.

(** *** Dropping duplicates *)

Lemma keep_first_keys (c : string) (seen : list value) (rs : list Row) (v : value) :
  v ∈ (λ r, cell r c) <$> keep_first c seen rs ↔
  v ∈ (λ r, cell r c) <$> rs ∧ v ∉ seen.
Proof.
  revert seen. induction rs as [|r rs IH]; intros seen; simpl.
  - rewrite elem_of_nil. tauto.
  - destruct (decide (cell r c ∈ seen)) as [Hin|Hnin]; simpl.
    + rewrite IH, elem_of_cons. split; [tauto|].
      intros [[->|?] ?]; tauto.
    + rewrite !elem_of_cons, IH, not_elem_of_cons. split.
      * intros [->|(? & ? & ?)]; tauto.
      * intros [[->|?] ?]; [tauto|].
        destruct (decide (v = cell r c)); tauto.
Qed.

Lemma keep_first_NoDup (c : string) (seen : list value) (rs : list Row) :
  NoDup ((λ r, cell r c) <$> keep_first c seen rs).
Proof.
  revert seen. induction rs as [|r rs IH]; intros seen; simpl.
  - constructor.
  - destruct (decide (cell r c ∈ seen)); simpl; [apply IH|].
    constructor; [|apply IH].
    rewrite keep_first_keys, not_elem_of_cons. tauto.
Qed.

Lemma keep_first_sublist (c : string) (seen : list value) (rs : list Row) :
  keep_first c seen rs ⊆ rs.
Proof.
  revert seen. induction rs as [|r rs IH]; intros seen; simpl; [done|].
  destruct (decide (cell r c ∈ seen)).
  - intros x Hx. apply list_elem_of_further. by eapply IH.
  - intros x [->|Hx]%elem_of_cons; [apply list_elem_of_here|].
    apply list_elem_of_further. by eapply IH.
Qed.

Lemma drop_duplicates_Ok (c : string) (df ded : DataFrame) :
  drop_duplicates c df = Ok ded ↔
  c ∈ columns df ∧
  ded = {| columns := columns df; rows := keep_first c [] (rows df) |}.
Proof.
  unfold drop_duplicates. destruct (decide (c ∈ columns df)); split;
    [intros [= <-]; done | intros [_ ->]; done | done | intros [? _]; done].
Qed.

(** The values of column [c] in the deduplicated frame: each value of the
    column once. *)
Lemma col_drop_duplicates (c : string) (df ded : DataFrame) :
  drop_duplicates c df = Ok ded →
  NoDup (col c ded) ∧ ∀ v, v ∈ col c ded ↔ v ∈ col c df.
Proof.
  intros [_ ->]%drop_duplicates_Ok. unfold col. simpl. split.
  - apply keep_first_NoDup.
  - intros v. rewrite keep_first_keys, elem_of_nil. tauto.
Qed.

(** *** Selecting rows *)

Lemma elem_of_select_notna (c : string) (df : DataFrame) (r : Row) :
  r ∈ rows (select (notna (col c df)) df) ↔ r ∈ rows df ∧ cell r c ≠ NaN.
Proof.
  unfold select, notna, col. simpl.
  rewrite <- list_fmap_compose, list_elem_of_fmap. split.
  - intros ([r' b] & -> & Hin). apply list_elem_of_filter in Hin as [Hb Hin].
    simpl in *. subst b.
    apply list_elem_of_lookup in Hin as [i Hi].
    apply lookup_zip_Some in Hi as [Hr Hb].
    rewrite list_lookup_fmap, Hr in Hb. simpl in Hb.
    injection Hb as Hb. apply bool_decide_eq_true in Hb.
    split; [by eapply list_elem_of_lookup_2 | done].
  - intros [Hin Hna]. exists (r, true). split; [done|].
    apply list_elem_of_filter. split; [done|].
    apply list_elem_of_lookup in Hin as [i Hi].
    apply list_elem_of_lookup. exists i. apply lookup_zip_Some. split; [done|].
    rewrite list_lookup_fmap, Hi. simpl. f_equal. by apply bool_decide_eq_true.
Qed.

(** *** Renaming *)

Lemma rename_key_lookup_ne (old new c : string) (m : gmap string value) :
  c ≠ old → c ≠ new → rename_key old new m !! c = m !! c.
Proof.
  intros Hold Hnew. unfold rename_key. destruct (m !! old); [|done].
  by rewrite lookup_insert_ne, lookup_delete_ne.
Qed.

Lemma rename_cells_lookup_ne (mapping : list (string * string))
    (m : gmap string value) (c : string) :
  Forall (λ on, c ≠ on.1 ∧ c ≠ on.2) mapping →
  foldl (λ m on, rename_key on.1 on.2 m) m mapping !! c = m !! c.
Proof.
  intros Hall. revert m. induction Hall as [|[old new] mapping [Ho Hn] _ IH];
    intros m; simpl; [done|].
  rewrite IH. by apply rename_key_lookup_ne.
Qed.

Lemma col_rename_ne (mapping : list (string * string)) (df : DataFrame) (c : string) :
  Forall (λ on, c ≠ on.1 ∧ c ≠ on.2) mapping →
  col c (rename mapping df) = col c df.
Proof.
  intros Hall. unfold col. simpl. rewrite <- list_fmap_compose.
  apply list_fmap_ext. intros i r _. simpl.
  unfold cell. simpl. by rewrite rename_cells_lookup_ne.
Qed.

Lemma len_rename (mapping : list (string * string)) (df : DataFrame) :
  len (rename mapping df) = len df.
Proof. apply length_fmap. Qed.

(** *** Concatenation *)

Lemma col_concat (c : string) (a b : DataFrame) :
  col c (concat a b) = col c a ++ col c b.
Proof. unfold col. simpl. by rewrite col_relabel, fmap_app. Qed.

Lemma len_concat (a b : DataFrame) : len (concat a b) = len a + len b.
Proof. unfold len. simpl. by rewrite length_relabel, length_app. Qed.
End pandas_facts.

(** ** Running a transform on the object store *)

Section call_facts.
Context `{!Library}.

#[local] Arguments Pandas.getitem : simpl never.
#[local] Arguments Pandas.getitems : simpl never.
#[local] Arguments Pandas.setitem : simpl never.
#[local] Arguments Pandas.index : simpl never.
#[local] Arguments Pandas.select : simpl never.
#[local] Arguments Pandas.drop_columns : simpl never.
#[local] Arguments Pandas.all_null : simpl never.
#[local] Arguments Pandas.reset_index : simpl never.
#[local] Arguments Pandas.drop_duplicates : simpl never.
#[local] Arguments Pandas.rename : simpl never.
#[local] Arguments Pandas.from_records : simpl never.
#[local] Arguments Pandas.concat : simpl never.
#[local] Arguments Pandas.dt : simpl never.
#[local] Arguments Pandas.notna : simpl never.
#[local] Arguments Pandas.fillna : simpl never.
#[local] Arguments Pandas.astype_int : simpl never.
#[local] Arguments Pandas.astype_bool : simpl never.
#[local] Arguments Pandas.to_numeric_coerce : simpl never.
#[local] Arguments Text.contains : simpl never.
#[local] Arguments ReadProcess.to_flag : simpl never.
#[local] Arguments Functional.to_flag : simpl never.

(** Unfold the calls on references and the monad, down to the store. *)
Ltac on_store :=
  unfold Obj.call, ReadProcess.assign_dt, ReadProcess.fill_key,
    Obj.copy, Obj.columns, Obj.index, Obj.getitem, Obj.setitem, Obj.getitems,
    Obj.select, Obj.drop, Obj.all_null, Obj.reset_index, Obj.drop_duplicates,
    Obj.rename, Obj.from_records, Obj.concat, Obj.deref, Obj.new, Obj.update, lift;
  unfold mbind, M_bind, mret, M_ret, result_bind; cbn.

(** Case on the next pandas call that may raise. *)
Ltac next_call :=
  match goal with
  | |- context [match ?r with Ok _ => _ | Raise _ => _ end] =>
      lazymatch r with
      | Ok _ => fail
      | Raise _ => fail
      | _ => destruct r; cbn; try done
      end
  | |- context [if ?b then _ else _] => destruct b; cbn; try done
  end.

Lemma call_clean_data (df : Pandas.DataFrame) :
  Obj.call ReadProcess.clean_data df = Ok (Functional.clean_data df).
Proof.
  unfold ReadProcess.clean_data, Functional.clean_data, Functional.reduced,
    Functional.drops_group, Functional.audiobook_cols.
  on_store.
  destruct (decide (filter _ (Pandas.columns df) = [])); cbn; [done|].
  by destruct (Pandas.all_null _ df).
Qed.

Lemma call_create_dim_date (df : Pandas.DataFrame) :
  Obj.call ReadProcess.create_dim_date df = Functional.create_dim_date df.
Proof.
  unfold ReadProcess.create_dim_date, Functional.create_dim_date, Functional.assign_dt.
  on_store. repeat next_call.
Qed.

Lemma call_create_dim_device (df : Pandas.DataFrame) :
  Obj.call ReadProcess.create_dim_device df = Functional.create_dim_device df.
Proof.
  unfold ReadProcess.create_dim_device, Functional.create_dim_device,
    Functional.with_sentinel.
  on_store. repeat next_call.
Qed.

Lemma call_create_dim_track (df : Pandas.DataFrame) :
  Obj.call ReadProcess.create_dim_track df = Functional.create_dim_track df.
Proof.
  unfold ReadProcess.create_dim_track, Functional.create_dim_track,
    Functional.with_sentinel.
  on_store. repeat next_call.
Qed.

Lemma call_create_dim_episode (df : Pandas.DataFrame) :
  Obj.call ReadProcess.create_dim_episode df = Functional.create_dim_episode df.
Proof.
  unfold ReadProcess.create_dim_episode, Functional.create_dim_episode,
    Functional.with_sentinel.
  on_store. repeat next_call.
Qed.

Lemma call_create_dim_location (df : Pandas.DataFrame) :
  Obj.call ReadProcess.create_dim_location df = Functional.create_dim_location df.
Proof.
  unfold ReadProcess.create_dim_location, Functional.create_dim_location,
    Functional.with_sentinel.
  on_store. repeat next_call.
Qed.

(** One round of the loop over the flag columns, on any store. *)
Lemma run_to_flag (col : string) (h : Obj.Store) (l : Obj.ref) (fact : Pandas.DataFrame) :
  h !! l = Some fact →
  ReadProcess.to_flag l col h =
  match Functional.to_flag col fact with
  | Ok fact' => (Ok (), <[l := fact']> h)
  | Raise e => (Raise e, h)
  end.
Proof.
  intros Hl. unfold ReadProcess.to_flag, Functional.to_flag. on_store. rewrite Hl.
  destruct (decide (col ∈ Pandas.columns fact)); cbn.
  - rewrite Hl. destruct (Pandas.getitem col fact); cbn; [|done].
    f_equal. etrans; [|symmetry; apply list_insert_alter].
    apply list_alter_ext; [|done]. intros x Hx.
    assert (Some x = Some fact) as [= ->]; [|done].
    etrans; [symmetry; exact Hx | exact Hl].
  - f_equal. symmetry. by apply list_insert_id.
Qed.

Lemma call_create_fact_table (df : Pandas.DataFrame) :
  Obj.call ReadProcess.create_fact_table df = Functional.create_fact_table df.
Proof.
  unfold ReadProcess.create_fact_table, Functional.create_fact_table,
    Functional.assign_dt, Functional.fill_key.
  on_store.
  repeat first
    [ progress (unfold mbind, M_bind, mret, M_ret; cbn)
    | match goal with
      | |- context [ReadProcess.to_flag ?l ?col ?h] =>
          erewrite (run_to_flag col h l) by reflexivity;
          destruct (Functional.to_flag col _); cbn; try done
      end
    | next_call ].
Qed.
End call_facts.

(** ** The cleaner *)

Section clean_data_facts.
Context `{!Library}.
Import Pandas Functional.

(** The columns of the audiobook group: those whose name contains the
    marker. *)
Lemma elem_of_audiobook_cols (df : DataFrame) (c : string) :
  c ∈ audiobook_cols df ↔
  c ∈ columns df ∧ Text.occurs_in Config.AUDIOBOOK_COLUMNS_PATTERN c.
Proof.
  unfold audiobook_cols. rewrite list_elem_of_filter, contains_occurs. tauto.
Qed.

Lemma all_null_spec (cs : list string) (df : DataFrame) :
  all_null cs df = true ↔ ∀ r c, r ∈ rows df → c ∈ cs → cell r c = NaN.
Proof.
  unfold all_null. rewrite forallb_forall. split.
  - intros Hall r c Hr Hc. apply list_elem_of_In in Hr. specialize (Hall r Hr).
    rewrite forallb_forall in Hall. apply list_elem_of_In in Hc.
    specialize (Hall c Hc). by apply bool_decide_eq_true in Hall.
  - intros Hall r Hr. apply forallb_forall. intros c Hc.
    apply bool_decide_eq_true. apply Hall; by apply list_elem_of_In.
Qed.

(** The group is dropped exactly when it has a column and all its values
    are missing. *)
Lemma drops_group_spec (df : DataFrame) :
  drops_group df = true ↔
  audiobook_cols df ≠ [] ∧
  ∀ r c, r ∈ rows df → c ∈ audiobook_cols df → cell r c = NaN.
Proof.
  unfold drops_group. destruct (decide (audiobook_cols df = [])) as [Hnil|Hne].
  - split; [done | by intros [? _]].
  - rewrite all_null_spec. tauto.
Qed.

Lemma len_reduced (df : DataFrame) : len (reduced df) = len df.
Proof. unfold reduced. destruct (drops_group df); [apply length_fmap | done]. Qed.

Lemma columns_reduced (df : DataFrame) (c : string) :
  c ∈ columns (reduced df) ↔
  c ∈ columns df ∧ (drops_group df = true → c ∉ audiobook_cols df).
Proof.
  unfold reduced. destruct (drops_group df); simpl.
  - rewrite list_elem_of_filter. tauto.
  - split; [by intros ? | tauto].
Qed.

Lemma cell_reduced (df : DataFrame) (i : nat) (r r' : Row) (c : string) :
  rows df !! i = Some r → rows (reduced df) !! i = Some r' →
  c ∈ columns (reduced df) → cell r' c = cell r c.
Proof.
  unfold reduced. destruct (drops_group df); [|congruence].
  simpl. rewrite list_lookup_fmap. intros -> [= <-] [Hc _]%list_elem_of_filter.
  unfold cell. simpl. f_equal.
  apply option_eq. intros v. rewrite map_lookup_filter_Some. simpl. tauto.
Qed.

Lemma rows_clean_data (df : DataFrame) (i : nat) :
  rows (clean_data df) !! i =
  (λ r, mkRow (Z.of_nat i) (<["event_id" := VInt (Z.of_nat i)]> (cells r)))
    <$> rows (reduced df) !! i.
Proof.
  unfold clean_data. cbv zeta. rewrite rows_setitem_lookup.
  unfold index. rewrite list_lookup_fmap.
  change (rows (reset_index (reduced df))) with (relabel (rows (reduced df))).
  rewrite relabel_lookup.
  by destruct (rows (reduced df) !! i).
Qed.

Lemma len_clean_data (df : DataFrame) : len (clean_data df) = len df.
Proof.
  unfold clean_data. cbv zeta. rewrite len_setitem.
  - by rewrite len_reset_index, len_reduced.
  - apply length_index.
Qed.

Lemma columns_clean_data (df : DataFrame) (c : string) :
  c ∈ columns (clean_data df) ↔ c = "event_id" ∨ c ∈ columns (reduced df).
Proof. unfold clean_data. cbv zeta. by rewrite columns_setitem. Qed.

Lemma event_id_not_audiobook : ¬ Text.occurs_in Config.AUDIOBOOK_COLUMNS_PATTERN "event_id".
Proof. by apply not_contains_occurs. Qed.

(** C8.  The cleaner always returns a table.  With the group being the
    columns whose name contains "audiobook", the group is absent from the
    result if and only if every value of every column of the group is
    missing in every row; if one value is present the whole group is
    kept; the other columns are always kept, with their cells.  The result
    has as many rows as the input, and [event_id] of each row is its
    zero-based position in the result. *)
Theorem clean_data_spec (df : DataFrame) :
  ∃ out, Obj.call ReadProcess.clean_data df = Ok out ∧
    let group c := c ∈ columns df ∧ Text.occurs_in Config.AUDIOBOOK_COLUMNS_PATTERN c in
    let all_missing := ∀ r c, r ∈ rows df → group c → cell r c = NaN in
    ((∀ c, group c → c ∉ columns out) ↔ all_missing) ∧
    (¬ all_missing → ∀ c, group c → c ∈ columns out) ∧
    (∀ c, c ∈ columns df → ¬ group c → c ∈ columns out) ∧
    len out = len df ∧
    (∀ i r, rows out !! i = Some r →
       cell r "event_id" = VInt (Z.of_nat i) ∧ label r = Z.of_nat i ∧
       ∃ r0, rows df !! i = Some r0 ∧
         ∀ c, c ≠ "event_id" → c ∈ columns out → cell r c = cell r0 c).
Proof.
  exists (clean_data df). split; [apply call_clean_data|]. cbv zeta.
  assert (∀ c, c ∈ audiobook_cols df → c ≠ "event_id") as Hev.
  { intros c [_ Hc]%elem_of_audiobook_cols ->. by apply event_id_not_audiobook. }
  assert (∀ c, c ∈ columns df ∧ Text.occurs_in Config.AUDIOBOOK_COLUMNS_PATTERN c →
               c ∈ columns (clean_data df) ↔ drops_group df ≠ true) as Hgroup.
  { intros c Hc. pose proof Hc as Hc'. apply elem_of_audiobook_cols in Hc'.
    rewrite columns_clean_data, columns_reduced.
    destruct Hc as [Hc _]. specialize (Hev c Hc'). split; [|tauto].
    intros [?|[_ Hkept]]; [done|]. intros Hd. by apply Hkept. }
  assert ((∀ r c, r ∈ rows df →
             c ∈ columns df ∧ Text.occurs_in Config.AUDIOBOOK_COLUMNS_PATTERN c →
             cell r c = NaN) →
          audiobook_cols df ≠ [] → drops_group df = true) as Hmissing.
  { intros Hall Hne. apply drops_group_spec. split; [done|].
    intros r c Hr Hc. apply Hall; [done|]. by apply elem_of_audiobook_cols. }
  split; [|split; [|split; [|split]]].
  - split.
    + intros Habsent r c Hr Hc.
      destruct (drops_group df) eqn:Hd.
      * apply drops_group_spec in Hd as [_ Hd]. apply Hd; [done|].
        by apply elem_of_audiobook_cols.
      * destruct (Habsent c Hc). apply Hgroup; done.
    + intros Hall c Hc Hin. apply Hgroup in Hin; [|done]. apply Hin, Hmissing; [done|].
      intros Hnil. apply elem_of_audiobook_cols in Hc. rewrite Hnil in Hc.
      by apply elem_of_nil in Hc.
  - intros Hnot c Hc. apply Hgroup; [done|]. intros Hd.
    apply drops_group_spec in Hd as [_ Hd]. apply Hnot. intros r c' Hr Hc'.
    apply Hd; [done|]. by apply elem_of_audiobook_cols.
  - intros c Hc Hng. rewrite columns_clean_data, columns_reduced. right. split; [done|].
    intros _ Hin. by apply Hng, elem_of_audiobook_cols.
  - apply len_clean_data.
  - intros i r Hr. rewrite rows_clean_data in Hr.
    destruct (rows (reduced df) !! i) as [r1|] eqn:Hr1; [|done].
    injection Hr as <-. rewrite cell_mkRow, lookup_insert_eq. simpl.
    split; [done|]. split; [done|].
    assert (is_Some (rows df !! i)) as [r0 Hr0].
    { apply lookup_lt_is_Some. apply lookup_lt_Some in Hr1.
      pose proof (len_reduced df) as Hlen. unfold len in Hlen. lia. }
    exists r0. split; [done|]. intros c Hne Hc.
    rewrite cell_mkRow, lookup_insert_ne by done.
    apply columns_clean_data in Hc as [->|Hc]; [done|].
    by apply (cell_reduced df i).
Qed.
End clean_data_facts.

(** ** The dimension builders *)

Section dimension_facts.
Context `{!Library}.
Import Pandas Functional Spec.

Lemma result_bind_Ok {A B} (m : result A) (f : A → result B) (b : B) :
  m ≫= f = Ok b ↔ ∃ a, m = Ok a ∧ f a = Ok b.
Proof.
  destruct m as [a|e]; simpl.
  - split; [by exists a | by intros (? & [= <-] & ?)].
  - split; [done | by intros (? & ? & ?)].
Qed.

Lemma result_bind_ret {A B} (a : A) (f : A → result B) : Ok a ≫= f = f a.
Proof. reflexivity. Qed.

Lemma index_rename (mapping : list (string * string)) (df : DataFrame) :
  index (rename mapping df) = index df.
Proof. unfold index. simpl. by rewrite <- list_fmap_compose. Qed.

Lemma col_from_record (c : string) (rec : list (string * value)) :
  col c (from_records [rec]) = [default NaN ((list_to_map rec : gmap string value) !! c)].
Proof. reflexivity. Qed.

(** The key and the identifier columns of a dimension with a sentinel,
    built from the deduplicated rows [ded]. *)
Lemma with_sentinel_cols (nk id : string) (unknown : list (string * value))
    (ded d : DataFrame) :
  nk ≠ id →
  col nk d = col nk ded →
  index d = (λ i, VInt (Z.of_nat i)) <$> seq 0 (len ded) →
  len d = len ded →
  let rec := list_to_map unknown : gmap string value in
  let dim := with_sentinel id unknown d in
  col nk dim = default NaN (rec !! nk) :: col nk ded ∧
  col id dim = default NaN (rec !! id) :: ((λ i, VInt (Z.of_nat i)) <$> seq 0 (len ded)) ∧
  len dim = S (len ded).
Proof.
  intros Hne Hcol Hidx Hlen. cbv zeta. unfold with_sentinel.
  rewrite !col_concat, !col_from_record, len_concat.
  rewrite col_setitem_ne by (by rewrite ?length_index).
  rewrite col_setitem_eq by (by rewrite ?length_index).
  rewrite len_setitem by (by rewrite ?length_index).
  by rewrite Hcol, Hidx, Hlen.
Qed.

Lemma sentinel_dimension (nk id : string) (unknown : list (string * value))
    (ded d : DataFrame) :
  nk ≠ id →
  NoDup (col nk ded) →
  col nk d = col nk ded →
  index d = (λ i, VInt (Z.of_nat i)) <$> seq 0 (len ded) →
  len d = len ded →
  (list_to_map unknown : gmap string value) !! id = Some (VInt Config.UNKNOWN_ID) →
  let dim := with_sentinel id unknown d in
  one_sentinel_first id dim ∧ data_keys_unique nk dim ∧ data_ids_dense id dim.
Proof.
  intros Hne Hnodup Hcol Hidx Hlen Hid. cbv zeta.
  destruct (with_sentinel_cols nk id unknown ded d) as (Hk & Hi & Hl); [done..|].
  unfold one_sentinel_first, data_keys_unique, data_ids_dense.
  rewrite Hk, Hi, Hl, Hid. simpl. rewrite Nat.sub_0_r. split; [|done].
  eexists. split; [done|].
  intros (i & Hi' & _)%list_elem_of_fmap. injection Hi' as Hi'.
  unfold Config.UNKNOWN_ID in Hi'. lia.
Qed.

Lemma create_dim_device_spec (df dim : DataFrame) :
  Functional.create_dim_device df = Ok dim →
  one_sentinel_first "device_id" dim ∧ data_keys_unique "platform" dim ∧
  data_ids_dense "device_id" dim.
Proof.
  unfold create_dim_device.
  intros (platform & _ & (sel & _ & (ded & Hded & [= <-])%result_bind_Ok)%result_bind_Ok)
    %result_bind_Ok.
  apply col_drop_duplicates in Hded as [Hnodup _].
  apply (sentinel_dimension "platform" "device_id" _ ded); try done.
  - apply col_reset_index.
  - apply index_reset_index.
  - apply len_reset_index.
Qed.

Lemma create_dim_location_spec (df dim : DataFrame) :
  Functional.create_dim_location df = Ok dim →
  one_sentinel_first "location_id" dim ∧ data_keys_unique "ip_addr" dim ∧
  data_ids_dense "location_id" dim.
Proof.
  unfold create_dim_location.
  intros (sel & _ & (ded & Hded & [= <-])%result_bind_Ok)%result_bind_Ok.
  apply col_drop_duplicates in Hded as [Hnodup _].
  apply (sentinel_dimension "ip_addr" "location_id" _ ded); try done.
  - apply col_reset_index.
  - apply index_reset_index.
  - apply len_reset_index.
Qed.

Lemma create_dim_track_spec (df dim : DataFrame) :
  Functional.create_dim_track df = Ok dim →
  one_sentinel_first "track_id" dim ∧ data_keys_unique "spotify_track_uri" dim ∧
  data_ids_dense "track_id" dim.
Proof.
  unfold create_dim_track.
  intros (uri & _ & (sel & _ & (ded & Hded & [= <-])%result_bind_Ok)%result_bind_Ok)
    %result_bind_Ok.
  apply col_drop_duplicates in Hded as [Hnodup _].
  apply (sentinel_dimension "spotify_track_uri" "track_id" _ ded); try done.
  - rewrite col_rename_ne; [apply col_reset_index|]. by repeat constructor.
  - rewrite index_rename. apply index_reset_index.
  - rewrite len_rename. apply len_reset_index.
Qed.

Lemma create_dim_episode_spec (df dim : DataFrame) :
  Functional.create_dim_episode df = Ok dim →
  one_sentinel_first "episode_id" dim ∧ data_keys_unique "spotify_episode_uri" dim ∧
  data_ids_dense "episode_id" dim.
Proof.
  unfold create_dim_episode.
  intros (uri & _ & (sel & _ & (ded & Hded & [= <-])%result_bind_Ok)%result_bind_Ok)
    %result_bind_Ok.
  apply col_drop_duplicates in Hded as [Hnodup _].
  apply (sentinel_dimension "spotify_episode_uri" "episode_id" _ ded); try done.
  - rewrite col_rename_ne; [apply col_reset_index|]. by repeat constructor.
  - rewrite index_rename. apply index_reset_index.
  - rewrite len_rename. apply len_reset_index.
Qed.

Lemma create_dim_date_spec (df dim : DataFrame) :
  Functional.create_dim_date df = Ok dim → natural_keys_unique "date_id" dim.
Proof.
  unfold create_dim_date. intros Hdim.
  do 7 (apply result_bind_Ok in Hdim as (? & _ & Hdim)).
  apply result_bind_Ok in Hdim as (ded & Hded & [= <-]).
  apply col_drop_duplicates in Hded as [Hnodup _].
  unfold natural_keys_unique. by rewrite col_reset_index.
Qed.
End dimension_facts.

(** *** When the builders return *)

Section builders_total.
Context `{!Library}.
Import Pandas Functional Spec.

Lemma getitem_total (c : string) (df : DataFrame) :
  c ∈ columns df → getitem c df = Ok (col c df).
Proof. intros Hc. by apply getitem_Ok. Qed.

Lemma mapM_Ok {A B} (f : A → result B) (l : list A) (k : list B) :
  mapM f l = Ok k ↔ Forall2 (λ a b, f a = Ok b) l k.
Proof.
  revert k. induction l as [|a l IH]; intros k; simpl.
  - split; [intros [= <-]; constructor | by intros ->%Forall2_nil_inv_l].
  - destruct (f a) as [b|e] eqn:Hfa; simpl.
    + destruct (mapM f l) as [k0|e] eqn:Hl; simpl.
      * split.
        -- intros [= <-]. constructor; [done | by apply IH].
        -- intros (b' & k' & Hb & Hk & ->)%Forall2_cons_inv_l.
           apply IH in Hk. rewrite Hfa in Hb. injection Hb as ->. by injection Hk as ->.
      * split; [done|].
        intros (b' & k' & Hb & Hk & ->)%Forall2_cons_inv_l. by apply IH in Hk.
    + split; [done|].
      intros (b' & k' & Hb & Hk & ->)%Forall2_cons_inv_l. congruence.
Qed.

Lemma dt_Ok (f : Z → value) (s s' : Series) :
  dt f s = Ok s' ↔ Forall datetimelike s ∧ s' = dt_value f <$> s.
Proof.
  unfold dt. rewrite mapM_Ok. split.
  - induction 1 as [|v v' s s' Hv _ [IH1 ->]]; [done|].
    destruct v; try done; injection Hv as <-; (split; [by constructor | done]).
  - intros [Hall ->]. induction Hall as [|v s Hv _ IH]; [constructor|].
    constructor; [|done]. by destruct v.
Qed.

Lemma assign_dt_Ok (c : string) (f : Z → value) (temp temp' : DataFrame) :
  assign_dt c f temp = Ok temp' ↔
  "ts" ∈ columns temp ∧ Forall datetimelike (col "ts" temp) ∧
  temp' = setitem c (dt_value f <$> col "ts" temp) temp.
Proof.
  unfold assign_dt. rewrite result_bind_Ok. split.
  - intros (ts & [Hts ->]%getitem_Ok & (s & [Hall ->]%dt_Ok & [= <-])%result_bind_Ok).
    done.
  - intros (Hts & Hall & ->). exists (col "ts" temp). split; [by apply getitem_Ok|].
    apply result_bind_Ok. eexists. split; [by apply dt_Ok | done].
Qed.

(** Assigning a calendar column keeps the timestamps. *)
Lemma assign_dt_keeps (c : string) (f : Z → value) (temp temp' : DataFrame) :
  c ≠ "ts" → assign_dt c f temp = Ok temp' →
  col "ts" temp' = col "ts" temp ∧ len temp' = len temp ∧
  ∀ c', c' ∈ columns temp' ↔ c' = c ∨ c' ∈ columns temp.
Proof.
  intros Hne (Hts & Hall & ->)%assign_dt_Ok.
  assert (length (dt_value f <$> col "ts" temp) = len temp) as Hlen.
  { by rewrite length_fmap, length_col. }
  split; [by apply col_setitem_ne|]. split; [by apply len_setitem|].
  intros c'. apply columns_setitem.
Qed.

Lemma assign_dt_total (c : string) (f : Z → value) (temp : DataFrame) :
  c ≠ "ts" → "ts" ∈ columns temp → Forall datetimelike (col "ts" temp) →
  ∃ temp', assign_dt c f temp = Ok temp' ∧
    "ts" ∈ columns temp' ∧ Forall datetimelike (col "ts" temp') ∧
    ∀ c', c' ∈ columns temp' ↔ c' = c ∨ c' ∈ columns temp.
Proof.
  intros Hne Hts Hall.
  assert (∃ temp', assign_dt c f temp = Ok temp') as [temp' Htemp].
  { eexists. by apply assign_dt_Ok. }
  exists temp'. split; [done|].
  apply assign_dt_keeps in Htemp as (Hcol & _ & Hcols); [|done].
  rewrite Hcol, Hcols. tauto.
Qed.

Lemma drop_duplicates_total (c : string) (df : DataFrame) :
  c ∈ columns df → ∃ ded, drop_duplicates c df = Ok ded.
Proof. intros Hc. eexists. by apply drop_duplicates_Ok. Qed.

(** The last steps of every builder: project, deduplicate, then go on. *)
Lemma project_dedup_total (cs : list string) (c : string) (df : DataFrame)
    (f : DataFrame → DataFrame) :
  Forall (λ c, c ∈ columns df) cs → c ∈ cs →
  ∃ dim, (sel ← getitems cs df; ded ← drop_duplicates c sel; Ok (f ded)) = Ok dim.
Proof.
  intros Hcs Hc. rewrite getitems_total, result_bind_ret by done.
  destruct (drop_duplicates_total c {| columns := cs; rows := restrict cs <$> rows df |})
    as [ded ->]; [done|].
  rewrite result_bind_ret. eauto.
Qed.

(** The date dimension is built from any table with a column [ts] of
    instants. *)
Lemma create_dim_date_total (df : DataFrame) :
  "ts" ∈ columns df → Forall datetimelike (col "ts" df) →
  ∃ dim, create_dim_date df = Ok dim.
Proof.
  intros Hts Hall. unfold create_dim_date.
  destruct (assign_dt_total "date_id" (λ t, VStr (Calendar.strftime_YmdH t)) df)
    as (t1 & -> & Hts1 & Hall1 & Hcols1); [done..|]. rewrite result_bind_ret.
  destruct (assign_dt_total "year" (λ t, VInt (Calendar.year_of t)) t1)
    as (t2 & -> & Hts2 & Hall2 & Hcols2); [done..|]. rewrite result_bind_ret.
  destruct (assign_dt_total "month" (λ t, VInt (Calendar.month_of t)) t2)
    as (t3 & -> & Hts3 & Hall3 & Hcols3); [done..|]. rewrite result_bind_ret.
  destruct (assign_dt_total "day" (λ t, VInt (Calendar.day_of t)) t3)
    as (t4 & -> & Hts4 & Hall4 & Hcols4); [done..|]. rewrite result_bind_ret.
  destruct (assign_dt_total "weekday" (λ t, VStr (Calendar.day_name t)) t4)
    as (t5 & -> & Hts5 & Hall5 & Hcols5); [done..|]. rewrite result_bind_ret.
  destruct (assign_dt_total "hour" (λ t, VInt (Calendar.hour_of t)) t5)
    as (t6 & -> & Hts6 & Hall6 & Hcols6); [done..|]. rewrite result_bind_ret.
  apply (project_dedup_total _ "date_id" t6 reset_index); [|apply list_elem_of_here].
  repeat (apply Forall_cons; split); [..|done];
    rewrite Hcols6, ?Hcols5, ?Hcols4, ?Hcols3, ?Hcols2, ?Hcols1; tauto.
Qed.

Lemma create_dim_device_total (df : DataFrame) :
  "platform" ∈ columns df → ∃ dim, create_dim_device df = Ok dim.
Proof.
  intros Hp. unfold create_dim_device. rewrite getitem_total, result_bind_ret by done.
  cbv zeta.
  apply (project_dedup_total _ "platform" _ (λ ded, with_sentinel _ _ (reset_index ded)));
    [|apply list_elem_of_here].
  repeat (apply Forall_cons; split); [..|done]; rewrite columns_setitem; tauto.
Qed.

Lemma create_dim_location_total (df : DataFrame) :
  "ip_addr" ∈ columns df → "conn_country" ∈ columns df →
  ∃ dim, create_dim_location df = Ok dim.
Proof.
  intros Hip Hcc. unfold create_dim_location.
  apply (project_dedup_total _ "ip_addr" _ (λ ded, with_sentinel _ _ (reset_index ded)));
    [|apply list_elem_of_here].
  by repeat constructor.
Qed.

Lemma create_dim_track_total (df : DataFrame) :
  Forall (λ c, c ∈ columns df)
    ["spotify_track_uri"; "master_metadata_track_name";
     "master_metadata_album_artist_name"; "master_metadata_album_album_name"] →
  ∃ dim, create_dim_track df = Ok dim.
Proof.
  intros Hcols. unfold create_dim_track.
  rewrite getitem_total, result_bind_ret by by inversion Hcols. cbv zeta.
  by apply (project_dedup_total _ "spotify_track_uri" _
              (λ ded, with_sentinel _ _ (rename _ (reset_index ded))));
    [|apply list_elem_of_here].
Qed.

Lemma create_dim_episode_total (df : DataFrame) :
  Forall (λ c, c ∈ columns df)
    ["spotify_episode_uri"; "episode_name"; "episode_show_name"] →
  ∃ dim, create_dim_episode df = Ok dim.
Proof.
  intros Hcols. unfold create_dim_episode.
  rewrite getitem_total, result_bind_ret by by inversion Hcols. cbv zeta.
  by apply (project_dedup_total _ "spotify_episode_uri" _
              (λ ded, with_sentinel _ _ (rename _ (reset_index ded))));
    [|apply list_elem_of_here].
Qed.
End builders_total.

(** *** The tables of the five builders *)

Section events_facts.
Context `{!Library}.
Import Pandas Spec.

Lemma is_events_column (df : DataFrame) (c : string) :
  is_events df → c ∈ event_columns → c ∈ columns df.
Proof. intros [Hcols _] Hc. rewrite Forall_forall in Hcols. by apply Hcols. Qed.
End events_facts.

(** C1, as the specification states it, fails: the date dimension built from
    [Examples.two_plays] has no row with key -1. *)
Lemma dim_date_has_no_sentinel : ¬ @Spec.dimension_claims Examples.library.
Proof.
  intros [Hdate _].
  assert (∃ dim, Obj.call ReadProcess.create_dim_date Examples.two_plays = Ok dim ∧
                 Pandas.col "date_id" dim = [VStr "2021030412"; VStr "2021030413"])
    as (dim & Hdim & Hcol).
  { eexists. split; vm_compute; reflexivity. }
  destruct (Hdate _ _ Hdim) as [_ (ids & Hids & _)].
  rewrite Hcol in Hids. discriminate.
Qed.

(** The natural keys of the device dimension are not distinct when a play has
    the placeholder as its platform. *)
Lemma dim_device_key_collision :
  ∃ dim,
    Obj.call (@ReadProcess.create_dim_device Examples.library) Examples.unknown_platform
      = Ok dim ∧
    Pandas.col "platform" dim = [VStr "Unknown"; VStr "Unknown"] ∧
    ¬ Spec.natural_keys_unique "platform" dim.
Proof.
  eexists. split; [vm_compute; reflexivity|].
  assert (∀ c, c = [VStr "Unknown"; VStr "Unknown"] → c = [VStr "Unknown"; VStr "Unknown"] ∧ ¬ NoDup c)
    as Hdup.
  { intros c ->. split; [done|]. intros Hnodup%NoDup_cons_1_1.
    apply Hnodup, list_elem_of_here. }
  apply Hdup. vm_compute. reflexivity.
Qed.

(** ** The transforms and the object store *)

Section store_facts.
Context `{!Library}.
Import Obj.

Lemma run_keeps_ret {A} (n : nat) (a : A) (h : Store) (Q : A → Store → Prop) :
  Q a h → run_keeps n (mret a) h Q.
Proof. intros HQ. split; [done|]. split; [done|]. by intros a' [= <-]. Qed.

Lemma run_keeps_lift {A} (n : nat) (r : result A) (h : Store) :
  run_keeps n (lift r) h anything.
Proof. done. Qed.

Lemma run_keeps_bind {A B} (n : nat) (m : M Store A) (f : A → M Store B) (h : Store)
    (Q : A → Store → Prop) (R : B → Store → Prop) :
  run_keeps n m h Q →
  (∀ a h', length h ≤ length h' → Q a h' → run_keeps n (f a) h' R) →
  run_keeps n (m ≫= f) h R.
Proof.
  intros (Htake & Hlen & HQ) Hf. unfold run_keeps, mbind, M_bind.
  destruct (m h) as [[a|e] h1]; simpl in *; [|done].
  destruct (Hf a h1 Hlen (HQ a eq_refl)) as (Htake' & Hlen' & HR).
  split; [congruence|]. split; [lia | done].
Qed.

Lemma run_keeps_deref (n : nat) (l : ref) (h : Store) :
  run_keeps n (deref l) h anything.
Proof. unfold run_keeps, deref. by destruct (h !! l). Qed.

Lemma run_keeps_new (n : nat) (df : Pandas.DataFrame) (h : Store) :
  n ≤ length h → run_keeps n (new df) h (later n).
Proof.
  intros Hn. unfold run_keeps, new, later. simpl.
  rewrite take_app_le, length_app by done. simpl.
  split; [done|]. split; [lia|]. intros a [= <-]. lia.
Qed.

Lemma run_keeps_update (n : nat) (l : ref) (f : Pandas.DataFrame → Pandas.DataFrame)
    (h : Store) :
  n ≤ l → run_keeps n (update l f) h anything.
Proof.
  intros Hl. unfold run_keeps, update. simpl.
  rewrite take_alter_ge, length_alter by done. done.
Qed.

(** A read of the store followed by a new frame. *)
Lemma run_keeps_read_new (n : nat) (l : ref) (f : Pandas.DataFrame → result Pandas.DataFrame)
    (h : Store) :
  n ≤ length h →
  run_keeps n (df ← deref l; out ← lift (f df); new out) h (later n).
Proof.
  intros Hn. eapply run_keeps_bind; [apply run_keeps_deref|]. intros df h1 Hh1 _.
  eapply run_keeps_bind; [apply run_keeps_lift|]. intros out h2 Hh2 _.
  apply run_keeps_new. lia.
Qed.

(** A read of the store that returns a value. *)
Lemma run_keeps_read {A} (n : nat) (l : ref) (f : Pandas.DataFrame → result A) (h : Store) :
  run_keeps n (df ← deref l; lift (f df)) h anything.
Proof.
  eapply run_keeps_bind; [apply run_keeps_deref|]. intros df h1 Hh1 _.
  apply run_keeps_lift.
Qed.

Lemma run_keeps_copy n l h : n ≤ length h → run_keeps n (copy l) h (later n).
Proof. apply (run_keeps_read_new n l Ok). Qed.

Lemma run_keeps_columns n l h : run_keeps n (columns l) h anything.
Proof. apply (run_keeps_read n l (λ df, Ok (Pandas.columns df))). Qed.

Lemma run_keeps_index n l h : run_keeps n (index l) h anything.
Proof. apply (run_keeps_read n l (λ df, Ok (Pandas.index df))). Qed.

Lemma run_keeps_getitem n l c h : run_keeps n (getitem l c) h anything.
Proof. apply (run_keeps_read n l (Pandas.getitem c)). Qed.

Lemma run_keeps_all_null n l cs h : run_keeps n (all_null l cs) h anything.
Proof. apply (run_keeps_read n l (λ df, Ok (Pandas.all_null cs df))). Qed.

Lemma run_keeps_setitem n l c s h : n ≤ l → run_keeps n (setitem l c s) h anything.
Proof. apply run_keeps_update. Qed.

Lemma run_keeps_getitems n l cs h : n ≤ length h → run_keeps n (getitems l cs) h (later n).
Proof. apply (run_keeps_read_new n l (Pandas.getitems cs)). Qed.

Lemma run_keeps_select n l mask h : n ≤ length h → run_keeps n (select l mask) h (later n).
Proof. apply (run_keeps_read_new n l (λ df, Ok (Pandas.select mask df))). Qed.

Lemma run_keeps_drop n l cs h : n ≤ length h → run_keeps n (drop l cs) h (later n).
Proof. apply (run_keeps_read_new n l (λ df, Ok (Pandas.drop_columns cs df))). Qed.

Lemma run_keeps_reset_index n l h : n ≤ length h → run_keeps n (reset_index l) h (later n).
Proof. apply (run_keeps_read_new n l (λ df, Ok (Pandas.reset_index df))). Qed.

Lemma run_keeps_drop_duplicates n l c h :
  n ≤ length h → run_keeps n (drop_duplicates l c) h (later n).
Proof. apply (run_keeps_read_new n l (Pandas.drop_duplicates c)). Qed.

Lemma run_keeps_rename n l mapping h :
  n ≤ length h → run_keeps n (rename l mapping) h (later n).
Proof. apply (run_keeps_read_new n l (λ df, Ok (Pandas.rename mapping df))). Qed.

Lemma run_keeps_from_records n records h :
  n ≤ length h → run_keeps n (from_records records) h (later n).
Proof. apply run_keeps_new. Qed.

Lemma run_keeps_concat n a b h : n ≤ length h → run_keeps n (concat a b) h (later n).
Proof.
  intros Hn. eapply run_keeps_bind; [apply run_keeps_deref|]. intros da h1 Hh1 _.
  eapply run_keeps_bind; [apply run_keeps_deref|]. intros db h2 Hh2 _.
  apply run_keeps_new. lia.
Qed.

Lemma run_keeps_for_each {A} n (xs : list A) (body : A → M Store unit) h :
  (∀ x h', length h ≤ length h' → run_keeps n (body x) h' anything) →
  run_keeps n (for_each xs body) h anything.
Proof.
  revert h. induction xs as [|x xs IH]; intros h Hbody; simpl.
  - by apply run_keeps_ret.
  - eapply run_keeps_bind; [apply Hbody; lia|]. intros _ h1 Hh1 _.
    apply IH. intros y h2 Hh2. apply Hbody. lia.
Qed.

(** One pandas call on references. *)
Ltac store_call :=
  first
    [ apply run_keeps_copy | apply run_keeps_columns | apply run_keeps_index
    | apply run_keeps_getitem | apply run_keeps_all_null | apply run_keeps_setitem
    | apply run_keeps_getitems | apply run_keeps_select | apply run_keeps_drop
    | apply run_keeps_reset_index | apply run_keeps_drop_duplicates
    | apply run_keeps_rename | apply run_keeps_from_records | apply run_keeps_concat
    | apply run_keeps_lift ];
  unfold later in *; try lia.

(** The calls of a transform, one after the other. *)
Ltac store_steps :=
  repeat
    lazymatch goal with
    | |- run_keeps _ (mret _) _ _ =>
        apply run_keeps_ret; unfold later, anything in *; first [lia | done]
    | |- run_keeps _ ((if ?b then _ else _) ≫= _) _ _ => destruct b
    | |- run_keeps _ (_ ≫= _) _ _ => eapply run_keeps_bind; [store_call | intros ? ? ? ?]
    | |- run_keeps _ _ _ _ => store_call
    end.

Lemma run_keeps_assign_dt n temp c f h :
  n ≤ temp → run_keeps n (ReadProcess.assign_dt temp c f) h anything.
Proof. intros Hn. unfold ReadProcess.assign_dt. store_steps. Qed.

Lemma run_keeps_fill_key n fact c h :
  n ≤ fact → run_keeps n (ReadProcess.fill_key fact c) h anything.
Proof. intros Hn. unfold ReadProcess.fill_key. store_steps. Qed.

Lemma run_keeps_to_flag n fact col h :
  n ≤ fact → run_keeps n (ReadProcess.to_flag fact col) h anything.
Proof.
  intros Hn. unfold ReadProcess.to_flag.
  eapply run_keeps_bind; [apply run_keeps_columns|]. intros cols h1 _ _.
  destruct (decide (col ∈ cols)); store_steps.
Qed.

Lemma run_keeps_clean_data n l h :
  n ≤ length h → run_keeps n (ReadProcess.clean_data l) h (later n).
Proof. intros Hn. unfold ReadProcess.clean_data. cbv zeta. store_steps. Qed.

Lemma run_keeps_create_dim_date n l h :
  n ≤ length h → run_keeps n (ReadProcess.create_dim_date l) h (later n).
Proof.
  intros Hn. unfold ReadProcess.create_dim_date.
  eapply run_keeps_bind; [store_call|]. intros temp ? ? ?.
  do 6 (eapply run_keeps_bind;
        [apply run_keeps_assign_dt; unfold later in *; lia | intros ? ? ? ?]).
  store_steps.
Qed.

Lemma run_keeps_create_dim_device n l h :
  n ≤ length h → run_keeps n (ReadProcess.create_dim_device l) h (later n).
Proof. intros Hn. unfold ReadProcess.create_dim_device. store_steps. Qed.

Lemma run_keeps_create_dim_track n l h :
  n ≤ length h → run_keeps n (ReadProcess.create_dim_track l) h (later n).
Proof. intros Hn. unfold ReadProcess.create_dim_track. store_steps. Qed.

Lemma run_keeps_create_dim_episode n l h :
  n ≤ length h → run_keeps n (ReadProcess.create_dim_episode l) h (later n).
Proof. intros Hn. unfold ReadProcess.create_dim_episode. store_steps. Qed.

Lemma run_keeps_create_dim_location n l h :
  n ≤ length h → run_keeps n (ReadProcess.create_dim_location l) h (later n).
Proof. intros Hn. unfold ReadProcess.create_dim_location. store_steps. Qed.

Lemma run_keeps_create_fact_table n l h :
  n ≤ length h → run_keeps n (ReadProcess.create_fact_table l) h (later n).
Proof.
  intros Hn. unfold ReadProcess.create_fact_table. cbv zeta.
  eapply run_keeps_bind; [store_call|]. intros temp ? ? ?.
  eapply run_keeps_bind;
    [apply run_keeps_assign_dt; unfold later in *; lia | intros ? ? ? ?].
  eapply run_keeps_bind; [store_call|]. intros sel ? ? ?.
  eapply run_keeps_bind; [store_call|]. intros fact ? ? ?.
  do 4 (eapply run_keeps_bind;
        [apply run_keeps_fill_key; unfold later in *; lia | intros ? ? ? ?]).
  eapply run_keeps_bind.
  { apply run_keeps_for_each. intros col hk Hhk.
    apply run_keeps_to_flag. unfold later in *. lia. }
  intros ? ? ? ?. store_steps.
Qed.

(** From [run_keeps] on the whole store to the tables of the store. *)
Lemma run_keeps_returns_new_table (f : ref → M Store ref) :
  (∀ n l h, n ≤ length h → run_keeps n (f l) h (later n)) →
  Spec.returns_new_table f.
Proof.
  intros Hf h l. destruct (Hf (length h) l h) as (Htake & Hlen & Hnew); [done|].
  rewrite firstn_all in Htake. split.
  - intros l0 df0 Hl0. rewrite <- Htake in Hl0.
    by apply lookup_take_Some in Hl0 as [? _].
  - intros l' Hl'. destruct (Hnew l' Hl') as [Hge Hlt]. split.
    + by apply lookup_ge_None.
    + by apply lookup_lt_is_Some.
Qed.

(** C9.  Each of the seven transforms (the cleaner, the five dimension
    builders, the fact assembler) leaves the table it is given as it was,
    and every other table that exists when it is called, whether it returns
    or raises; the table it returns is a new one. *)
Theorem transforms_return_new_tables : Forall Spec.returns_new_table Spec.transforms.
Proof.
  unfold Spec.transforms.
  repeat (apply Forall_cons; split); [..|done]; apply run_keeps_returns_new_table.
  - apply run_keeps_clean_data.
  - apply run_keeps_create_dim_date.
  - apply run_keeps_create_dim_device.
  - apply run_keeps_create_dim_track.
  - apply run_keeps_create_dim_episode.
  - apply run_keeps_create_dim_location.
  - apply run_keeps_create_fact_table.
Qed.
End store_facts.

(** ** Attaching a surrogate key: the left merge *)

Section merge_facts.
Import Pandas.

Lemma length_append (a b : string) :
  String.length (a +:+ b) = String.length a + String.length b.
Proof. induction a as [|x a IH]; [done|]. rewrite append_cons. simpl. by rewrite IH. Qed.

Lemma append_suffix_ne (a b : string) : b ≠ EmptyString → a +:+ b ≠ a.
Proof.
  intros Hb Heq. apply (f_equal String.length) in Heq. rewrite length_append in Heq.
  destruct b; [done|]. simpl in Heq. lia.
Qed.

Lemma rows_bind_length {A B} (f : A → list B) (l : list A) :
  (∀ x, x ∈ l → length (f x) = 1) → length (l ≫= f) = length l.
Proof.
  induction l as [|x l IH]; intros Hf; [done|].
  rewrite bind_cons, length_app, (Hf x) by apply list_elem_of_here.
  rewrite IH; [done|]. intros y Hy. by apply Hf, list_elem_of_further.
Qed.

(** At most one row of [right] has a given key when its keys are distinct. *)
Lemma matches_unique (key : string) (right : DataFrame) (l : Row) :
  NoDup (col key right) → length (matches key right l) ≤ 1.
Proof.
  unfold matches, col. generalize (rows right). intros rs.
  induction rs as [|r rs IH]; intros Hnodup; simpl; [lia|].
  apply NoDup_cons in Hnodup as [Hr Hnodup].
  rewrite filter_cons. destruct (decide (cell r key = cell l key)) as [Heq|Hne].
  - assert (filter (λ r0, cell r0 key = cell l key) rs = []) as ->; [|simpl; lia].
    destruct (filter _ rs) as [|r' rest] eqn:Hfilter; [done|].
    assert (r' ∈ filter (λ r0, cell r0 key = cell l key) rs) as Hr'.
    { rewrite Hfilter. apply list_elem_of_here. }
    apply list_elem_of_filter in Hr' as [Heq' Hr']. destruct Hr.
    apply list_elem_of_fmap. exists r'. split; [congruence | done].
  - by apply IH.
Qed.

Lemma length_merge_rows (key : string) (rcols overlap : list string)
    (right : DataFrame) (l : Row) :
  length (matches key right l) ≤ 1 →
  length (merge_rows key rcols overlap right l) = 1.
Proof.
  unfold merge_rows. destruct (matches key right l) as [|r [|r' ms]]; simpl; [done..|lia].
Qed.

(** A left merge against distinct keys keeps the number of rows. *)
Lemma len_merge_left (left right out : DataFrame) (key : string) :
  merge_left left right key = Ok out → NoDup (col key right) → len out = len left.
Proof.
  unfold merge_left. destruct (decide _); [|done]. intros [= <-] Hnodup.
  unfold len. simpl. rewrite length_relabel. apply rows_bind_length.
  intros l _. apply length_merge_rows. by apply matches_unique.
Qed.

(** In general it loses no row. *)
Lemma len_merge_left_ge (left right out : DataFrame) (key : string) :
  merge_left left right key = Ok out → len left ≤ len out.
Proof.
  unfold merge_left. destruct (decide _); [|done]. intros [= <-].
  unfold len. simpl. rewrite length_relabel.
  generalize (rows left). intros ls. induction ls as [|l ls IH]; [done|].
  rewrite bind_cons, length_app. simpl.
  assert (1 ≤ length (merge_rows key (filter (λ c, c ≠ key) (columns right))
                        (filter (λ c, c ∈ columns left)
                           (filter (λ c, c ≠ key) (columns right))) right l)); [|lia].
  unfold merge_rows. destruct (matches key right l); simpl; lia.
Qed.

Lemma elem_of_relabel (rs : list Row) (r : Row) :
  r ∈ relabel rs → ∃ r0, r0 ∈ rs ∧ cells r = cells r0.
Proof.
  intros [i Hi]%list_elem_of_lookup. rewrite relabel_lookup in Hi.
  destruct (rs !! i) as [r0|] eqn:Hr0; [|done]. injection Hi as <-.
  exists r0. split; [by eapply list_elem_of_lookup_2 | done].
Qed.

Lemma elem_of_relabel_2 (rs : list Row) (r0 : Row) :
  r0 ∈ rs → ∃ r, r ∈ relabel rs ∧ cells r = cells r0.
Proof.
  intros [i Hi]%list_elem_of_lookup. exists (mkRow (Z.of_nat i) (cells r0)).
  split; [|done]. apply list_elem_of_lookup. exists i. by rewrite relabel_lookup, Hi.
Qed.

Lemma cell_cells (r r0 : Row) (c : string) : cells r = cells r0 → cell r c = cell r0 c.
Proof. unfold cell. by intros ->. Qed.

(** The cells of a merged row when the right frame has one column besides
    the key. *)
Lemma merge_cells_single (id : string) (overlap : list string) (l : Row) (d : option Row) :
  overlap = [] ∨ overlap = [id] →
  let m := merge_cells [id] overlap l d in
  (∀ c, c ≠ id → c ≠ id +:+ "_x" → c ≠ id +:+ "_y" → default NaN (m !! c) = cell l c) ∧
  (overlap = [] → default NaN (m !! id) = from_option (λ d, cell d id) NaN d) ∧
  (overlap = [id] → default NaN (m !! id) = NaN).
Proof.
  intros [->| ->]; cbv zeta; unfold merge_cells, suffixed; simpl.
  - split; [|split; [|done]].
    + intros c Hc _ _. by rewrite lookup_insert_ne.
    + intros _. by rewrite lookup_insert_eq.
  - rewrite ?decide_True by apply list_elem_of_here.
    assert (id +:+ "_y" ≠ id) as Hy by by apply append_suffix_ne.
    assert (id +:+ "_x" ≠ id) as Hx by by apply append_suffix_ne.
    split; [|split; [done|]].
    + intros c Hc Hcx Hcy. rewrite lookup_insert_ne by done.
      by rewrite rename_key_lookup_ne.
    + intros _. rewrite lookup_insert_ne by done.
      unfold rename_key. destruct (cells l !! id) as [v|] eqn:Hv.
      * by rewrite lookup_insert_ne, lookup_delete_eq.
      * by rewrite Hv.
Qed.

Lemma elem_of_merge_rows (key : string) (rcols overlap : list string)
    (right : DataFrame) (l r : Row) :
  r ∈ merge_rows key rcols overlap right l ↔
  (matches key right l = [] ∧ r = mkRow 0 (merge_cells rcols overlap l None)) ∨
  (∃ d, d ∈ matches key right l ∧ r = mkRow 0 (merge_cells rcols overlap l (Some d))).
Proof.
  unfold merge_rows. destruct (matches key right l) as [|d ds] eqn:Hm.
  - rewrite list_elem_of_singleton. split; [by left|].
    intros [[_ ->]|(d & Hd & _)]; [done|]. by apply elem_of_nil in Hd.
  - rewrite list_elem_of_fmap. split.
    + intros (d' & -> & Hd'). right. by exists d'.
    + intros [[? _]|(d' & Hd' & ->)]; [done|]. by exists d'.
Qed.

Lemma filter_key_id (key id : string) :
  key ≠ id → filter (λ c, c ≠ key) [key; id] = [id].
Proof.
  intros Hne. rewrite filter_cons, decide_False by (by intros ?).
  rewrite filter_cons, decide_True by done. done.
Qed.

Lemma filter_overlap (id : string) (cs : list string) :
  filter (λ c, c ∈ cs) [id] = [] ∨ filter (λ c, c ∈ cs) [id] = [id].
Proof. rewrite filter_cons. destruct (decide (id ∈ cs)); [by right | by left]. Qed.

(** What [attach_key] does to the rows: every row of the result comes from
    a row of [df], and every row of [df] gives at least one. *)
Lemma attach_key_rows (df dim out : DataFrame) (key id : string) :
  ReadProcess.attach_key df dim key id = Ok out → key ≠ id →
  (∀ r, r ∈ rows out → ∃ l, l ∈ rows df ∧ Spec.attaches key id dim l r) ∧
  (∀ l, l ∈ rows df → ∃ r, r ∈ rows out ∧ Spec.attaches key id dim l r).
Proof.
  unfold ReadProcess.attach_key. intros Hout Hne.
  apply result_bind_Ok in Hout as (mapping & [_ ->]%getitems_Ok & Hout).
  unfold merge_left in Hout. destruct (decide _) as [_|]; [|done].
  injection Hout as <-. simpl. rewrite filter_key_id by done.
  set (overlap := filter (λ c, c ∈ columns df) [id]).
  set (right := {| columns := [key; id]; rows := restrict [key; id] <$> rows dim |}).
  assert (overlap = [] ∨ overlap = [id]) as Hoverlap by apply filter_overlap.
  assert (∀ l d r, cells r = merge_cells [id] overlap l d →
            (d = None → matches key right l = []) →
            (∀ d', d = Some d' → d' ∈ matches key right l) →
            Spec.attaches key id dim l r) as Hattach.
  { intros l d r Hcells Hnone Hsome.
    destruct (merge_cells_single id overlap l d Hoverlap) as (Hother & Hnew & Hold).
    assert (∀ c, cell r c = default NaN (merge_cells [id] overlap l d !! c)) as Hr.
    { intros c. unfold cell. by rewrite Hcells. }
    unfold Spec.attaches. rewrite !Hr.
    split; [intros c ? ? ?; rewrite Hr; by apply Hother|].
    assert (∀ d', d' ∈ matches key right l →
              ∃ d0, d0 ∈ rows dim ∧ cell d0 key = cell l key ∧ cell d' id = cell d0 id)
      as Hmatch.
    { intros d' [Hkey (d0 & -> & Hd0)%list_elem_of_fmap]%list_elem_of_filter.
      exists d0. rewrite cell_restrict in Hkey by apply list_elem_of_here.
      rewrite cell_restrict by apply list_elem_of_further, list_elem_of_here. done. }
    destruct Hoverlap as [Hov|Hov]; [|split; [left|intros _]; by apply Hold].
    rewrite (Hnew Hov). destruct d as [d'|]; simpl.
    - destruct (Hmatch d') as (d0 & Hd0 & Hkey & Hid); [by apply Hsome|].
      split; [right; by exists d0|]. intros Hno. by destruct (Hno d0 Hd0).
    - split; [by left | done]. }
  split.
  - intros r (r0 & Hr0 & Hcells)%elem_of_relabel.
    apply list_elem_of_bind in Hr0 as (l & Hr0 & Hl). exists l. split; [done|].
    apply elem_of_merge_rows in Hr0 as [[Hnil ->]|(d & Hd & ->)].
    + by apply (Hattach l None).
    + apply (Hattach l (Some d)); [done..|]. by intros d' [= <-].
  - intros l Hl.
    assert (∃ r0, r0 ∈ merge_rows key [id] overlap right l ∧
                  Spec.attaches key id dim l r0) as (r0 & Hr0 & Hatt).
    { destruct (matches key right l) as [|d ds] eqn:Hm.
      - exists (mkRow 0 (merge_cells [id] overlap l None)). split.
        + apply elem_of_merge_rows. by left.
        + by apply (Hattach l None).
      - exists (mkRow 0 (merge_cells [id] overlap l (Some d))). split.
        + apply elem_of_merge_rows. right. exists d. rewrite Hm.
          split; [apply list_elem_of_here | done].
        + apply (Hattach l (Some d)); [done..|]. intros d' [= <-]. rewrite Hm.
          apply list_elem_of_here. }
    destruct (elem_of_relabel_2 (rows df ≫= merge_rows key [id] overlap right) r0)
      as (r & Hr & Hcells).
    { apply list_elem_of_bind. by exists l. }
    exists r. split; [done|].
    destruct Hatt as (H1 & H2 & H3). unfold Spec.attaches.
    rewrite !(cell_cells r r0) by done. split; [|done].
    intros c ? ? ?. rewrite (cell_cells r r0) by done. by apply H1.
Qed.
End merge_facts.

(** ** The fact assembler *)

Section fact_table_facts.
Context `{!Library}.
Import Pandas Functional.

Lemma Forall2_chain {A B C} (P : A → B → Prop) (Q : B → C → Prop)
    (l : list A) (k : list B) (m : list C) :
  Forall2 P l k → Forall2 Q k m → Forall2 (λ x z, ∃ y, P x y ∧ Q y z) l m.
Proof.
  intros Hlk. revert m. induction Hlk as [|x y l k Hxy _ IH]; intros m Hkm.
  - apply Forall2_nil_inv_l in Hkm as ->. constructor.
  - apply Forall2_cons_inv_l in Hkm as (z & m' & Hyz & Hkm & ->).
    constructor; [by exists y | by apply IH].
Qed.

Lemma setitem_sets (c : string) (Q : Row → value → Prop) (s : Series) (df : DataFrame) :
  Forall2 Q (rows df) s → Forall2 (Spec.sets c Q) (rows df) (rows (setitem c s df)).
Proof.
  simpl. induction 1 as [|x v rs s Hxv _ IH]; simpl; constructor; [|done].
  split.
  - by rewrite cell_mkRow, lookup_insert_eq.
  - intros c' Hc'. by rewrite cell_mkRow, lookup_insert_ne.
Qed.

Lemma assign_dt_rows (c : string) (f : Z → value) (temp temp' : DataFrame) :
  assign_dt c f temp = Ok temp' →
  Forall2 (Spec.sets c (λ x v, v = dt_value f (cell x "ts"))) (rows temp) (rows temp').
Proof.
  intros (_ & _ & ->)%assign_dt_Ok. apply setitem_sets.
  unfold col. rewrite <- list_fmap_compose.
  apply Forall2_fmap_r, Forall_Forall2_diag, Forall_forall. done.
Qed.

Lemma getitems_rows (cs : list string) (df sel : DataFrame) :
  getitems cs df = Ok sel →
  Forall2 (λ x y, ∀ c, c ∈ cs → cell y c = cell x c) (rows df) (rows sel).
Proof.
  intros [_ ->]%getitems_Ok. simpl.
  apply Forall2_fmap_r, Forall_Forall2_diag, Forall_forall.
  intros x _ c Hc. by apply cell_restrict.
Qed.

Lemma fill_key_rows (c : string) (fact fact' : DataFrame) :
  fill_key c fact = Ok fact' →
  Forall2 (Spec.sets c (λ x v, to_int (fill_cell (VInt Config.UNKNOWN_ID) (cell x c)) = Ok v))
          (rows fact) (rows fact').
Proof.
  unfold fill_key.
  intros (s & [_ ->]%getitem_Ok & (s' & Hs' & [= <-])%result_bind_Ok)%result_bind_Ok.
  apply setitem_sets. unfold astype_int in Hs'. apply mapM_Ok in Hs'.
  unfold fillna, col in Hs'. rewrite <- list_fmap_compose in Hs'.
  by apply Forall2_fmap_l in Hs'.
Qed.

Lemma to_flag_rows (col : string) (fact fact' : DataFrame) :
  to_flag col fact = Ok fact' →
  Forall2 (λ x y, ∀ c', c' ≠ col → cell y c' = cell x c') (rows fact) (rows fact').
Proof.
  unfold to_flag. destruct (decide (col ∈ columns fact)).
  - intros (s & [_ ->]%getitem_Ok & [= <-])%result_bind_Ok.
    eapply Forall2_impl.
    + apply (setitem_sets col (λ _ _, True)).
      unfold astype_bool, fillna, to_numeric_coerce, Pandas.col.
      rewrite <- !list_fmap_compose.
      apply Forall2_fmap_r, Forall_Forall2_diag, Forall_forall. done.
    + by intros x y [_ ?].
  - intros [= <-]. apply Forall_Forall2_diag, Forall_forall. done.
Qed.

(** The rows of the fact table, one for each row it is made from, in the
    same order. *)
Lemma create_fact_table_rows (df fact : DataFrame) :
  create_fact_table df = Ok fact → Forall2 Spec.fact_row (rows df) (rows fact).
Proof.
  unfold create_fact_table. intros Hfact.
  apply result_bind_Ok in Hfact as (temp & H0%assign_dt_rows & Hfact).
  apply result_bind_Ok in Hfact as (f0 & H1%getitems_rows & Hfact).
  apply result_bind_Ok in Hfact as (f1 & H2%fill_key_rows & Hfact).
  apply result_bind_Ok in Hfact as (f2 & H3%fill_key_rows & Hfact).
  apply result_bind_Ok in Hfact as (f3 & H4%fill_key_rows & Hfact).
  apply result_bind_Ok in Hfact as (f4 & H5%fill_key_rows & Hfact).
  apply result_bind_Ok in Hfact as (f5 & H6%to_flag_rows & Hfact).
  apply result_bind_Ok in Hfact as (f6 & H7%to_flag_rows & Hfact).
  apply result_bind_Ok in Hfact as (f7 & H8%to_flag_rows & H9%to_flag_rows).
  pose proof (Forall2_chain _ _ _ _ _ H0
               (Forall2_chain _ _ _ _ _ H1
                 (Forall2_chain _ _ _ _ _ H2
                   (Forall2_chain _ _ _ _ _ H3
                     (Forall2_chain _ _ _ _ _ H4
                       (Forall2_chain _ _ _ _ _ H5
                         (Forall2_chain _ _ _ _ _ H6
                           (Forall2_chain _ _ _ _ _ H7
                             (Forall2_chain _ _ _ _ _ H8 H9))))))))) as Hall.
  eapply Forall2_impl; [exact Hall|]. clear.
  intros m r (x0 & [Hd0 Ho0] & x1 & Hp & x2 & [Ht Hto] & x3 & [He Heo] & x4 & [Hv Hvo]
              & x5 & [Hl Hlo] & x6 & Ha & x7 & Hb & x8 & Hc & Hd).
  assert (∀ c, c ∈ ["event_id"; "date_id"; "track_id"; "episode_id"; "device_id";
                    "location_id"] → cell r c = cell x5 c) as Hflags.
  { intros c Hc'. rewrite Hd, Hc, Hb, Ha; [done|..];
      intros ->; revert Hc'; rewrite !elem_of_cons, elem_of_nil; intros Hc';
      repeat destruct Hc' as [Hc'|Hc']; done. }
  unfold Spec.fact_row.
  split; [|split].
  - rewrite Hflags by in_list.
    rewrite Hlo, Hvo, Heo, Hto by done. rewrite Hp by in_list. by rewrite Ho0.
  - rewrite Hflags by in_list.
    rewrite Hlo, Hvo, Heo, Hto by done. rewrite Hp by in_list. by rewrite Hd0.
  - intros c Hc'. rewrite Hflags.
    2:{ revert Hc'. rewrite !elem_of_cons, !elem_of_nil. tauto. }
    revert Hc'. rewrite !elem_of_cons, elem_of_nil.
    intros [->|[->|[->|[->|[]]]]].
    + rewrite Hlo, Hvo, Heo by done. rewrite <- Ht.
      rewrite Hp by in_list. by rewrite Ho0.
    + rewrite Hlo, Hvo by done. rewrite <- He.
      rewrite Hto by done. rewrite Hp by in_list. by rewrite Ho0.
    + rewrite Hlo by done. rewrite <- Hv.
      rewrite Heo, Hto by done. rewrite Hp by in_list. by rewrite Ho0.
    + rewrite <- Hl.
      rewrite Hvo, Heo, Hto by done. rewrite Hp by in_list. by rewrite Ho0.
Qed.
End fact_table_facts.

(** ** Referential integrity *)

Section integrity_facts.
Context `{!Library}.
Import Pandas Functional.

Lemma elem_of_col (c : string) (df : DataFrame) (v : value) :
  v ∈ col c df ↔ ∃ r, r ∈ rows df ∧ cell r c = v.
Proof.
  unfold col. rewrite list_elem_of_fmap. split.
  - intros (r & -> & Hr). by exists r.
  - intros (r & Hr & <-). by exists r.
Qed.

(** The surrogate keys of a dimension with a sentinel are integers. *)
Lemma ids_are_integers (pk : string) (dim : DataFrame) (v : value) :
  Spec.one_sentinel_first pk dim → Spec.data_ids_dense pk dim →
  v ∈ col pk dim → ∃ z, v = VInt z.
Proof.
  intros (ids & Hcol & _) Hdense. unfold Spec.data_ids_dense in Hdense.
  rewrite Hcol in Hdense |- *. simpl in Hdense. rewrite drop_0 in Hdense. rewrite Hdense.
  intros [->|(i & -> & _)%list_elem_of_fmap]%elem_of_cons; eauto.
Qed.

(** A key attached by the merge and then filled and cast by the fact
    assembler is -1 or a surrogate key of the dimension. *)
Lemma attached_key_resolved (key id : string) (dim : DataFrame) (k x v : value) :
  (∀ v, v ∈ col id dim → ∃ z, v = VInt z) →
  x = NaN ∨ (∃ d, d ∈ rows dim ∧ cell d key = k ∧ x = cell d id) →
  ((∀ d, d ∈ rows dim → cell d key ≠ k) → x = NaN) →
  to_int (fill_cell (VInt Config.UNKNOWN_ID) x) = Ok v →
  (∃ z, v = VInt z ∧ (z = Config.UNKNOWN_ID ∨ VInt z ∈ col id dim)) ∧
  ((∀ d, d ∈ rows dim → cell d key ≠ k) → v = VInt Config.UNKNOWN_ID).
Proof.
  intros Hint Hfrom Hmiss Hv.
  assert (x = NaN → v = VInt Config.UNKNOWN_ID) as Hnan.
  { intros ->. by injection Hv as <-. }
  split; [|by intros ?%Hmiss%Hnan].
  destruct Hfrom as [Hm|(d & Hd & _ & Hm)].
  - exists Config.UNKNOWN_ID. split; [by apply Hnan | by left].
  - destruct (Hint (cell d id)) as [z Hz]; [apply elem_of_col; by exists d|].
    rewrite Hm, Hz in Hv. injection Hv as <-. exists z. split; [done|]. right.
    rewrite <- Hz. apply elem_of_col. by exists d.
Qed.

Lemma assign_dt_col_ne (c c' : string) (f : Z → value) (temp temp' : DataFrame) :
  assign_dt c f temp = Ok temp' → c ≠ c' → col c' temp' = col c' temp.
Proof.
  intros (_ & _ & ->)%assign_dt_Ok Hne. apply col_setitem_ne; [done|].
  by rewrite length_fmap, length_col.
Qed.

Lemma assign_dt_col_eq (c : string) (f : Z → value) (temp temp' : DataFrame) :
  assign_dt c f temp = Ok temp' → col c temp' = dt_value f <$> col "ts" temp.
Proof.
  intros (_ & _ & ->)%assign_dt_Ok. apply col_setitem_eq.
  by rewrite length_fmap, length_col.
Qed.

Lemma col_getitems (cs : list string) (df sel : DataFrame) (c : string) :
  getitems cs df = Ok sel → c ∈ cs → col c sel = col c df.
Proof. intros [_ ->]%getitems_Ok Hc. by apply col_restrict. Qed.

(** The date keys of the date dimension are those of the timestamps of the
    rows it is built from. *)
Lemma create_dim_date_keys (df dim : DataFrame) (v : value) :
  create_dim_date df = Ok dim →
  v ∈ col "date_id" dim ↔
  v ∈ dt_value (λ t, VStr (Calendar.strftime_YmdH t)) <$> col "ts" df.
Proof.
  unfold create_dim_date. intros Hdim.
  apply result_bind_Ok in Hdim as (t1 & H1 & Hdim).
  apply result_bind_Ok in Hdim as (t2 & H2 & Hdim).
  apply result_bind_Ok in Hdim as (t3 & H3 & Hdim).
  apply result_bind_Ok in Hdim as (t4 & H4 & Hdim).
  apply result_bind_Ok in Hdim as (t5 & H5 & Hdim).
  apply result_bind_Ok in Hdim as (t6 & H6 & Hdim).
  apply result_bind_Ok in Hdim as (sel & Hsel & Hdim).
  apply result_bind_Ok in Hdim as (ded & Hded & [= <-]).
  apply col_drop_duplicates in Hded as [_ Hded].
  rewrite col_reset_index, Hded, (col_getitems _ _ _ _ Hsel) by in_list.
  rewrite (assign_dt_col_ne _ "date_id" _ _ _ H6),
    (assign_dt_col_ne _ "date_id" _ _ _ H5),
    (assign_dt_col_ne _ "date_id" _ _ _ H4),
    (assign_dt_col_ne _ "date_id" _ _ _ H3),
    (assign_dt_col_ne _ "date_id" _ _ _ H2) by done.
  by rewrite (assign_dt_col_eq _ _ _ _ H1).
Qed.

(** No row of a dimension built from the rows with a URI has a missing
    natural key. *)
Lemma uri_dimension_keys (uri id : string) (cs : list string)
    (unknown : list (string * value)) (mapping : list (string * string))
    (df sel ded : DataFrame) (d : Row) (s : string) :
  getitems cs (select (notna (col uri df)) df) = Ok sel → uri ∈ cs →
  drop_duplicates uri sel = Ok ded →
  uri ≠ id → Forall (λ on, uri ≠ on.1 ∧ uri ≠ on.2) mapping →
  (list_to_map unknown : gmap string value) !! uri = Some (VStr s) →
  d ∈ rows (with_sentinel id unknown (rename mapping (reset_index ded))) →
  cell d uri ≠ NaN.
Proof.
  intros Hsel Huri Hded Hne Hmap Hunknown Hd.
  assert (cell d uri ∈ col uri (with_sentinel id unknown (rename mapping (reset_index ded))))
    as Hin by (apply elem_of_col; by exists d).
  unfold with_sentinel in Hin.
  rewrite col_concat, col_from_record, Hunknown in Hin.
  rewrite col_setitem_ne in Hin by (by rewrite ?length_index).
  rewrite col_rename_ne, col_reset_index in Hin by done.
  apply elem_of_cons in Hin as [->|Hin]; [done|].
  apply col_drop_duplicates in Hded as [_ Hded]. apply Hded in Hin.
  rewrite (col_getitems _ _ _ _ Hsel) in Hin by done.
  apply elem_of_col in Hin as (r & Hr & <-).
  by apply elem_of_select_notna in Hr as [_ Hr].
Qed.

Lemma create_dim_track_keys (df dim : DataFrame) (d : Row) :
  create_dim_track df = Ok dim → d ∈ rows dim → cell d "spotify_track_uri" ≠ NaN.
Proof.
  unfold create_dim_track.
  intros (uri & [_ ->]%getitem_Ok & (sel & Hsel & (ded & Hded & [= <-])%result_bind_Ok)
    %result_bind_Ok)%result_bind_Ok.
  eapply uri_dimension_keys; [exact Hsel | in_list | exact Hded | done | | done].
  by repeat constructor.
Qed.

Lemma create_dim_episode_keys (df dim : DataFrame) (d : Row) :
  create_dim_episode df = Ok dim → d ∈ rows dim → cell d "spotify_episode_uri" ≠ NaN.
Proof.
  unfold create_dim_episode.
  intros (uri & [_ ->]%getitem_Ok & (sel & Hsel & (ded & Hded & [= <-])%result_bind_Ok)
    %result_bind_Ok)%result_bind_Ok.
  eapply uri_dimension_keys; [exact Hsel | in_list | exact Hded | done | | done].
  by repeat constructor.
Qed.
End integrity_facts.

Section referential_integrity.
Context `{!Library}.
Import Pandas.

(** C4. When the star schema is built, every row of the fact table comes
    from an event of the cleaned rows, and each of its keys [track_id],
    [episode_id], [device_id] and [location_id] is an integer, never a
    missing value, that is -1 or a surrogate key of the dimension; the track
    key of an event without a track URI is -1 and the episode key of an event
    without an episode URI is -1; its [date_id], computed from the timestamp,
    is a [date_id] of the date dimension.  Every event has a fact row. *)
Theorem referential_integrity (df : DataFrame) (t : ReadProcess.Tables) :
  ReadProcess.star_schema df = Ok t →
  (∀ r, r ∈ rows (ReadProcess.fact_table t) →
    Spec.foreign_key "track_id" (ReadProcess.dim_track t) r ∧
    Spec.foreign_key "episode_id" (ReadProcess.dim_episode t) r ∧
    Spec.foreign_key "device_id" (ReadProcess.dim_device t) r ∧
    Spec.foreign_key "location_id" (ReadProcess.dim_location t) r ∧
    cell r "date_id" ∈ col "date_id" (ReadProcess.dim_date t) ∧
    ∃ e, e ∈ rows df ∧ cell r "event_id" = cell e "event_id" ∧
      (cell e "spotify_track_uri" = NaN → cell r "track_id" = VInt (-1)) ∧
      (cell e "spotify_episode_uri" = NaN → cell r "episode_id" = VInt (-1))) ∧
  (∀ e, e ∈ rows df →
    ∃ r, r ∈ rows (ReadProcess.fact_table t) ∧ cell r "event_id" = cell e "event_id").
Proof.
  unfold ReadProcess.star_schema.
  rewrite call_create_dim_date, call_create_dim_device, call_create_dim_track,
    call_create_dim_episode, call_create_dim_location.
  intros Hs.
  apply result_bind_Ok in Hs as (dim_date & Hdate & Hs).
  apply result_bind_Ok in Hs as (dim_device & Hdevice & Hs).
  apply result_bind_Ok in Hs as (dim_track & Htrack & Hs).
  apply result_bind_Ok in Hs as (dim_episode & Hepisode & Hs).
  apply result_bind_Ok in Hs as (dim_location & Hlocation & Hs).
  apply result_bind_Ok in Hs as (m1 & H1 & Hs).
  apply result_bind_Ok in Hs as (m2 & H2 & Hs).
  apply result_bind_Ok in Hs as (m3 & H3 & Hs).
  apply result_bind_Ok in Hs as (m4 & H4 & Hs).
  rewrite call_create_fact_table in Hs.
  apply result_bind_Ok in Hs as (fact & Hfact%create_fact_table_rows & [= <-]). simpl.
  apply attach_key_rows in H1 as [Hback1 Hforth1]; [|done].
  apply attach_key_rows in H2 as [Hback2 Hforth2]; [|done].
  apply attach_key_rows in H3 as [Hback3 Hforth3]; [|done].
  apply attach_key_rows in H4 as [Hback4 Hforth4]; [|done].
  split.
  - intros r (i & Hi)%list_elem_of_lookup.
    destruct (Forall2_lookup_r _ _ _ _ _ Hfact Hi) as (m & Hm%list_elem_of_lookup_2 & Hr).
    destruct Hr as (Hevent & Hdate_id & Hkeys).
    destruct (Hback4 _ Hm) as (l3 & Hl3 & Ha4).
    destruct (Hback3 _ Hl3) as (l2 & Hl2 & Ha3).
    destruct (Hback2 _ Hl2) as (l1 & Hl1 & Ha2).
    destruct (Hback1 _ Hl1) as (e & He & Ha1).
    destruct Ha4 as (Hsame4 & Hfrom4 & Hmiss4). destruct Ha3 as (Hsame3 & Hfrom3 & Hmiss3).
    destruct Ha2 as (Hsame2 & Hfrom2 & Hmiss2). destruct Ha1 as (Hsame1 & Hfrom1 & Hmiss1).
    apply create_dim_device_spec in Hdevice as (Hd1 & _ & Hd2).
    apply create_dim_location_spec in Hlocation as (Hl1' & _ & Hl2').
    pose proof (create_dim_track_spec _ _ Htrack) as (Ht1 & _ & Ht2).
    pose proof (create_dim_episode_spec _ _ Hepisode) as (He1 & _ & He2).
    pose proof (Hkeys "track_id" ltac:(in_list)) as Hk_track.
    pose proof (Hkeys "episode_id" ltac:(in_list)) as Hk_episode.
    pose proof (Hkeys "device_id" ltac:(in_list)) as Hk_device.
    pose proof (Hkeys "location_id" ltac:(in_list)) as Hk_location.
    rewrite Hsame4, Hsame3 in Hk_track by done.
    rewrite Hsame4 in Hk_episode by done.
    rewrite Hsame4, Hsame3, Hsame2 in Hk_device by done.
    destruct (attached_key_resolved _ _ _ _ _ _
      (λ v, ids_are_integers _ _ v Ht1 Ht2) Hfrom2 Hmiss2 Hk_track)
      as [Hfk_track Hno_track].
    destruct (attached_key_resolved _ _ _ _ _ _
      (λ v, ids_are_integers _ _ v He1 He2) Hfrom3 Hmiss3 Hk_episode)
      as [Hfk_episode Hno_episode].
    destruct (attached_key_resolved _ _ _ _ _ _
      (λ v, ids_are_integers _ _ v Hd1 Hd2) Hfrom1 Hmiss1 Hk_device)
      as [Hfk_device _].
    destruct (attached_key_resolved _ _ _ _ _ _
      (λ v, ids_are_integers _ _ v Hl1' Hl2') Hfrom4 Hmiss4 Hk_location)
      as [Hfk_location _].
    split_and!; [done..| |].
    + rewrite Hdate_id, Hsame4, Hsame3, Hsame2, Hsame1 by done.
      apply (create_dim_date_keys _ _ _ Hdate), list_elem_of_fmap.
      eexists. split; [done|]. apply elem_of_col. by exists e.
    + exists e. split_and!; [done| | |].
      * by rewrite Hevent, Hsame4, Hsame3, Hsame2, Hsame1.
      * intros Huri. apply Hno_track. intros d Hd. rewrite Hsame1, Huri by done.
        by apply (create_dim_track_keys _ _ _ Htrack).
      * intros Huri. apply Hno_episode. intros d Hd.
        rewrite Hsame2, Hsame1, Huri by done.
        by apply (create_dim_episode_keys _ _ _ Hepisode).
  - intros e He.
    destruct (Hforth1 _ He) as (l1 & Hl1 & Hsame1 & _).
    destruct (Hforth2 _ Hl1) as (l2 & Hl2 & Hsame2 & _).
    destruct (Hforth3 _ Hl2) as (l3 & Hl3 & Hsame3 & _).
    destruct (Hforth4 _ Hl3) as (m & (i & Hi)%list_elem_of_lookup & Hsame4 & _).
    destruct (Forall2_lookup_l _ _ _ _ _ Hfact Hi) as (r & Hr%list_elem_of_lookup_2 & Hevent & _).
    exists r. split; [done|].
    by rewrite Hevent, Hsame4, Hsame3, Hsame2, Hsame1.
Qed.
End referential_integrity.


Section referential_integrity_examples.
Import Pandas ReadProcess.

(** The two plays of [Examples.two_plays] become the tables
    [Examples.two_plays_tables], whose fact rows have all their keys
    resolved. *)
Lemma referential_integrity_witness :
  @star_schema Examples.library (Functional.clean_data Examples.two_plays)
    = Ok Examples.two_plays_tables ∧
  ∀ r, r ∈ rows (fact_table Examples.two_plays_tables) →
    Spec.foreign_key "track_id" (dim_track Examples.two_plays_tables) r ∧
    Spec.foreign_key "device_id" (dim_device Examples.two_plays_tables) r ∧
    cell r "date_id" ∈ col "date_id" (dim_date Examples.two_plays_tables).
Proof.
  assert (@star_schema Examples.library (Functional.clean_data Examples.two_plays)
    = Ok Examples.two_plays_tables) as Hrun by (vm_compute; reflexivity).
  split; [exact Hrun|]. intros r Hr.
  destruct (@referential_integrity Examples.library _ _ Hrun) as [Hrows _].
  destruct (Hrows r Hr) as (Htrack & _ & Hdevice & _ & Hdate & _).
  split; [exact Htrack|]. split; [exact Hdevice | exact Hdate].
Defined.
End referential_integrity_examples.

(** ** Row counts *)

Section row_count_facts.
Context `{!Library}.
Import Pandas.

Lemma len_attach_key (df dim out : DataFrame) (key id : string) :
  ReadProcess.attach_key df dim key id = Ok out → NoDup (col key dim) →
  len out = len df.
Proof.
  unfold ReadProcess.attach_key.
  intros (mapping & Hmapping & Hout)%result_bind_Ok Hnodup.
  apply (len_merge_left _ _ _ _ Hout).
  by rewrite (col_getitems _ _ _ _ Hmapping) by apply list_elem_of_here.
Qed.

(** X9. When the natural keys of the four dimensions are distinct, the reserved
    row included, the fact table has one row for each cleaned row. *)
Lemma fact_rows_when_keys_unique (df : DataFrame) (t : ReadProcess.Tables) :
  ReadProcess.star_schema df = Ok t →
  Spec.natural_keys_unique "platform" (ReadProcess.dim_device t) →
  Spec.natural_keys_unique "spotify_track_uri" (ReadProcess.dim_track t) →
  Spec.natural_keys_unique "spotify_episode_uri" (ReadProcess.dim_episode t) →
  Spec.natural_keys_unique "ip_addr" (ReadProcess.dim_location t) →
  len (ReadProcess.fact_table t) = len df.
Proof.
  unfold ReadProcess.star_schema. intros Hs.
  apply result_bind_Ok in Hs as (dim_date & _ & Hs).
  apply result_bind_Ok in Hs as (dim_device & _ & Hs).
  apply result_bind_Ok in Hs as (dim_track & _ & Hs).
  apply result_bind_Ok in Hs as (dim_episode & _ & Hs).
  apply result_bind_Ok in Hs as (dim_location & _ & Hs).
  apply result_bind_Ok in Hs as (m1 & H1 & Hs).
  apply result_bind_Ok in Hs as (m2 & H2 & Hs).
  apply result_bind_Ok in Hs as (m3 & H3 & Hs).
  apply result_bind_Ok in Hs as (m4 & H4 & Hs).
  rewrite call_create_fact_table in Hs.
  apply result_bind_Ok in Hs as (fact & Hfact%create_fact_table_rows & [= <-]). simpl.
  intros Hd Ht He Hl. unfold len at 1. rewrite <- (Forall2_length _ _ _ Hfact).
  fold (len m4).
  rewrite (len_attach_key _ _ _ _ _ H4 Hl), (len_attach_key _ _ _ _ _ H3 He),
    (len_attach_key _ _ _ _ _ H2 Ht). apply (len_attach_key _ _ _ _ _ H1 Hd).
Qed.
End row_count_facts.

(** C3. The fact table does not always have as many rows as the cleaned
    table: the one play of [Examples.unknown_platform], whose platform is the
    string [Unknown], cleans to one row, the device dimension built from it
    has that string twice, in the reserved row and in the row of the data,
    and the fact table has two rows, both with the event number 0. *)
Theorem fact_table_fan_out :
  let df := Functional.clean_data Examples.unknown_platform in
  let t := Examples.unknown_platform_tables in
  @ReadProcess.star_schema Examples.library df = Ok t ∧
  Pandas.len df = 1 ∧
  Pandas.col "platform" (ReadProcess.dim_device t) = [VStr "Unknown"; VStr "Unknown"] ∧
  Pandas.col "event_id" (ReadProcess.fact_table t) = [VInt 0; VInt 0] ∧
  Pandas.col "device_id" (ReadProcess.fact_table t) = [VInt (-1); VInt 0] ∧
  Pandas.len (ReadProcess.fact_table t) = 2.
Proof. intros df t. split_and!; vm_compute; reflexivity. Qed.

(** ** The record loader *)

Section loader_facts.
Context `{!Library}.
Import Pandas OS Stages.

Lemma bind_run {S A B} (m : M S A) (f : A → M S B) (s : S) :
  (m ≫= f) s = match m s with
               | (Ok a, s') => f a s'
               | (Raise e, s') => (Raise e, s')
               end.
Proof. reflexivity. Qed.

Lemma mapM_cons {S A B} (f : A → M S B) (x : A) (l : list A) :
  mapM f (x :: l) = y ← f x; k ← mapM f l; mret (y :: k).
Proof. reflexivity. Qed.

Lemma parsed_unique (w : World) (files : list string) (frames frames' : list DataFrame) :
  parsed w files frames → parsed w files frames' → frames = frames'.
Proof.
  intros H0. revert frames'.
  induction H0 as [|f df files frames (records & Hf & ->) _ IH]; intros frames' H'.
  - by apply Forall2_nil_inv_l in H'.
  - apply Forall2_cons_inv_l in H' as (df' & frames'' & (records' & Hf' & ->) & H' & ->).
    rewrite Hf in Hf'. injection Hf' as <-. f_equal. by apply IH.
Qed.

(** Reading the files one after the other: all the tables, or the error of
    the first file that cannot be read.  The world does not change. *)
Lemma mapM_read_json (files : list string) (w : World) :
  ∃ r, mapM (λ f, read_json f ["ts"]) files w = (r, w) ∧
    match r with
    | Ok frames => parsed w files frames
    | Raise e =>
        is_Exception e = true ∧
        ∃ f, f ∈ files ∧ ∀ df, fs w !! f ≠ Some (JsonFile (Some df))
    end.
Proof.
  induction files as [|f files (r & IHw & IH)]; [eexists; split; [done|constructor]|].
  rewrite mapM_cons, bind_run. unfold read_json at 1.
  destruct (fs w !! f) as [[?|[df|]|?|?|]|] eqn:Hf;
    try (eexists; split; [done|]; split; [done|]; exists f;
         split; [apply list_elem_of_here|]; intros df'; rewrite Hf; congruence).
  rewrite bind_run, IHw. destruct r as [frames|e].
  - eexists. split; [done|]. constructor; [by exists df | done].
  - eexists. split; [done|]. destruct IH as (He & f' & Hf' & Hno).
    split; [done|]. exists f'. split; [by apply list_elem_of_further | done].
Qed.

(** *** The date conversion of [read_json] *)

Lemma length_try_convert_to_date (s : Series) :
  length (try_convert_to_date s) = length s.
Proof.
  unfold try_convert_to_date. destruct s as [|v s]; [done|].
  destruct (mapM to_datetime_cell (v :: s)) as [k|] eqn:Hk; [|done].
  simpl. by apply length_mapM in Hk.
Qed.

Lemma to_datetime_cell_idemp (v x : value) :
  to_datetime_cell v = Some x → to_datetime_cell x = Some x.
Proof.
  destruct v; simpl; try (intros [= <-]; done);
    destruct (datetime_of _); intros [= <-]; done.
Qed.

Lemma to_datetime_cell_datetimelike (v x : value) :
  to_datetime_cell v = Some x → datetimelike x.
Proof.
  destruct v; simpl; try (intros [= <-]; done);
    destruct (datetime_of _); intros [= <-]; done.
Qed.

(** A column whose cells can all be read becomes the column of the
    instants they denote. *)
Lemma try_convert_to_date_readable (s : Series) :
  Forall (λ v, is_Some (to_datetime_cell v)) s →
  Forall2 (λ v x, to_datetime_cell v = Some x) s (try_convert_to_date s).
Proof.
  intros Hs. unfold try_convert_to_date. destruct s as [|v s]; [constructor|].
  apply mapM_is_Some_2 in Hs as [k Hk].
  change (Forall2 (λ v x, to_datetime_cell v = Some x) (v :: s)
            (default (v :: s) (mapM to_datetime_cell (v :: s)))).
  rewrite Hk. by apply mapM_Some.
Qed.

Lemma try_convert_to_date_idemp (s : Series) :
  try_convert_to_date (try_convert_to_date s) = try_convert_to_date s.
Proof.
  destruct s as [|v s]; [done|].
  assert (try_convert_to_date (v :: s) =
          default (v :: s) (mapM to_datetime_cell (v :: s))) as Heq by done.
  rewrite Heq. destruct (mapM to_datetime_cell (v :: s)) as [k|] eqn:Hk; cbn [default].
  - apply mapM_Some in Hk. destruct k as [|x k]; [done|].
    assert (mapM to_datetime_cell (x :: k) = Some (x :: k)) as Hk'.
    { apply mapM_Some, Forall_Forall2_diag, Forall_forall. intros y Hy.
      apply list_elem_of_lookup in Hy as [i Hy].
      destruct (Forall2_lookup_r _ _ _ _ _ Hk Hy) as (v0 & _ & Hv0).
      by eapply to_datetime_cell_idemp. }
    change (default (x :: k) (mapM to_datetime_cell (x :: k)) = x :: k).
    by rewrite Hk'.
  - exact Heq.
Qed.

Lemma convert_step_len (cs : list string) (df : DataFrame) (c : string) :
  len (convert_step cs df c) = len df.
Proof.
  unfold convert_step. destruct (_ || _); [|done].
  apply len_setitem. by rewrite length_try_convert_to_date, length_col.
Qed.

Lemma convert_step_col (cs : list string) (df : DataFrame) (c c' : string) :
  col c' (convert_step cs df c) = col c' df ∨
  (c = c' ∧ col c' (convert_step cs df c) = try_convert_to_date (col c' df)).
Proof.
  unfold convert_step. destruct (_ || _); [|by left].
  destruct (decide (c = c')) as [->|Hne].
  - right. split; [done|]. apply col_setitem_eq.
    by rewrite length_try_convert_to_date, length_col.
  - left. apply col_setitem_ne; [done|].
    by rewrite length_try_convert_to_date, length_col.
Qed.

Lemma foldl_convert_step_col (cs l : list string) (df : DataFrame) (c : string) :
  col c (foldl (convert_step cs) df l) = col c df ∨
  col c (foldl (convert_step cs) df l) = try_convert_to_date (col c df).
Proof.
  revert df. induction l as [|c0 l IH]; intros df; [by left|]. simpl.
  destruct (IH (convert_step cs df c0)) as [-> | ->];
    destruct (convert_step_col cs df c0 c) as [-> | [_ ->]]; auto.
  right. apply try_convert_to_date_idemp.
Qed.

Lemma foldl_convert_step_in (cs l : list string) (df : DataFrame) (c : string) :
  c ∈ cs → c ∈ l →
  col c (foldl (convert_step cs) df l) = try_convert_to_date (col c df).
Proof.
  intros Hc. revert df. induction l as [|c0 l IH]; intros df Hl; [by apply elem_of_nil in Hl|].
  simpl. destruct (decide (c0 = c)) as [->|Hne].
  - assert (col c (convert_step cs df c) = try_convert_to_date (col c df)) as Hstep.
    { unfold convert_step. rewrite bool_decide_eq_true_2 by done. simpl.
      apply col_setitem_eq. by rewrite length_try_convert_to_date, length_col. }
    destruct (foldl_convert_step_col cs l (convert_step cs df c) c) as [-> | ->];
      rewrite Hstep; [done|]. apply try_convert_to_date_idemp.
  - apply elem_of_cons in Hl as [->|Hl]; [done|]. rewrite IH by done.
    destruct (convert_step_col cs df c0 c) as [-> | [? _]]; done.
Qed.

(** The named column of the table read is the converted column of the
    file. *)
Lemma col_convert_dates (cs : list string) (df : DataFrame) (c : string) :
  c ∈ cs → c ∈ columns df →
  col c (convert_dates cs df) = try_convert_to_date (col c df).
Proof. apply foldl_convert_step_in. Qed.

Lemma col_concat_all (c : string) (frames : list DataFrame) :
  col c (concat_all frames) = frames ≫= col c.
Proof.
  unfold col at 1. simpl. rewrite col_relabel.
  induction frames as [|df frames IH]; [done|].
  change ((df :: frames) ≫= rows) with (rows df ++ frames ≫= rows).
  change ((df :: frames) ≫= col c) with (col c df ++ frames ≫= col c).
  by rewrite fmap_app, IH.
Qed.

(** The [ts] columns of the tables read hold the instants that the [ts]
    values of the files denote. *)
Lemma parsed_timestamps (w : World) (files : list string)
    (frames records : list DataFrame) :
  parsed w files frames → stored w files records → Forall timestamped records →
  Forall2 (λ v t, to_datetime_cell v = Some t)
          (records ≫= col "ts") (frames ≫= col "ts").
Proof.
  intros Hp. revert records.
  induction Hp as [|f df files frames (table & Hf & ->) _ IH]; intros records Hs Ht.
  - apply Forall2_nil_inv_l in Hs as ->. constructor.
  - apply Forall2_cons_inv_l in Hs as (table' & records' & Hf' & Hs & ->).
    rewrite Hf in Hf'. injection Hf' as <-.
    apply Forall_cons in Ht as [[Hcol Hread] Ht].
    change ((table :: records') ≫= col "ts") with (col "ts" table ++ records' ≫= col "ts").
    change ((convert_dates ["ts"] table :: frames) ≫= col "ts")
      with (col "ts" (convert_dates ["ts"] table) ++ frames ≫= col "ts").
    apply Forall2_app; [|by apply IH].
    rewrite col_convert_dates by (done || apply list_elem_of_here).
    by apply try_convert_to_date_readable.
Qed.

Lemma append_nil_r (a : string) : a +:+ EmptyString = a.
Proof. induction a as [|x a IH]; [done|]. by rewrite append_cons, IH. Qed.

Lemma occurs_in_suffix (pre s : string) : Text.occurs_in s (pre +:+ s).
Proof. exists pre, EmptyString. by rewrite append_nil_r. Qed.

Lemma matching_files_glob (w : World) (path : string) :
  path_glob path "*.json" w = (Ok (matching_files w path), w).
Proof. reflexivity. Qed.
End loader_facts.

(** C6. The loader raises a file-not-found error whose message contains the
    resolved path when the directory is absent or holds no matching file.
    Otherwise, when every matching file can be read, it returns the
    concatenation of the tables read from them with the date conversion of
    the [ts] field, and the [ts] column of that table holds the instants
    that the [ts] values of the files denote provided each of them can be
    read as one; when a file cannot be read it logs the error of the reader
    and raises it again.  It changes no file. *)
Theorem extract_json_files_spec `{!Library} (w : OS.World) (path : string) :
  let r := (ReadProcess.extract_json_files path w).1 in
  let w' := (ReadProcess.extract_json_files path w).2 in
  let files := Stages.matching_files w path in
  (Stages.no_input w path → Stages.not_found w path r) ∧
  (¬ Stages.no_input w path →
    (∀ frames, Stages.parsed w files frames →
      r = Ok (Pandas.concat_all frames) ∧
      ∀ records, Stages.stored w files records → Forall Stages.timestamped records →
        Forall2 (λ v t, Pandas.to_datetime_cell v = Some t)
                (records ≫= Pandas.col "ts")
                (Pandas.col "ts" (Pandas.concat_all frames)) ∧
        Forall Pandas.datetimelike (Pandas.col "ts" (Pandas.concat_all frames))) ∧
    ((¬ ∃ frames, Stages.parsed w files frames) →
      ∃ e, r = Raise e ∧
           (∃ f, f ∈ files ∧ ∀ df, OS.fs w !! f ≠ Some (OS.JsonFile (Some df))) ∧
           last (OS.log w') = Some (OS.ERROR, "Error al leer JSONs: " +:+ str_exn e))) ∧
  OS.fs w' = OS.fs w.
Proof.
  intros r w' files. subst r w'.
  destruct (ReadProcess.extract_json_files path w) as [r w'] eqn:Hrun. simpl.
  revert Hrun. unfold ReadProcess.extract_json_files.
  rewrite bind_run. unfold OS.path_exists at 1.
  destruct (OS.fs w !! path) as [node|] eqn:Hpath.
  - rewrite bool_decide_eq_true_2 by done. cbn [negb]. cbv iota.
    rewrite bind_run, matching_files_glob. fold files.
    destruct (decide (files = [])) as [Hnil|Hfiles].
    + intros [= <- <-]. split_and!; [| |done].
      * intros _. eexists. split; [reflexivity|]. apply occurs_in_suffix.
      * intros []. by right.
    + rewrite bind_run. unfold OS.logger at 1. cbv beta iota.
      destruct (mapM_read_json files (OS.add_log
        (OS.INFO, "✓ Se encontraron " +:+ pretty (length files) +:+ " archivos JSON") w))
        as (r0 & Hm & Hr).
      unfold try_except, try_catch. rewrite bind_run, Hm.
      assert (¬ Stages.no_input w path) as Hinput by (intros [?|?]; [congruence|done]).
      destruct r0 as [frames|e].
      * intros [= <- <-]. split; [done|]. split; [|done]. intros _. split.
        -- intros frames' Hframes'.
           rewrite (parsed_unique _ _ _ _ Hr Hframes'). split; [done|].
           intros records Hstored Hts. rewrite col_concat_all.
           pose proof (parsed_timestamps _ _ _ _ Hframes' Hstored Hts) as Hinst.
           split; [done|]. apply Forall_forall. intros t Ht.
           apply list_elem_of_lookup in Ht as [i Ht].
           destruct (Forall2_lookup_r _ _ _ _ _ Hinst Ht) as (v & _ & Hv).
           by eapply to_datetime_cell_datetimelike.
        -- intros []. by exists frames.
      * destruct Hr as (-> & f & Hf & Hno). intros [= <- <-].
        split; [done|]. split; [|done]. intros _. split.
        -- intros frames Hframes.
           apply list_elem_of_lookup in Hf as [i Hi].
           destruct (Forall2_lookup_l _ _ _ _ _ Hframes Hi) as (df & _ & records & Hdf & _).
           by destruct (Hno records).
        -- intros _. exists e. split; [done|]. split; [by exists f|]. simpl.
           by rewrite last_snoc.
  - rewrite bool_decide_eq_false_2 by (by intros [? [=]]). cbn [negb]. cbv iota.
    intros [= <- <-]. split_and!; [| |done].
    + intros _. eexists. split; [reflexivity|]. apply occurs_in_suffix.
    + intros []. by left.
Qed.

(** With the two exports of [Worlds.two_exports] the loader returns their
    records, those of [a.json] first, and their three timestamps are
    instants. *)
Lemma extract_json_files_spec_witness :
  let out := Pandas.concat_all [Examples.two_plays; Examples.unknown_platform] in
  (@ReadProcess.extract_json_files Examples.library "data/raw" Worlds.two_exports).1 = Ok out ∧
  Pandas.col "ts" out = [VTs 1614861296; VTs 1614864896; VTs 1614861296] ∧
  Forall Pandas.datetimelike (Pandas.col "ts" out).
Proof.
  intros out.
  destruct (@extract_json_files_spec Examples.library Worlds.two_exports "data/raw")
    as (_ & Hreturns & _).
  destruct Hreturns as [Hall _].
  { intros [Hno|Hno]; vm_compute in Hno; discriminate. }
  destruct (Hall [Examples.two_plays; Examples.unknown_platform]) as [Hr Hts].
  { assert (Stages.matching_files Worlds.two_exports "data/raw" =
            ["data/raw/a.json"; "data/raw/b.json"]) as -> by (vm_compute; reflexivity).
    repeat constructor.
    - exists (Examples.exported Examples.two_plays). split; vm_compute; reflexivity.
    - exists (Examples.exported Examples.unknown_platform). split; vm_compute; reflexivity. }
  split; [exact Hr|]. split; [vm_compute; reflexivity|].
  apply (Hts [Examples.exported Examples.two_plays;
              Examples.exported Examples.unknown_platform]).
  - assert (Stages.matching_files Worlds.two_exports "data/raw" =
            ["data/raw/a.json"; "data/raw/b.json"]) as -> by (vm_compute; reflexivity).
    repeat constructor; vm_compute; reflexivity.
  - repeat constructor; try (vm_compute; by eexists).
    all: in_list.
Defined.

(** C6, as the specification states it, fails: when a matching file cannot
    be parsed the loader neither returns nor reports a missing file, it
    raises the error of the reader. *)
Lemma loader_raises_read_errors : ¬ @Stages.loader_claim Examples.library.
Proof.
  intros Hclaim. destruct (Hclaim Worlds.unreadable "data/raw") as [_ Hreturns].
  destruct Hreturns as (frames & _ & Hr).
  { intros [Hno|Hno]; vm_compute in Hno; discriminate. }
  assert ((@ReadProcess.extract_json_files Examples.library "data/raw" Worlds.unreadable).1 =
          Raise (ValueError "Expected object or value: data/raw/a.json")) as Hraise
    by (vm_compute; reflexivity).
  simpl in Hr. rewrite Hraise in Hr. discriminate.
Qed.

(** ** Stage 2 and the orchestrator *)

Section confined_facts.
Context `{!Library, !Environment}.
Import Pandas OS Stages Config.
Context (keep : string → Prop) (asked : value → Prop).

Lemma confined_ret {A} (a : A) : confined keep asked (mret a).
Proof. intros w. split_and!; [done| |done]. by left. Qed.

Lemma confined_bind {A B} (m : M World A) (f : A → M World B) :
  confined keep asked m → (∀ a, confined keep asked (f a)) →
  confined keep asked (m ≫= f).
Proof.
  intros Hm Hf w. rewrite bind_run. destruct (Hm w) as (Hfs & Hq & Hexn).
  destruct (m w) as [[a|e] w']; simpl in *.
  - destruct (Hf a w') as (Hfs' & Hq' & Hexn'). split_and!; [| |done].
    + intros p Hp. by rewrite Hfs', Hfs.
    + intros q [Hin|?]%Hq'; [by apply Hq | by right].
  - split_and!; [done..|]. intros e' [= <-]. by apply Hexn.
Qed.

Lemma confined_lift {A} (r : result A) :
  (∀ e, r = Raise e → is_Exception e = true) → confined keep asked (lift r).
Proof. intros Hr w. split_and!; [done| |done]. by left. Qed.

(** A step of pandas, whose result the steps after it may rely on. *)
Lemma confined_bind_lift {A B} (r : result A) (f : A → M World B) :
  (∀ e, r = Raise e → is_Exception e = true) →
  (∀ a, r = Ok a → confined keep asked (f a)) →
  confined keep asked (lift r ≫= f).
Proof.
  intros Hr Hf. destruct r as [a|e].
  - intros w. rewrite bind_run. by apply Hf.
  - intros w. rewrite bind_run. simpl. split_and!; [done|by left|].
    intros e' [= <-]. by apply Hr.
Qed.

Lemma confined_raise {A} (e : exn) :
  is_Exception e = true → confined keep asked (raise e : M World A).
Proof. intros He. apply confined_lift. by intros ? [= <-]. Qed.

Lemma confined_logger (lvl : Level) (msg : string) : confined keep asked (logger lvl msg).
Proof. intros w. split_and!; [done| |done]. by left. Qed.

Lemma confined_path_exists (path : string) : confined keep asked (path_exists path).
Proof. intros w. split_and!; [done| |done]. by left. Qed.

Lemma confined_read_parquet (path : string) : confined keep asked (read_parquet path).
Proof.
  intros w. split_and!; [done|by left|]. unfold read_parquet. simpl.
  destruct (fs w !! path) as [[]|]; by intros ? [= <-].
Qed.

Lemma confined_open_reader (path : string) : confined keep asked (open_reader path).
Proof.
  intros w. split_and!; [done|by left|]. unfold open_reader. simpl.
  destruct (fs w !! path) as [[]|]; by intros ? [= <-].
Qed.

Lemma confined_query {A} (method : string) (f : value → option A) (ip : value) :
  asked ip → confined keep asked (query method f ip).
Proof.
  intros Hip w. split_and!; [done| |].
  - unfold query. simpl. intros q [?|Hq%list_elem_of_singleton]%elem_of_app;
      [by left | subst q; by right].
  - unfold query. simpl. destruct (f ip); by intros ? [= <-].
Qed.

Lemma confined_to_parquet (df : DataFrame) (path : string) :
  ¬ keep path → confined keep asked (to_parquet df path).
Proof.
  intros Hpath w. unfold to_parquet.
  destruct (encodable w df); simpl; [|split_and!; [done|by left|]; by intros ? [= <-]].
  destruct (writable w path); simpl.
  - split_and!; [|by left|done]. intros p Hp. apply lookup_insert_ne. by intros ->.
  - split_and!; [done|by left|]. by intros ? [= <-].
Qed.

Lemma confined_try_catch {A} (catches : exn → bool)
    (body : M World A) (handler : exn → M World A) :
  confined keep asked body →
  (∀ e, is_Exception e = true → confined keep asked (handler e)) →
  confined keep asked (try_catch catches body handler).
Proof.
  intros Hbody Hhandler w. unfold try_catch. destruct (Hbody w) as (Hfs & Hq & Hexn).
  destruct (body w) as [[a|e] w']; simpl in *; [done|].
  destruct (catches e).
  - destruct (Hhandler e (Hexn e eq_refl) w') as (Hfs' & Hq' & Hexn').
    split_and!; [| |done].
    + intros p Hp. by rewrite Hfs', Hfs.
    + intros q [Hin|?]%Hq'; [by apply Hq | by right].
  - split_and!; [done..|]. intros ? [= <-]. by apply Hexn.
Qed.

Lemma getitem_raises (c : string) (df : DataFrame) (e : exn) :
  getitem c df = Raise e → is_Exception e = true.
Proof. unfold getitem. destruct (decide _); [done|]. by intros [= <-]. Qed.

Lemma merge_left_raises (left right : DataFrame) (key : string) (e : exn) :
  merge_left left right key = Raise e → is_Exception e = true.
Proof. unfold merge_left. destruct (decide _); [done|]. by intros [= <-]. Qed.

Lemma confined_fill (c : string) (v : value) (df : DataFrame) :
  confined keep asked (Localization.fill c v df).
Proof.
  apply confined_bind; [apply confined_lift, getitem_raises|]. intros s.
  apply confined_ret.
Qed.

Lemma confined_lookup_loop (c a k : Reader) (ips : list value)
    (geo_data : list (list (string * value))) :
  Forall asked ips → confined keep asked (Localization.lookup_loop c a k ips geo_data).
Proof.
  intros Hips. revert geo_data.
  induction Hips as [|ip ips Hip _ IH]; intros geo_data; [apply confined_ret|].
  apply confined_bind; [|done]. apply confined_try_catch.
  - repeat (apply confined_bind; [by apply confined_query|intros ?]). apply confined_ret.
  - intros e _. apply confined_bind; [apply confined_logger|]. intros _.
    apply confined_ret.
Qed.
End confined_facts.

Section enricher_facts.
Context `{!Library, !Environment}.
Import Pandas OS Stages Config.

Lemma elem_of_unique_from (seen : list value) (s : Series) (v : value) :
  v ∈ unique_from seen s → v ∈ s.
Proof.
  revert seen. induction s as [|x s IH]; intros seen; simpl; [done|].
  destruct (decide (x ∈ seen)).
  - intros ?%IH. by apply list_elem_of_further.
  - intros [->|?%IH]%elem_of_cons; [apply list_elem_of_here|].
    by apply list_elem_of_further.
Qed.

Lemma elem_of_select (mask : list bool) (df : DataFrame) (r : Row) :
  r ∈ rows (select mask df) ↔ ∃ i, rows df !! i = Some r ∧ mask !! i = Some true.
Proof.
  unfold select. simpl. rewrite list_elem_of_fmap. split.
  - intros ([r' b] & -> & [Hb Hin]%list_elem_of_filter). simpl in *. subst b.
    apply list_elem_of_lookup in Hin as [i Hi].
    apply lookup_zip_Some in Hi as [Hr Hb]. by exists i.
  - intros (i & Hr & Hb). exists (r, true). split; [done|].
    apply list_elem_of_filter. split; [done|].
    apply list_elem_of_lookup. exists i. by apply lookup_zip_Some.
Qed.

(** The addresses the enricher queries are no placeholders. *)
Lemma queried_no_placeholder (dim : DataFrame) (ip : value) :
  ip ∈ unique (col "ip_addr"
         (select (invert (isin Localization.placeholders (col "ip_addr" dim))) dim)) →
  ip ∈ col "ip_addr" dim ∧ ip ∉ Localization.placeholders.
Proof.
  intros (r & (i & Hr & Hmask)%elem_of_select & <-)%elem_of_unique_from%elem_of_col.
  split; [apply elem_of_col; exists r; split; [by eapply list_elem_of_lookup_2|done]|].
  unfold invert, isin, col in Hmask. rewrite !list_lookup_fmap, Hr in Hmask.
  simpl in Hmask. injection Hmask as Hmask%negb_true_iff%bool_decide_eq_false.
  intros Hin. apply Hmask. split; [|done]. intros Hnan. rewrite Hnan in Hin.
  unfold Localization.placeholders in Hin. rewrite !elem_of_cons, elem_of_nil in Hin.
  by destruct Hin as [?|[?|[?|?]]].
Qed.

Lemma confined_enrich_location_dimension (keep : string → Prop) :
  ¬ keep DIM_LOCATION_ENRICHED_FILE →
  confined keep (λ ip, ip ∉ Localization.placeholders)
    Localization.enrich_location_dimension.
Proof.
  intros Hkeep. unfold Localization.enrich_location_dimension.
  apply confined_bind; [apply confined_path_exists|]. intros ex. destruct (negb ex).
  { apply confined_bind; [apply confined_logger|]. intros _. by apply confined_raise. }
  apply confined_bind; [apply confined_read_parquet|]. intros dim_location.
  apply confined_bind; [apply confined_logger|]. intros _.
  apply confined_bind_lift; [apply getitem_raises|]. intros ip_addr [_ ->]%getitem_Ok.
  apply confined_bind_lift; [apply getitem_raises|]. intros ip_addr' [_ ->]%getitem_Ok.
  apply confined_bind.
  { apply confined_try_catch.
    - repeat (apply confined_bind; [apply confined_open_reader|intros ?]).
      apply confined_lookup_loop, Forall_forall. intros ip Hip.
      by apply queried_no_placeholder in Hip as [_ ?].
    - intros e He. repeat (apply confined_bind; [apply confined_logger|intros _]).
      by apply confined_raise. }
  intros geo_data.
  apply confined_bind; [apply confined_logger|]. intros _.
  apply confined_bind; [apply confined_lift, merge_left_raises|]. intros dim_enriched.
  apply confined_bind.
  { cbn [foldl].
    repeat (apply confined_bind; [|intros ?; apply confined_fill]). apply confined_ret. }
  intros d1. apply confined_bind; [apply confined_fill|]. intros d2.
  apply confined_bind; [apply confined_fill|]. intros d3.
  apply confined_try_catch.
  - apply confined_bind; [by apply confined_to_parquet|]. intros _.
    apply confined_bind; [apply confined_logger|]. intros _. apply confined_logger.
  - intros e He. apply confined_bind; [apply confined_logger|]. intros _.
    by apply confined_raise.
Qed.
End enricher_facts.

Section stage_2.
Context `{!Library, !Reporting, !Environment}.
Import Pandas OS Stages Config.

Lemma joinpath_inj (a b c : string) : joinpath a b = joinpath a c → b = c.
Proof. unfold joinpath. by intros ?%(inj (String.app a))%(inj (String.app "/")). Qed.

Lemma stage1_files_not_enriched (p : string) :
  p ∈ stage1_files → p ≠ DIM_LOCATION_ENRICHED_FILE.
Proof.
  unfold stage1_files. rewrite !elem_of_cons, elem_of_nil.
  intros [->|[->|[->|[->|[->|[->|[]]]]]]] ?%joinpath_inj; discriminate.
Qed.

(** The enricher raises when the location dimension is not there. *)
Lemma enrich_without_dimension (w : World) :
  fs w !! DIM_LOCATION_FILE = None →
  ∃ msg w', Localization.enrich_location_dimension w = (Raise (FileNotFoundError msg), w').
Proof.
  intros Hdim. unfold Localization.enrich_location_dimension.
  rewrite bind_run. unfold path_exists at 1.
  rewrite Hdim, bool_decide_eq_false_2 by (by intros [? [=]]).
  cbn [negb]. cbv iota. by eexists _, _.
Qed.

(** The readers are opened one after the other: a database that is not
    there ends the stage. *)
Lemma open_readers_missing {A} (k : Reader → Reader → Reader → M World A)
    (handler : exn → M World A) (w : World) :
  fs w !! CITY_DB = None ∨ fs w !! ASN_DB = None ∨ fs w !! COUNTRY_DB = None →
  (∀ e s, ∃ s', handler e s = (Raise e, s')) →
  ∃ e w', try_catch is_FileNotFoundError
            (c ← open_reader CITY_DB; a ← open_reader ASN_DB;
             r ← open_reader COUNTRY_DB; k c a r) handler w = (Raise e, w').
Proof.
  intros Hmissing Hhandler. unfold try_catch. rewrite bind_run.
  unfold open_reader at 1.
  destruct (fs w !! CITY_DB) as [[| | |c|]|] eqn:Hcity;
    try (by eexists _, _);
    [|destruct (Hhandler (FileNotFoundError
        ("No such file or directory: '" +:+ CITY_DB +:+ "'")) w) as [s' ->];
      by eexists _, _].
  rewrite bind_run. unfold open_reader at 1.
  destruct (fs w !! ASN_DB) as [[| | |a|]|] eqn:Hasn;
    try (by eexists _, _);
    [|destruct (Hhandler (FileNotFoundError
        ("No such file or directory: '" +:+ ASN_DB +:+ "'")) w) as [s' ->];
      by eexists _, _].
  rewrite bind_run. unfold open_reader at 1.
  destruct (fs w !! COUNTRY_DB) as [[| | |r|]|] eqn:Hcountry;
    try (by eexists _, _);
    [|destruct (Hhandler (FileNotFoundError
        ("No such file or directory: '" +:+ COUNTRY_DB +:+ "'")) w) as [s' ->];
      by eexists _, _].
  by destruct Hmissing as [?|[?|?]].
Qed.

Lemma enrich_without_databases (w : World) :
  fs w !! CITY_DB = None ∨ fs w !! ASN_DB = None ∨ fs w !! COUNTRY_DB = None →
  ∃ e w', Localization.enrich_location_dimension w = (Raise e, w').
Proof.
  intros Hmissing. unfold Localization.enrich_location_dimension.
  rewrite bind_run. unfold path_exists at 1. cbv beta iota.
  destruct (negb _); [by eexists _, _|].
  rewrite bind_run. unfold read_parquet at 1.
  destruct (fs w !! DIM_LOCATION_FILE) as [[|?|dim| |]|]; try (by eexists _, _).
  rewrite bind_run. unfold logger at 1. cbv beta iota.
  rewrite bind_run. unfold lift at 1.
  destruct (getitem "ip_addr" dim) as [ip_addr|?]; [|by eexists _, _].
  rewrite bind_run. unfold lift at 1.
  destruct (getitem "ip_addr" _) as [ip_addr'|?]; [|by eexists _, _].
  rewrite bind_run.
  edestruct (open_readers_missing (A := list (list (string * value))))
    as (e & w' & ->); [exact Hmissing| |by eexists _, _].
  intros e s. by eexists.
Qed.
End stage_2.

Section orchestrator.
Context `{!Library, !Reporting, !Environment}.
Import Pandas OS Stages Config.

(** C7. Stage 2 of the orchestrator always returns, so that the stages after
    it run.  When the enricher raises, and it does when the location
    dimension of stage 1 or one of the lookup databases is not there, the
    error ends up as a warning in the log.  Failed or not, the stage changes
    no file but the enriched location dimension: the six tables of stage 1
    are as they were. *)
Theorem stage_2_failure_is_a_warning (w : World) :
  let started := add_log (INFO, " PASO 2: ENRIQUECIMIENTO GEOGRÁFICO") w in
  let enriched := Localization.enrich_location_dimension started in
  let after := (Orchestrator.paso_2 w).2 in
  (Orchestrator.paso_2 w).1 = Ok () ∧
  (∀ next : M World unit, (Orchestrator.paso_2 ;; next) w = next after) ∧
  (∀ e, enriched.1 = Raise e →
     log after = log enriched.2 ++
       [(WARNING, " No se pudo enriquecer datos geográficos: " +:+ str_exn e);
        (INFO, "   Continuando sin enriquecimiento (requiere GeoLite2)...")]) ∧
  (fs w !! DIM_LOCATION_FILE = None → ∃ msg, enriched.1 = Raise (FileNotFoundError msg)) ∧
  (fs w !! CITY_DB = None ∨ fs w !! ASN_DB = None ∨ fs w !! COUNTRY_DB = None →
     ∃ e, enriched.1 = Raise e) ∧
  (∀ p, p ≠ DIM_LOCATION_ENRICHED_FILE → fs after !! p = fs w !! p) ∧
  (∀ p, p ∈ stage1_files → fs after !! p = fs w !! p).
Proof.
  intros started enriched after.
  destruct (confined_enrich_location_dimension (λ p, p ≠ DIM_LOCATION_ENRICHED_FILE)
    ltac:(by intros []) started) as (Hfs & _ & Hexn). fold enriched in Hfs, Hexn.
  assert (Orchestrator.paso_2 w =
    match enriched with
    | (Ok _, w1) =>
        (Ok (), add_log (INFO, "✓ Enriquecimiento de geolocalización completado") w1)
    | (Raise e, w1) =>
        (Ok (), add_log (INFO, "   Continuando sin enriquecimiento (requiere GeoLite2)...")
                  (add_log (WARNING, " No se pudo enriquecer datos geográficos: " +:+
                                     str_exn e) w1))
    end) as Hrun.
  { unfold Orchestrator.paso_2. rewrite bind_run. unfold logger at 1. cbv beta iota.
    fold started. unfold try_except, try_catch. rewrite bind_run. fold enriched.
    destruct enriched as [[[]|e] w1]; [done|]. simpl in Hexn.
    by rewrite (Hexn e eq_refl). }
  assert (fs after = fs enriched.2) as Hafter.
  { unfold after. rewrite Hrun. by destruct enriched as [[[]|e] w1]. }
  assert (∀ p, p ≠ DIM_LOCATION_ENRICHED_FILE → fs after !! p = fs w !! p) as Hframe.
  { intros p Hp. rewrite Hafter. by apply Hfs. }
  split_and!.
  - rewrite Hrun. by destruct enriched as [[[]|e] w1].
  - intros next. rewrite bind_run. unfold after. rewrite Hrun.
    by destruct enriched as [[[]|e] w1].
  - intros e He. unfold after. rewrite Hrun.
    destruct enriched as [[[]|e'] w1]; [done|]. simpl in He. injection He as ->.
    simpl. by rewrite <- app_assoc.
  - intros Hdim. destruct (enrich_without_dimension started Hdim) as (msg & w' & He).
    exists msg. unfold enriched. by rewrite He.
  - intros Hdb. destruct (enrich_without_databases started Hdb) as (e & w' & He).
    exists e. unfold enriched. by rewrite He.
  - done.
  - intros p Hp. by apply Hframe, stage1_files_not_enriched.
Qed.
End orchestrator.

(** ** The geolocation enricher *)

Section lookup_facts.
Context `{!Library, !Environment}.
Import Pandas OS Enrichment Config.

(** One address: its record is appended when the three databases know it,
    and nothing is raised. *)
Lemma lookup_ip_run (c a k : Reader) (geo_data : list (list (string * value)))
    (ip : value) (w : World) :
  ∃ w', Localization.lookup_ip c a k geo_data ip w =
          (Ok (geo_data ++ option_list (record c a k ip)), w') ∧
        fs w' = fs w ∧ lookups w' = lookups w ++ queries c a k ip.
Proof.
  unfold Localization.lookup_ip, try_except, try_catch, record, queries.
  rewrite bind_run. unfold query at 1.
  destruct (city c ip) as [res_city|]; cbv beta iota.
  - rewrite bind_run. unfold query at 1.
    destruct (asn a ip) as [res_asn|]; cbv beta iota.
    + rewrite bind_run. unfold query at 1.
      destruct (country k ip) as [res_country|]; cbv beta iota.
      * eexists. split; [reflexivity|]. split; [done|]. simpl.
        by rewrite <- !app_assoc.
      * eexists. simpl. rewrite app_nil_r. split; [reflexivity|]. split; [done|].
        simpl. by rewrite <- !app_assoc.
    + eexists. simpl. rewrite app_nil_r. split; [reflexivity|]. split; [done|].
      simpl. by rewrite <- !app_assoc.
  - eexists. simpl. rewrite app_nil_r. split; [reflexivity|]. by split.
Qed.

Lemma omap_cons_app {A B} (f : A → option B) (x : A) (l : list A) :
  omap f (x :: l) = option_list (f x) ++ omap f l.
Proof. simpl. by destruct (f x). Qed.

(** The loop over the addresses returns the records of those the databases
    know, whatever the lookups of the others raise. *)
Lemma lookup_loop_run (c a k : Reader) (ips : list value)
    (geo_data : list (list (string * value))) (w : World) :
  ∃ w', Localization.lookup_loop c a k ips geo_data w =
          (Ok (geo_data ++ omap (record c a k) ips), w') ∧
        fs w' = fs w ∧ lookups w' = lookups w ++ (ips ≫= queries c a k).
Proof.
  revert geo_data w. induction ips as [|ip ips IH]; intros geo_data w.
  - exists w. simpl. by rewrite !app_nil_r.
  - simpl Localization.lookup_loop. rewrite bind_run.
    destruct (lookup_ip_run c a k geo_data ip w) as (w1 & -> & Hfs1 & Hq1).
    destruct (IH (geo_data ++ option_list (record c a k ip)) w1) as (w2 & -> & Hfs2 & Hq2).
    exists w2. rewrite omap_cons_app, app_assoc. split; [done|].
    split; [congruence|]. rewrite Hq2, Hq1, bind_cons. by rewrite app_assoc.
Qed.

Lemma fill_run (c : string) (v : value) (df : DataFrame) (w : World) :
  Localization.fill c v df w =
    (match getitem c df with
     | Ok _ => Ok (fill c v df)
     | Raise e => Raise e
     end, w).
Proof.
  unfold Localization.fill, fill. rewrite bind_run. unfold lift, getitem.
  by destruct (decide _).
Qed.

Lemma columns_fill_ne (c c' : string) (v : value) (df : DataFrame) :
  c' ≠ c → c' ∈ columns (fill c v df) → c' ∈ columns df.
Proof. intros Hne [?|?]%columns_setitem; done. Qed.

(** What a run of the enricher that returns has read and written. *)
Lemma enrich_location_dimension_Ok (w w' : World) :
  Localization.enrich_location_dimension w = (Ok (), w') →
  ∃ dim c a k merged,
    fs w !! DIM_LOCATION_FILE = Some (ParquetFile dim) ∧ readers w c a k ∧
    merge_left dim (from_records (omap (record c a k) (queried dim))) "ip_addr"
      = Ok merged ∧
    Forall (λ f, f ∈ columns merged) enrichment_fields ∧
    fs w' !! DIM_LOCATION_ENRICHED_FILE = Some (ParquetFile (filled merged)) ∧
    (∀ p, p ≠ DIM_LOCATION_ENRICHED_FILE → fs w' !! p = fs w !! p) ∧
    lookups w' = lookups w ++ (queried dim ≫= queries c a k).
Proof.
  unfold Localization.enrich_location_dimension.
  rewrite bind_run. unfold path_exists at 1. cbv beta iota.
  destruct (negb _); [done|].
  rewrite bind_run. unfold read_parquet at 1.
  destruct (fs w !! DIM_LOCATION_FILE) as [[|?|dim| |]|] eqn:Hdim; try done.
  rewrite bind_run. unfold logger at 1. cbv beta iota.
  rewrite bind_run. unfold lift at 1.
  destruct (getitem "ip_addr" dim) as [ip_addr|?] eqn:Hip; [|done].
  apply getitem_Ok in Hip as [_ ->].
  rewrite bind_run. unfold lift at 1.
  destruct (getitem "ip_addr" _) as [ip_addr'|?] eqn:Hip'; [|done].
  apply getitem_Ok in Hip' as [_ ->]. fold (queried dim).
  rewrite bind_run. unfold try_catch at 1.
  rewrite bind_run. unfold open_reader at 1. simpl fs.
  destruct (fs w !! CITY_DB) as [[| | |c|]|] eqn:Hcity; try done.
  rewrite bind_run. unfold open_reader at 1. simpl fs.
  destruct (fs w !! ASN_DB) as [[| | |a|]|] eqn:Hasn; try done.
  rewrite bind_run. unfold open_reader at 1. simpl fs.
  destruct (fs w !! COUNTRY_DB) as [[| | |k|]|] eqn:Hcountry; try done.
  match goal with
  | |- context [Localization.lookup_loop c a k (queried dim) [] ?w0] =>
      destruct (lookup_loop_run c a k (queried dim) [] w0) as (w1 & -> & Hfs1 & Hq1)
  end.
  rewrite app_nil_l. rewrite bind_run. unfold logger at 1. cbv beta iota.
  rewrite bind_run. unfold lift at 1.
  destruct (merge_left dim _ "ip_addr") as [merged|?] eqn:Hmerge; [|done].
  cbn [foldl]. rewrite !bind_run. unfold mret at 1, M_ret at 1.
  rewrite !fill_run.
  destruct (getitem "city" merged) eqn:Hc1; [|done].
  rewrite ?bind_run, ?fill_run. cbv beta iota. destruct (getitem "region" _) eqn:Hc2; [|done].
  rewrite ?bind_run, ?fill_run. cbv beta iota. destruct (getitem "isp" _) eqn:Hc3; [|done].
  rewrite ?bind_run, ?fill_run. cbv beta iota. destruct (getitem "latitude" _) eqn:Hc4; [|done].
  rewrite ?bind_run, ?fill_run. cbv beta iota. destruct (getitem "longitude" _) eqn:Hc5; [|done].
  fold (filled merged). unfold try_except, try_catch. rewrite bind_run.
  unfold to_parquet at 1. destruct (encodable _ _); [|done]. cbn [negb].
  destruct (writable _ _); [|done].
  rewrite (reset_index_id (filled merged))
    by (repeat apply default_index_setitem; by eapply default_index_merge_left).
  intros [= <-]. exists dim, c, a, k, merged. split_and!; [done..| | | |].
  - apply getitem_Ok in Hc1 as [Hc1 _], Hc2 as [Hc2 _], Hc3 as [Hc3 _],
      Hc4 as [Hc4 _], Hc5 as [Hc5 _].
    repeat (apply columns_fill_ne in Hc2; [|done]).
    repeat (apply columns_fill_ne in Hc3; [|done]).
    repeat (apply columns_fill_ne in Hc4; [|done]).
    repeat (apply columns_fill_ne in Hc5; [|done]).
    by repeat constructor.
  - simpl. by rewrite lookup_insert_eq.
  - intros p Hp. simpl. rewrite lookup_insert_ne by done. by rewrite Hfs1.
  - simpl. by rewrite Hq1.
Qed.
End lookup_facts.

Section enriched_table_facts.
Context `{!Library, !Environment}.
Import Pandas OS Enrichment Config.

(** *** The left merge, for a row without a match *)

Lemma foldr_insert_const {A} (g : A → string) (v : value) (m : gmap string value)
    (cs : list A) (c : string) :
  foldr (λ c0 m, <[g c0 := v]> m) m cs !! c =
    if decide (c ∈ g <$> cs) then Some v else m !! c.
Proof.
  induction cs as [|c0 cs IH]; simpl; [done|].
  destruct (decide (g c0 = c)) as [<-|Hne].
  - rewrite lookup_insert_eq, decide_True; [done|]. apply list_elem_of_here.
  - rewrite lookup_insert_ne, IH by done. destruct (decide (c ∈ g <$> cs)).
    + rewrite decide_True; [done|]. by apply list_elem_of_further.
    + rewrite decide_False; [done|]. by intros [?|?]%elem_of_cons.
Qed.

(** A left column that the right table has too is renamed: its own name
    is free. *)
Lemma foldr_rename_key_overlap (m : gmap string value) (overlap : list string)
    (c : string) :
  c ∈ overlap → (∀ c', c' +:+ "_x" ≠ c) →
  foldr (λ c0 m, rename_key c0 (c0 +:+ "_x") m) m overlap !! c = None.
Proof.
  intros Hc Hx. induction overlap as [|c0 overlap IH]; [by apply elem_of_nil in Hc|].
  simpl. set (m' := foldr _ m overlap) in *. unfold rename_key.
  destruct (decide (c0 = c)) as [->|Hne].
  - destruct (m' !! c) eqn:Hm'; [|done].
    rewrite lookup_insert_ne by apply Hx. apply lookup_delete_eq.
  - apply elem_of_cons in Hc as [->|Hc]; [done|].
    destruct (m' !! c0); [|by apply IH].
    rewrite lookup_insert_ne by apply Hx. rewrite lookup_delete_ne by done.
    by apply IH.
Qed.

Lemma foldr_rename_key_other (m : gmap string value) (overlap : list string)
    (c : string) :
  c ∉ overlap → (∀ c', c' +:+ "_x" ≠ c) →
  foldr (λ c0 m, rename_key c0 (c0 +:+ "_x") m) m overlap !! c = m !! c.
Proof.
  intros Hc Hx. induction overlap as [|c0 overlap IH]; [done|]. simpl.
  apply not_elem_of_cons in Hc as [Hne Hc].
  rewrite rename_key_lookup_ne by (done || (intros ->; by apply (Hx c0))).
  by apply IH.
Qed.

(** The cells the right table gives to a row that matches none of its rows
    are missing. *)
Lemma merge_cells_unmatched (rcols overlap : list string) (l : Row) (c : string) :
  c ∈ rcols → (∀ c', c' +:+ "_x" ≠ c) →
  default NaN (merge_cells rcols overlap l None !! c) = NaN.
Proof.
  intros Hc Hx. unfold merge_cells. cbn [from_option].
  rewrite (foldr_insert_const (suffixed overlap "_y") NaN). simpl.
  destruct (decide (c ∈ suffixed overlap "_y" <$> rcols)) as [|Hno]; [done|].
  destruct (decide (c ∈ overlap)) as [Hov|Hov].
  - by rewrite foldr_rename_key_overlap.
  - destruct Hno. apply list_elem_of_fmap. exists c. split; [|done].
    unfold suffixed. by rewrite decide_False.
Qed.

(** The key of a merged row is that of the left row. *)
Lemma merge_cells_key (key : string) (rcols overlap : list string) (l : Row)
    (d : option Row) :
  key ∉ rcols → key ∉ overlap →
  (∀ c', c' +:+ "_x" ≠ key) → (∀ c', c' +:+ "_y" ≠ key) →
  merge_cells rcols overlap l d !! key = cells l !! key.
Proof.
  intros Hr Ho Hx Hy. unfold merge_cells.
  induction rcols as [|c0 rcols IH]; simpl.
  - by apply foldr_rename_key_other.
  - apply not_elem_of_cons in Hr as [Hne Hr]. rewrite lookup_insert_ne; [by apply IH|].
    unfold suffixed. destruct (decide _); [apply Hy | done].
Qed.

Lemma merge_left_unmatched (left right out : DataFrame) (key : string) :
  merge_left left right key = Ok out →
  (∀ c', c' +:+ "_x" ≠ key) → (∀ c', c' +:+ "_y" ≠ key) →
  key ∈ columns right ∧
  ∀ r, r ∈ rows out →
    ∃ l, l ∈ rows left ∧ cell r key = cell l key ∧
      (cell l key ∉ col key right →
       ∀ c, c ∈ columns right → c ≠ key → (∀ c', c' +:+ "_x" ≠ c) → cell r c = NaN).
Proof.
  unfold merge_left. destruct (decide _) as [[_ Hkey]|]; [|done].
  intros [= <-] Hx Hy. split; [done|]. simpl.
  set (rcols := filter (λ c, c ≠ key) (columns right)).
  set (overlap := filter (λ c, c ∈ columns left) rcols).
  intros r (r0 & Hr0 & Hcells)%elem_of_relabel.
  apply list_elem_of_bind in Hr0 as (l & Hr0 & Hl). exists l. split; [done|].
  assert (key ∉ rcols) as Hrcols by (by intros [? _]%list_elem_of_filter).
  assert (key ∉ overlap) as Hoverlap by (by intros [_ ?]%list_elem_of_filter).
  apply elem_of_merge_rows in Hr0 as [[Hnil ->]|(d & Hd & ->)]; simpl in Hcells.
  - split.
    + unfold cell. by rewrite Hcells, merge_cells_key.
    + intros _ c Hc Hne Hcx. unfold cell at 1. rewrite Hcells.
      apply merge_cells_unmatched; [|done]. by apply list_elem_of_filter.
  - split.
    + unfold cell. by rewrite Hcells, merge_cells_key.
    + intros []. apply list_elem_of_filter in Hd as [<- Hd].
      apply elem_of_col. by exists d.
Qed.

(** *** The table built from the records *)

Lemma filter_all {A} (P : A → Prop) `{!∀ x, Decision (P x)} (l : list A) :
  Forall P l → filter P l = l.
Proof.
  induction 1 as [|x l Hx _ IH]; [done|]. by rewrite filter_cons_True, IH.
Qed.

Lemma filter_none {A} (P : A → Prop) `{!∀ x, Decision (P x)} (l : list A) :
  Forall (λ x, ¬ P x) l → filter P l = [].
Proof.
  induction 1 as [|x l Hx _ IH]; [done|]. by rewrite filter_cons_False.
Qed.

Lemma columns_from_records (ks : list string) (records : list (list (string * value))) :
  Forall (λ rec, rec.*1 = ks) records → records ≠ [] →
  columns (from_records records) = ks.
Proof.
  intros Hrecords Hne. unfold from_records. simpl.
  destruct Hrecords as [|rec records Hrec Hrecords]; [done|]. simpl. rewrite Hrec.
  rewrite filter_all by (apply Forall_forall; intros ??; apply not_elem_of_nil).
  clear Hne. induction Hrecords as [|rec' records Hrec' _ IH]; [done|].
  simpl. rewrite Hrec', (filter_none _ ks), app_nil_r; [exact IH|].
  apply Forall_forall. by intros c Hc [].
Qed.

Lemma elem_of_rows_from_records (records : list (list (string * value))) (r : Row) :
  r ∈ rows (from_records records) → ∃ rec, rec ∈ records ∧ cells r = list_to_map rec.
Proof.
  unfold from_records. simpl. intros [i Hi]%list_elem_of_lookup.
  rewrite list_lookup_imap in Hi. destruct (records !! i) as [rec|] eqn:Hrec; [|done].
  injection Hi as <-. exists rec. split; [by eapply list_elem_of_lookup_2 | done].
Qed.

Lemma record_Some (c a k : Reader) (ip : value) (rec : list (string * value)) :
  record c a k ip = Some rec →
  rec.*1 = ["ip_addr"; "city"; "country"; "region"; "latitude"; "longitude"; "isp"] ∧
  (list_to_map rec : gmap string value) !! "ip_addr" = Some ip.
Proof.
  unfold record. destruct (city c ip), (asn a ip), (country k ip); try done.
  by intros [= <-].
Qed.

(** The addresses of the enrichment table are enriched ones. *)
Lemma enriched_addresses (c a k : Reader) (dim : DataFrame) (ip : value) :
  ip ∈ col "ip_addr" (from_records (omap (record c a k) (queried dim))) →
  enriched c a k ip.
Proof.
  intros (r & (rec & Hrec & Hcells)%elem_of_rows_from_records & <-)%elem_of_col.
  apply list_elem_of_omap in Hrec as (ip & Hip & Hrec).
  unfold cell. rewrite Hcells. destruct (record_Some _ _ _ _ _ Hrec) as [_ ->]. simpl.
  apply queried_no_placeholder in Hip as [_ Hip]. split; [done|]. by rewrite Hrec.
Qed.

(** *** Filling *)

Lemma fill_rows (c : string) (v : value) (df : DataFrame) :
  Forall2 (Spec.sets c (λ x y, y = fill_cell v (cell x c))) (rows df) (rows (fill c v df)).
Proof.
  unfold fill. apply setitem_sets. unfold fillna, col.
  rewrite <- list_fmap_compose. apply Forall2_fmap_r, Forall_Forall2_diag.
  by apply Forall_forall.
Qed.
End enriched_table_facts.

Section persisted_table_facts.
Context `{!Library, !Environment}.
Import Pandas OS Enrichment Config.

(** *** Names with a suffix *)

Lemma ends_with_append (a b : string) : Text.ends_with b (a +:+ b) = true.
Proof.
  induction a as [|x a IH].
  - rewrite append_nil. destruct b; [done|]. cbn [Text.ends_with].
    by rewrite String.eqb_refl.
  - rewrite append_cons. cbn [Text.ends_with]. rewrite IH. apply orb_true_r.
Qed.

Lemma no_suffix (sfx s : string) :
  Text.ends_with sfx s = false → ∀ c, c +:+ sfx ≠ s.
Proof. intros Hs c <-. by rewrite ends_with_append in Hs. Qed.

(** *** The left merge, for a row with a match *)

Lemma merge_cells_matched (rcols overlap : list string) (l : Row) (d : option Row)
    (c : string) :
  c ∈ rcols → c ∉ overlap → (∀ c', c' +:+ "_y" ≠ c) →
  merge_cells rcols overlap l d !! c = Some (from_option (λ r, cell r c) NaN d).
Proof.
  intros Hc Ho Hy. unfold merge_cells. induction rcols as [|c0 rcols IH]; simpl.
  - by apply elem_of_nil in Hc.
  - destruct (decide (c0 = c)) as [->|Hne].
    + unfold suffixed at 1. rewrite decide_False by done. apply lookup_insert_eq.
    + apply elem_of_cons in Hc as [->|Hc]; [done|].
      rewrite lookup_insert_ne; [by apply IH|].
      unfold suffixed. destruct (decide _); [apply Hy | done].
Qed.

(** A column of the merged table under its own name is no column that both
    tables have. *)
Lemma merged_column_no_overlap (lcols rcols overlap : list string) (c : string) :
  c ∈ (suffixed overlap "_x" <$> lcols) ++ (suffixed overlap "_y" <$> rcols) →
  (∀ c', c' +:+ "_x" ≠ c) → (∀ c', c' +:+ "_y" ≠ c) → c ∉ overlap.
Proof.
  intros Hc Hx Hy Ho.
  apply elem_of_app in Hc as [Hc|Hc];
    apply list_elem_of_fmap in Hc as (c0 & Hc0 & _); unfold suffixed in Hc0;
    destruct (decide (c0 ∈ overlap)) as [Hov|Hov].
  - by apply (Hx c0).
  - by subst.
  - by apply (Hy c0).
  - by subst.
Qed.

Lemma merge_left_rows (left right out : DataFrame) (key : string) :
  merge_left left right key = Ok out →
  (∀ c', c' +:+ "_x" ≠ key) → (∀ c', c' +:+ "_y" ≠ key) →
  ∀ r, r ∈ rows out →
    ∃ l, l ∈ rows left ∧ cell r key = cell l key ∧
      (((cell l key ∉ col key right) ∧
        ∀ c, c ∈ columns right → c ≠ key → (∀ c', c' +:+ "_x" ≠ c) → cell r c = NaN) ∨
       (∃ d, d ∈ rows right ∧ cell d key = cell l key ∧
        ∀ c, c ∈ columns right → c ≠ key → c ∈ columns out →
          (∀ c', c' +:+ "_x" ≠ c) → (∀ c', c' +:+ "_y" ≠ c) → cell r c = cell d c)).
Proof.
  unfold merge_left. destruct (decide _) as [[_ Hkey]|]; [|done].
  intros [= <-] Hx Hy. simpl.
  set (rcols := filter (λ c, c ≠ key) (columns right)).
  set (overlap := filter (λ c, c ∈ columns left) rcols).
  intros r (r0 & Hr0 & Hcells)%elem_of_relabel.
  apply list_elem_of_bind in Hr0 as (l & Hr0 & Hl). exists l. split; [done|].
  assert (key ∉ rcols) as Hrcols by (by intros [? _]%list_elem_of_filter).
  assert (key ∉ overlap) as Hoverlap by (by intros [_ ?]%list_elem_of_filter).
  apply elem_of_merge_rows in Hr0 as [[Hnil ->]|(d & Hd & ->)]; simpl in Hcells.
  - split; [unfold cell; by rewrite Hcells, merge_cells_key|]. left. split.
    + intros (d & Hd & Hdkey)%elem_of_col.
      eapply (filter_nil_not_elem_of _ _ d Hnil); done.
    + intros c Hc Hne Hcx. unfold cell at 1. rewrite Hcells.
      apply merge_cells_unmatched; [|done]. by apply list_elem_of_filter.
  - split; [unfold cell; by rewrite Hcells, merge_cells_key|]. right.
    apply list_elem_of_filter in Hd as [Hdkey Hd]. exists d. split_and!; [done..|].
    intros c Hc Hne Hout Hcx Hcy. unfold cell at 1.
    rewrite Hcells, merge_cells_matched; [done| |by eapply merged_column_no_overlap|done].
    by apply list_elem_of_filter.
Qed.

(** *** Distinct values *)

Lemma elem_of_unique_from_iff (seen : list value) (s : Series) (v : value) :
  v ∈ unique_from seen s ↔ v ∈ s ∧ v ∉ seen.
Proof.
  revert seen. induction s as [|x s IH]; intros seen; simpl.
  - split; [by intros ?%elem_of_nil | by intros [?%elem_of_nil _]].
  - destruct (decide (x ∈ seen)) as [Hx|Hx].
    + rewrite IH, elem_of_cons. split; [tauto|]. intros [[->|?] ?]; tauto.
    + rewrite !elem_of_cons, IH, elem_of_cons. split.
      * intros [->|[? ?]]; tauto.
      * intros [[->|?] ?]; [tauto|]. destruct (decide (v = x)); tauto.
Qed.

Lemma NoDup_unique_from (seen : list value) (s : Series) : NoDup (unique_from seen s).
Proof.
  revert seen. induction s as [|x s IH]; intros seen; simpl; [constructor|].
  destruct (decide (x ∈ seen)); [done|]. constructor; [|done].
  rewrite elem_of_unique_from_iff, elem_of_cons. tauto.
Qed.

(** The addresses the enricher queries: each distinct address of the
    dimension that is no placeholder, once. *)
Lemma queried_spec (dim : DataFrame) :
  NoDup (queried dim) ∧
  ∀ ip, ip ∈ queried dim ↔ ip ∈ col "ip_addr" dim ∧ ip ∉ Localization.placeholders.
Proof.
  split; [apply NoDup_unique_from|]. intros ip. split; [apply queried_no_placeholder|].
  intros [(r & [i Hr]%list_elem_of_lookup & <-)%elem_of_col Hip].
  unfold queried, unique. apply elem_of_unique_from_iff. split; [|apply not_elem_of_nil].
  apply elem_of_col. exists r. split; [|done]. apply elem_of_select. exists i.
  split; [done|]. unfold invert, isin, col. rewrite !list_lookup_fmap, Hr. simpl.
  f_equal. apply negb_true_iff, bool_decide_eq_false. by intros [_ ?].
Qed.

(** *** The rows of the persisted table *)

Lemma fill_cells (c : string) (v : value) (df : DataFrame) :
  Forall2 (λ x y, ∀ c', cell y c' = if decide (c' = c) then fill_cell v (cell x c')
                                    else cell x c')
          (rows df) (rows (fill c v df)).
Proof.
  eapply Forall2_impl; [apply fill_rows|]. intros x y [Hc Hother] c'.
  destruct (decide (c' = c)) as [->|]; [done | by apply Hother].
Qed.

Lemma filled_cells (merged : DataFrame) :
  Forall2 (λ x y, ∀ c, cell y c = filled_cell c (cell x c))
          (rows merged) (rows (filled merged)).
Proof.
  unfold filled.
  eapply Forall2_impl;
    [exact (Forall2_chain _ _ _ _ _ (Forall2_chain _ _ _ _ _ (Forall2_chain _ _ _ _ _
       (Forall2_chain _ _ _ _ _ (fill_cells _ _ _) (fill_cells _ _ _))
       (fill_cells _ _ _)) (fill_cells _ _ _)) (fill_cells _ _ _))|].
  intros x y (y4 & (y3 & (y2 & (y1 & H1 & H2) & H3) & H4) & H5) c.
  rewrite H5, H4, H3, H2, H1. unfold filled_cell, default_of.
  repeat (destruct (decide (c = _)) as [->|]; [reflexivity|]).
  rewrite !decide_False; [done|..]; rewrite !elem_of_cons, elem_of_nil; tauto.
Qed.

Lemma filled_cell_not_null (c : string) (x : value) :
  c ∈ enrichment_fields → filled_cell c x ≠ NaN.
Proof.
  unfold enrichment_fields. rewrite !elem_of_cons, elem_of_nil.
  intros [->|[->|[->|[->|[->|[]]]]]]; unfold filled_cell; simpl;
    unfold fill_cell; by destruct (decide (x = NaN)).
Qed.

Lemma persisted_Ok (w : World) (out : DataFrame) :
  persisted w out →
  ∃ dim c a k merged,
    fs w !! DIM_LOCATION_FILE = Some (ParquetFile dim) ∧ readers w c a k ∧
    merge_left dim (from_records (omap (record c a k) (queried dim))) "ip_addr"
      = Ok merged ∧
    Forall (λ f, f ∈ columns merged) enrichment_fields ∧
    out = filled merged.
Proof.
  unfold persisted.
  destruct (Localization.enrich_location_dimension w) as [r w'] eqn:Hrun. simpl.
  intros [-> Hout].
  apply enrich_location_dimension_Ok in Hrun
    as (dim & c & a & k & merged & ? & ? & ? & ? & Hout' & _).
  exists dim, c, a, k, merged. split_and!; [done..|]. congruence.
Qed.

Lemma readers_unique (w : World) (c a k c' a' k' : Reader) :
  readers w c a k → readers w c' a' k' → c = c' ∧ a = a' ∧ k = k'.
Proof. intros (? & ? & ?) (? & ? & ?). split_and!; congruence. Qed.
End persisted_table_facts.

Section persisted_rows.
Context `{!Library, !Environment}.
Import Pandas OS Enrichment Config.

Lemma merge_left_Ok_columns (left right out : DataFrame) (key : string) :
  merge_left left right key = Ok out → key ∈ columns left ∧ key ∈ columns right.
Proof. unfold merge_left. by destruct (decide _). Qed.

Lemma record_columns (c a k : Reader) (ips : list value) :
  Forall (λ rec, rec.*1 =
            ["ip_addr"; "city"; "country"; "region"; "latitude"; "longitude"; "isp"])
         (omap (record c a k) ips).
Proof.
  apply Forall_forall. intros rec (ip & _ & Hrec)%list_elem_of_omap.
  by apply record_Some in Hrec as [? _].
Qed.

Ltac suffix_free := apply no_suffix; vm_compute; reflexivity.

(** A row of the persisted table: its address is one of the dimension, and
    either the address is not enriched and the columns of the enrichment
    table are filled from missing values, or it is enriched and the filled
    fields are filled from its record. *)
Lemma persisted_row (w : World) (out : DataFrame) (c a k : Reader) (r : Row) :
  persisted w out → readers w c a k → r ∈ rows out →
  let ip := cell r "ip_addr" in
  (¬ enriched c a k ip ∧
   ∀ f, f ∈ ["city"; "country"; "region"; "latitude"; "longitude"; "isp"] →
     cell r f = filled_cell f NaN) ∨
  (∃ rec, (ip ∉ Localization.placeholders) ∧ record c a k ip = Some rec ∧
     ∀ f, f ∈ enrichment_fields →
       cell r f = filled_cell f (default NaN ((list_to_map rec : gmap string value) !! f))).
Proof.
  intros (dim & c' & a' & k' & merged & Hdim & Hreaders' & Hmerge & Hcols & ->)%persisted_Ok
    Hreaders Hr.
  destruct (readers_unique _ _ _ _ _ _ _ Hreaders Hreaders') as (<- & <- & <-).
  apply list_elem_of_lookup in Hr as [i Hi].
  destruct (Forall2_lookup_r _ _ _ _ _ (filled_cells merged) Hi)
    as (m & Hm%list_elem_of_lookup_2 & Hfilled).
  cbv zeta. rewrite (Hfilled "ip_addr"). change (filled_cell "ip_addr" ?x) with x.
  set (records := omap (record c a k) (queried dim)) in *.
  assert (columns (from_records records) =
          ["ip_addr"; "city"; "country"; "region"; "latitude"; "longitude"; "isp"])
    as Hgeo.
  { apply columns_from_records; [apply record_columns|].
    intros Hnil. apply merge_left_Ok_columns in Hmerge as [_ Hkey].
    rewrite Hnil in Hkey. by apply elem_of_nil in Hkey. }
  destruct (merge_left_rows _ _ _ _ Hmerge ltac:(suffix_free) ltac:(suffix_free) m Hm)
    as (l & Hl & Hkey & [[Hno Hcells]|(d & Hd & Hdkey & Hcells)]); rewrite Hkey.
  - left. split.
    + intros [Hip [rec Hrec]]. apply Hno, elem_of_col.
      assert (cell l "ip_addr" ∈ queried dim) as Hq.
      { apply queried_spec. split; [|done]. apply elem_of_col. by exists l. }
      assert (rec ∈ records) as [j Hj]%list_elem_of_lookup.
      { apply list_elem_of_omap. by exists (cell l "ip_addr"). }
      exists (mkRow (Z.of_nat j) (list_to_map rec)). split.
      * apply list_elem_of_lookup. exists j. unfold from_records. simpl.
        by rewrite list_lookup_imap, Hj.
      * rewrite cell_mkRow. by destruct (record_Some _ _ _ _ _ Hrec) as [_ ->].
    + intros f Hf. rewrite (Hfilled f). f_equal.
      rewrite Hgeo in Hcells. rewrite !elem_of_cons, elem_of_nil in Hf.
      destruct Hf as [->|[->|[->|[->|[->|[->|[]]]]]]];
        (apply Hcells; [in_list|done|suffix_free]).
  - right. apply elem_of_rows_from_records in Hd as (rec & Hrec & Hdcells).
    apply list_elem_of_omap in Hrec as (ip & Hip & Hrec).
    destruct (record_Some _ _ _ _ _ Hrec) as [_ Hrecip].
    assert (cell d "ip_addr" = ip) as Hdip by (unfold cell; by rewrite Hdcells, Hrecip).
    rewrite <- Hdkey, Hdip. exists rec. split_and!; [|done|].
    + by apply queried_no_placeholder in Hip as [_ ?].
    + intros f Hf. rewrite (Hfilled f). f_equal.
      assert (f ∈ columns merged) as Hfm by (by eapply Forall_forall in Hcols).
      rewrite Hgeo in Hcells. unfold enrichment_fields in Hf.
      rewrite !elem_of_cons, elem_of_nil in Hf. unfold cell in Hcells at 2.
      rewrite <- Hdcells.
      destruct Hf as [->|[->|[->|[->|[->|[]]]]]];
        (apply Hcells; [in_list|done|done|suffix_free|suffix_free]).
Qed.
End persisted_rows.

Section enricher.
Context `{!Library, !Environment}.
Import Pandas OS Enrichment Config.

(** X1. The loop over the addresses never raises: it returns the records of the
    addresses that the three databases know, in the order of the addresses,
    after those it was given; it asks the next database when the one before
    knows the address, and it changes no file. *)
Theorem lookup_loop_never_aborts (c a k : Reader) (ips : list value)
    (geo_data : list (list (string * value))) (w : World) :
  let run := Localization.lookup_loop c a k ips geo_data w in
  run.1 = Ok (geo_data ++ omap (record c a k) ips) ∧
  fs run.2 = fs w ∧
  lookups run.2 = lookups w ++ (ips ≫= queries c a k).
Proof.
  cbv zeta. by destruct (lookup_loop_run c a k ips geo_data w) as (w' & -> & ? & ?).
Qed.

(** X2. Whether it returns or raises, the enricher asks no database for a
    placeholder address. *)
Theorem placeholders_never_queried (w : World) :
  Forall (λ q, q ∈ lookups w ∨ q.2 ∉ Localization.placeholders)
         (lookups (Localization.enrich_location_dimension w).2).
Proof.
  apply Forall_forall. intros q Hq.
  by apply (confined_enrich_location_dimension (λ _, False) ltac:(by intros []) w).
Qed.

(** X3. When the enricher returns, it has queried each distinct address of the
    location dimension that is no placeholder once, in the order of the rows,
    and no other address. *)
Theorem enricher_queries_each_address_once (w : World) :
  (Localization.enrich_location_dimension w).1 = Ok () →
  ∃ dim c a k,
    fs w !! DIM_LOCATION_FILE = Some (ParquetFile dim) ∧ readers w c a k ∧
    lookups (Localization.enrich_location_dimension w).2 =
      lookups w ++ (queried dim ≫= queries c a k) ∧
    NoDup (queried dim) ∧
    ∀ ip, ip ∈ queried dim ↔ ip ∈ col "ip_addr" dim ∧ ip ∉ Localization.placeholders.
Proof.
  destruct (Localization.enrich_location_dimension w) as [r w'] eqn:Hrun. simpl.
  intros ->. apply enrich_location_dimension_Ok in Hrun
    as (dim & c & a & k & merged & ? & ? & _ & _ & _ & _ & ?).
  exists dim, c, a, k. split_and!; [done..| |]; apply queried_spec.
Qed.

(** X4. In the table the enricher persists, the five fields it fills are never
    missing. *)
Theorem filled_fields_never_missing (w : World) (out : DataFrame) (r : Row) (f : string) :
  persisted w out → r ∈ rows out → f ∈ enrichment_fields → cell r f ≠ NaN.
Proof.
  intros (dim & c & a & k & merged & _ & _ & _ & _ & ->)%persisted_Ok
    [i Hi]%list_elem_of_lookup Hf.
  destruct (Forall2_lookup_r _ _ _ _ _ (filled_cells merged) Hi) as (m & _ & ->).
  by apply filled_cell_not_null.
Qed.

(** X5. In the table the enricher persists, a row whose address was not
    enriched, a placeholder or an address that one of the databases does not
    know, has the defaults: [Unknown] for city, region and ISP and 0 for
    the coordinates. *)
Theorem unenriched_rows_have_defaults (w : World) (out : DataFrame) (c a k : Reader)
    (r : Row) :
  persisted w out → readers w c a k → r ∈ rows out →
  ¬ enriched c a k (cell r "ip_addr") → defaults r.
Proof.
  intros Hout Hreaders Hr Hno.
  destruct (persisted_row w out c a k r Hout Hreaders Hr)
    as [[_ Hcells]|(rec & Hip & Hrec & _)].
  - unfold defaults. rewrite !Hcells by in_list. done.
  - destruct Hno. split; [done|]. by rewrite Hrec.
Qed.

(** X6. The enricher does not fill the country: in the table it persists, the
    country of a row whose address was not enriched is missing. *)
Theorem country_is_not_filled (w : World) (out : DataFrame) (c a k : Reader) (r : Row) :
  persisted w out → readers w c a k → r ∈ rows out →
  ¬ enriched c a k (cell r "ip_addr") → cell r "country" = NaN.
Proof.
  intros Hout Hreaders Hr Hno.
  destruct (persisted_row w out c a k r Hout Hreaders Hr)
    as [[_ Hcells]|(rec & Hip & Hrec & _)].
  - by rewrite Hcells by in_list.
  - destruct Hno. split; [done|]. by rewrite Hrec.
Qed.

(** X7. In the table the enricher persists, a row whose address was enriched
    has in each filled field the value of the record of its address, or the
    default when the database has no value for the field. *)
Theorem enriched_rows_carry_record (w : World) (out : DataFrame) (c a k : Reader)
    (r : Row) (rec : list (string * value)) (f : string) :
  persisted w out → readers w c a k → r ∈ rows out →
  cell r "ip_addr" ∉ Localization.placeholders →
  record c a k (cell r "ip_addr") = Some rec →
  f ∈ enrichment_fields →
  cell r f = filled_cell f (default NaN ((list_to_map rec : gmap string value) !! f)).
Proof.
  intros Hout Hreaders Hr Hip Hrec Hf.
  destruct (persisted_row w out c a k r Hout Hreaders Hr)
    as [[Hno _]|(rec' & _ & Hrec' & Hcells)].
  - destruct Hno. split; [done|]. by rewrite Hrec.
  - rewrite Hrec in Hrec'. injection Hrec' as <-. by apply Hcells.
Qed.

(** X8. When the databases know none of the addresses the enricher queries, the
    enrichment table has no column: the merge raises [KeyError] for
    [ip_addr], the enricher raises it too and writes no file. *)
Theorem enricher_without_known_address (w : World) (dim : DataFrame) (c a k : Reader) :
  fs w !! DIM_LOCATION_FILE = Some (ParquetFile dim) →
  "ip_addr" ∈ columns dim → readers w c a k →
  omap (record c a k) (queried dim) = [] →
  (Localization.enrich_location_dimension w).1 = Raise (KeyError "ip_addr") ∧
  fs (Localization.enrich_location_dimension w).2 = fs w.
Proof.
  intros Hdim Hip (Hcity & Hasn & Hcountry) Hnone.
  destruct (Localization.enrich_location_dimension w) as [r w'] eqn:Hrun. simpl.
  revert Hrun. unfold Localization.enrich_location_dimension.
  rewrite bind_run. unfold path_exists at 1. cbv beta iota.
  rewrite (bool_decide_eq_true_2 _ (mk_is_Some _ _ Hdim)). cbn [negb]. cbv iota.
  rewrite bind_run. unfold read_parquet at 1. rewrite Hdim.
  rewrite bind_run. unfold logger at 1. cbv beta iota.
  rewrite bind_run. unfold lift at 1. rewrite (getitem_total _ _ Hip).
  rewrite bind_run. unfold lift at 1.
  rewrite getitem_total by done. fold (queried dim).
  rewrite bind_run. unfold try_catch at 1.
  rewrite bind_run. unfold open_reader at 1. simpl fs. rewrite Hcity.
  rewrite bind_run. unfold open_reader at 1. simpl fs. rewrite Hasn.
  rewrite bind_run. unfold open_reader at 1. simpl fs. rewrite Hcountry.
  match goal with
  | |- context [Localization.lookup_loop c a k (queried dim) [] ?w0] =>
      destruct (lookup_loop_run c a k (queried dim) [] w0) as (w1 & -> & Hfs1 & _)
  end.
  rewrite Hnone, app_nil_l. rewrite bind_run. unfold logger at 1. cbv beta iota.
  rewrite bind_run. unfold lift at 1.
  unfold merge_left. rewrite decide_False by (by intros [_ ?%elem_of_nil]).
  by intros [= <- <-].
Qed.
End enricher.

Section enricher_examples.
Import Pandas OS Enrichment.

Ltac geo_persisted := split; vm_compute; reflexivity.
Ltac geo_readers := split_and!; vm_compute; reflexivity.
Ltac geo_row i := apply list_elem_of_lookup; exists i; vm_compute; reflexivity.

Lemma enricher_queries_each_address_once_witness :
  ∃ dim c a k,
    fs Geo.after_stage_1 !! @Config.DIM_LOCATION_FILE Examples.environment
      = Some (ParquetFile dim) ∧
    @readers Examples.environment Geo.after_stage_1 c a k ∧
    lookups (@Localization.enrich_location_dimension Examples.library
               Examples.environment Geo.after_stage_1).2 =
      lookups Geo.after_stage_1 ++ (queried dim ≫= queries c a k) ∧
    NoDup (queried dim) ∧
    ∀ ip, ip ∈ queried dim ↔ ip ∈ col "ip_addr" dim ∧ ip ∉ Localization.placeholders.
Proof.
  apply (@enricher_queries_each_address_once Examples.library Examples.environment
           Geo.after_stage_1).
  vm_compute. reflexivity.
Defined.

Lemma filled_fields_never_missing_witness : cell Geo.private_row "latitude" ≠ NaN.
Proof.
  apply (@filled_fields_never_missing Examples.library Examples.environment
           Geo.after_stage_1 Geo.dim_location_enriched Geo.private_row "latitude").
  - geo_persisted.
  - geo_row 2.
  - in_list.
Defined.

Lemma unenriched_rows_have_defaults_witness : defaults Geo.private_row.
Proof.
  apply (@unenriched_rows_have_defaults Examples.library Examples.environment
           Geo.after_stage_1 Geo.dim_location_enriched Geo.google Geo.google Geo.google).
  - geo_persisted.
  - geo_readers.
  - geo_row 2.
  - intros [_ [rec Hrec]]. vm_compute in Hrec. discriminate.
Defined.

Lemma country_is_not_filled_witness : cell Geo.private_row "country" = NaN.
Proof.
  apply (@country_is_not_filled Examples.library Examples.environment
           Geo.after_stage_1 Geo.dim_location_enriched Geo.google Geo.google Geo.google).
  - geo_persisted.
  - geo_readers.
  - geo_row 2.
  - intros [_ [rec Hrec]]. vm_compute in Hrec. discriminate.
Defined.

Lemma enriched_rows_carry_record_witness :
  cell Geo.public_row "city" =
    filled_cell "city"
      (default NaN ((list_to_map Geo.google_record : gmap string value) !! "city")).
Proof.
  apply (@enriched_rows_carry_record Examples.library Examples.environment
           Geo.after_stage_1 Geo.dim_location_enriched Geo.google Geo.google Geo.google).
  - geo_persisted.
  - geo_readers.
  - geo_row 1.
  - intros Hin. apply (bool_decide_pack _) in Hin. vm_compute in Hin. exact Hin.
  - vm_compute. reflexivity.
  - in_list.
Defined.

Lemma enricher_without_known_address_witness :
  (@Localization.enrich_location_dimension Examples.library Examples.environment
     Geo.private_only).1 = Raise (KeyError "ip_addr") ∧
  fs (@Localization.enrich_location_dimension Examples.library Examples.environment
        Geo.private_only).2 = fs Geo.private_only.
Proof.
  apply (@enricher_without_known_address Examples.library Examples.environment
           Geo.private_only Geo.private_dim Geo.google Geo.google Geo.google).
  - vm_compute. reflexivity.
  - in_list.
  - geo_readers.
  - vm_compute. reflexivity.
Defined.
End enricher_examples.

Section enrichment_claims.
Context `{!Library, !Environment}.
Import Pandas OS Enrichment Config.

(** C2, as the code has it.  The loop over the addresses catches the
    failure of each lookup: it never raises, and it returns the records of
    exactly the addresses that the three databases know.  In the table the
    enricher persists, a row whose address was not enriched has [Unknown]
    as city, region and ISP and 0 as latitude and longitude, and in no row
    is one of these five fields missing. *)
Theorem enrichment_fills_five_fields (w : World) (out : DataFrame) (c a k : Reader) :
  (∀ ips geo_data w0,
     (Localization.lookup_loop c a k ips geo_data w0).1 =
       Ok (geo_data ++ omap (record c a k) ips)) ∧
  (persisted w out → readers w c a k →
   ∀ r, r ∈ rows out →
     (¬ enriched c a k (cell r "ip_addr") → defaults r) ∧
     (∀ f, f ∈ enrichment_fields → cell r f ≠ NaN)).
Proof.
  split.
  - intros ips geo_data w0.
    by destruct (lookup_loop_run c a k ips geo_data w0) as (w' & -> & _).
  - intros Hout Hreaders r Hr. split.
    + intros Hno.
      destruct (persisted_row w out c a k r Hout Hreaders Hr)
        as [[_ Hcells]|(rec & Hip & Hrec & _)].
      * unfold defaults. rewrite !Hcells by in_list. done.
      * destruct Hno. split; [done|]. by rewrite Hrec.
    + intros f Hf.
      apply persisted_Ok in Hout as (dim & c' & a' & k' & merged & _ & _ & _ & _ & ->).
      apply list_elem_of_lookup in Hr as [i Hi].
      destruct (Forall2_lookup_r _ _ _ _ _ (filled_cells merged) Hi) as (m & _ & ->).
      by apply filled_cell_not_null.
Qed.

End enrichment_claims.

Section enrichment_claims_examples.
Import Pandas OS Enrichment.

Lemma after_stage_1_persisted :
  @persisted Examples.library Examples.environment Geo.after_stage_1
    Geo.dim_location_enriched.
Proof. split; vm_compute; reflexivity. Qed.

Lemma after_stage_1_readers :
  @readers Examples.environment Geo.after_stage_1 Geo.google Geo.google Geo.google.
Proof. split_and!; vm_compute; reflexivity. Qed.

Lemma private_row_persisted : Geo.private_row ∈ rows Geo.dim_location_enriched.
Proof. apply list_elem_of_lookup. exists 2. vm_compute. reflexivity. Qed.

(** The private address of [Geo.after_stage_1] is in none of the
    databases: its row has the defaults, and its latitude is not missing. *)
Lemma enrichment_fills_five_fields_witness :
  defaults Geo.private_row ∧ cell Geo.private_row "latitude" ≠ NaN.
Proof.
  destruct (@enrichment_fills_five_fields Examples.library Examples.environment
              Geo.after_stage_1 Geo.dim_location_enriched Geo.google Geo.google Geo.google)
    as [_ Hrows].
  destruct (Hrows after_stage_1_persisted after_stage_1_readers
              Geo.private_row private_row_persisted) as [Hdefaults Hfilled].
  split.
  - apply Hdefaults. intros [_ [rec Hrec]]. vm_compute in Hrec. discriminate.
  - apply Hfilled. in_list.
Defined.



(** C2, as the specification states it, fails: in the world
    [Geo.after_stage_1] the row of the private address is persisted with
    its country missing. *)
Lemma enriched_table_has_missing_country :
  ¬ @enrichment_claim Examples.library Examples.environment.
Proof.
  intros Hclaim.
  destruct (Hclaim Geo.after_stage_1 Geo.dim_location_enriched Geo.google Geo.google
              Geo.google Geo.private_row after_stage_1_persisted after_stage_1_readers
              private_row_persisted) as [_ Hfields].
  apply (Hfields "country"); [in_list|]. vm_compute. reflexivity.
Qed.
End enrichment_claims_examples.

(** ** More of [ReadProcess.py] *)

Section more_tables.
Context `{!Library}.
Import Pandas.

(** X10. The left merges of [main] never lose a row: the fact table has at
    least as many rows as the cleaned table. *)
Theorem fact_table_never_loses_rows (df : DataFrame) (t : ReadProcess.Tables) :
  ReadProcess.star_schema df = Ok t → len df ≤ len (ReadProcess.fact_table t).
Proof.
  unfold ReadProcess.star_schema. intros Hs.
  apply result_bind_Ok in Hs as (dim_date & _ & Hs).
  apply result_bind_Ok in Hs as (dim_device & _ & Hs).
  apply result_bind_Ok in Hs as (dim_track & _ & Hs).
  apply result_bind_Ok in Hs as (dim_episode & _ & Hs).
  apply result_bind_Ok in Hs as (dim_location & _ & Hs).
  apply result_bind_Ok in Hs as (m1 & (? & _ & H1%len_merge_left_ge)%result_bind_Ok & Hs).
  apply result_bind_Ok in Hs as (m2 & (? & _ & H2%len_merge_left_ge)%result_bind_Ok & Hs).
  apply result_bind_Ok in Hs as (m3 & (? & _ & H3%len_merge_left_ge)%result_bind_Ok & Hs).
  apply result_bind_Ok in Hs as (m4 & (? & _ & H4%len_merge_left_ge)%result_bind_Ok & Hs).
  rewrite call_create_fact_table in Hs.
  apply result_bind_Ok in Hs as (fact & Hfact%create_fact_table_rows & [= <-]). simpl.
  apply Forall2_length in Hfact. unfold len in *. lia.
Qed.

(** X11. The date keys of the date dimension are those of the hours in which
    the events of the table fall, each once. *)
Theorem dim_date_holds_the_hours (df dim : DataFrame) :
  Obj.call ReadProcess.create_dim_date df = Ok dim →
  NoDup (col "date_id" dim) ∧
  ∀ v, v ∈ col "date_id" dim ↔
       v ∈ dt_value (λ t, VStr (Calendar.strftime_YmdH t)) <$> col "ts" df.
Proof.
  rewrite call_create_dim_date. intros Hdim. split.
  - by apply (create_dim_date_spec df).
  - intros v. by apply create_dim_date_keys.
Qed.

(** X12. The surrogate keys of the rows after the reserved one are 0, 1, 2, ...
    in the order of the rows, in each of the four dimensions that have a
    reserved row. *)
Theorem surrogate_keys_are_dense (df dim : DataFrame) :
  (Obj.call ReadProcess.create_dim_device df = Ok dim →
     Spec.data_ids_dense "device_id" dim) ∧
  (Obj.call ReadProcess.create_dim_track df = Ok dim →
     Spec.data_ids_dense "track_id" dim) ∧
  (Obj.call ReadProcess.create_dim_episode df = Ok dim →
     Spec.data_ids_dense "episode_id" dim) ∧
  (Obj.call ReadProcess.create_dim_location df = Ok dim →
     Spec.data_ids_dense "location_id" dim).
Proof.
  rewrite call_create_dim_device, call_create_dim_track, call_create_dim_episode,
    call_create_dim_location.
  split_and!; intros Hdim.
  - by apply create_dim_device_spec in Hdim as (_ & _ & ?).
  - by apply create_dim_track_spec in Hdim as (_ & _ & ?).
  - by apply create_dim_episode_spec in Hdim as (_ & _ & ?).
  - by apply create_dim_location_spec in Hdim as (_ & _ & ?).
Qed.
End more_tables.

Section more_tables_examples.
Import Pandas ReadProcess.

Ltac two_plays_run := vm_compute; reflexivity.

Lemma fact_rows_when_keys_unique_witness :
  len (fact_table Examples.two_plays_tables) =
    len (Functional.clean_data Examples.two_plays).
Proof.
  apply (@fact_rows_when_keys_unique Examples.library
           (Functional.clean_data Examples.two_plays) Examples.two_plays_tables).
  - two_plays_run.
  - apply (bool_decide_unpack _). vm_compute. exact I.
  - apply (bool_decide_unpack _). vm_compute. exact I.
  - apply (bool_decide_unpack _). vm_compute. exact I.
  - apply (bool_decide_unpack _). vm_compute. exact I.
Defined.

Lemma fact_table_never_loses_rows_witness :
  len (Functional.clean_data Examples.unknown_platform) ≤
    len (fact_table Examples.unknown_platform_tables).
Proof.
  apply (@fact_table_never_loses_rows Examples.library
           (Functional.clean_data Examples.unknown_platform)
           Examples.unknown_platform_tables).
  two_plays_run.
Defined.

Lemma dim_date_holds_the_hours_witness :
  NoDup (col "date_id" (dim_date Examples.two_plays_tables)) ∧
  ∀ v, v ∈ col "date_id" (dim_date Examples.two_plays_tables) ↔
       v ∈ dt_value (λ t, VStr (Calendar.strftime_YmdH t))
             <$> col "ts" (Functional.clean_data Examples.two_plays).
Proof.
  apply (dim_date_holds_the_hours
           (Functional.clean_data Examples.two_plays)
           (dim_date Examples.two_plays_tables)).
  two_plays_run.
Defined.

Lemma surrogate_keys_are_dense_witness :
  Spec.data_ids_dense "device_id" (dim_device Examples.two_plays_tables).
Proof.
  apply (@surrogate_keys_are_dense Examples.library
           (Functional.clean_data Examples.two_plays)
           (dim_device Examples.two_plays_tables)).
  two_plays_run.
Defined.
End more_tables_examples.

Section default_index_facts.
Context `{!Library}.
Import Pandas Functional.

Lemma default_index_assign_dt (c : string) (f : Z → value) (temp temp' : DataFrame) :
  assign_dt c f temp = Ok temp' → default_index temp → default_index temp'.
Proof. intros (_ & _ & ->)%assign_dt_Ok. apply default_index_setitem. Qed.

Lemma default_index_fill_key (c : string) (fact fact' : DataFrame) :
  fill_key c fact = Ok fact' → default_index fact → default_index fact'.
Proof.
  unfold fill_key.
  intros (s & _ & (s' & _ & [= <-])%result_bind_Ok)%result_bind_Ok.
  apply default_index_setitem.
Qed.

Lemma default_index_to_flag (c : string) (fact fact' : DataFrame) :
  to_flag c fact = Ok fact' → default_index fact → default_index fact'.
Proof.
  unfold to_flag. destruct (decide _); [|by intros [= <-]].
  intros (s & _ & [= <-])%result_bind_Ok. apply default_index_setitem.
Qed.

Lemma default_index_create_fact_table (df fact : DataFrame) :
  create_fact_table df = Ok fact → default_index df → default_index fact.
Proof.
  unfold create_fact_table. intros Hfact Hdf.
  apply result_bind_Ok in Hfact as (temp & H0%default_index_assign_dt & Hfact); [|done].
  apply result_bind_Ok in Hfact as (f0 & H1 & Hfact).
  apply default_index_getitems in H1; [|done].
  apply result_bind_Ok in Hfact as (f1 & H2%default_index_fill_key & Hfact); [|done].
  apply result_bind_Ok in Hfact as (f2 & H3%default_index_fill_key & Hfact); [|done].
  apply result_bind_Ok in Hfact as (f3 & H4%default_index_fill_key & Hfact); [|done].
  apply result_bind_Ok in Hfact as (f4 & H5%default_index_fill_key & Hfact); [|done].
  apply result_bind_Ok in Hfact as (f5 & H6%default_index_to_flag & Hfact); [|done].
  apply result_bind_Ok in Hfact as (f6 & H7%default_index_to_flag & Hfact); [|done].
  apply result_bind_Ok in Hfact as (f7 & H8%default_index_to_flag & Hfact); [|done].
  by apply default_index_to_flag in Hfact.
Qed.

Lemma default_index_attach_key (df dim out : DataFrame) (key id : string) :
  ReadProcess.attach_key df dim key id = Ok out → default_index out.
Proof.
  unfold ReadProcess.attach_key.
  intros (mapping & _ & Hm)%result_bind_Ok. by eapply default_index_merge_left.
Qed.

Lemma default_index_create_dim_date (df dim : DataFrame) :
  create_dim_date df = Ok dim → default_index dim.
Proof.
  unfold create_dim_date. intros Hdim.
  do 8 (apply result_bind_Ok in Hdim as (? & _ & Hdim)).
  injection Hdim as <-. apply default_index_relabel.
Qed.

Lemma default_index_create_dim_device (df dim : DataFrame) :
  create_dim_device df = Ok dim → default_index dim.
Proof.
  unfold create_dim_device. intros Hdim.
  do 3 (apply result_bind_Ok in Hdim as (? & _ & Hdim)).
  injection Hdim as <-. apply default_index_relabel.
Qed.

Lemma default_index_create_dim_track (df dim : DataFrame) :
  create_dim_track df = Ok dim → default_index dim.
Proof.
  unfold create_dim_track. intros Hdim.
  do 3 (apply result_bind_Ok in Hdim as (? & _ & Hdim)).
  injection Hdim as <-. apply default_index_relabel.
Qed.

Lemma default_index_create_dim_episode (df dim : DataFrame) :
  create_dim_episode df = Ok dim → default_index dim.
Proof.
  unfold create_dim_episode. intros Hdim.
  do 3 (apply result_bind_Ok in Hdim as (? & _ & Hdim)).
  injection Hdim as <-. apply default_index_relabel.
Qed.

Lemma default_index_create_dim_location (df dim : DataFrame) :
  create_dim_location df = Ok dim → default_index dim.
Proof.
  unfold create_dim_location. intros Hdim.
  do 2 (apply result_bind_Ok in Hdim as (? & _ & Hdim)).
  injection Hdim as <-. apply default_index_relabel.
Qed.

(** The tables of the star schema have the default index, so that writing
    them without their index loses nothing. *)
Lemma star_schema_default_index (df : DataFrame) (t : ReadProcess.Tables) :
  ReadProcess.star_schema df = Ok t →
  default_index (ReadProcess.dim_date t) ∧ default_index (ReadProcess.dim_device t) ∧
  default_index (ReadProcess.dim_track t) ∧ default_index (ReadProcess.dim_episode t) ∧
  default_index (ReadProcess.dim_location t) ∧ default_index (ReadProcess.fact_table t).
Proof.
  unfold ReadProcess.star_schema.
  rewrite call_create_dim_date, call_create_dim_device, call_create_dim_track,
    call_create_dim_episode, call_create_dim_location.
  intros Hs.
  apply result_bind_Ok in Hs as (dim_date & Hdate & Hs).
  apply result_bind_Ok in Hs as (dim_device & Hdevice & Hs).
  apply result_bind_Ok in Hs as (dim_track & Htrack & Hs).
  apply result_bind_Ok in Hs as (dim_episode & Hepisode & Hs).
  apply result_bind_Ok in Hs as (dim_location & Hlocation & Hs).
  apply result_bind_Ok in Hs as (m1 & H1 & Hs).
  apply result_bind_Ok in Hs as (m2 & H2 & Hs).
  apply result_bind_Ok in Hs as (m3 & H3 & Hs).
  apply result_bind_Ok in Hs as (m4 & H4%default_index_attach_key & Hs).
  rewrite call_create_fact_table in Hs.
  apply result_bind_Ok in Hs as (fact & Hfact & [= <-]). simpl.
  split_and!.
  - by eapply default_index_create_dim_date.
  - by eapply default_index_create_dim_device.
  - by eapply default_index_create_dim_track.
  - by eapply default_index_create_dim_episode.
  - by eapply default_index_create_dim_location.
  - by eapply default_index_create_fact_table.
Qed.
End default_index_facts.

Section stage_1.
Context `{!Library, !Environment}.
Import Pandas OS Config.

Lemma save_to_parquet_Ok (df : DataFrame) (path : string) (w w' : World) (u : ()) :
  ReadProcess.save_to_parquet df path w = (Ok u, w') →
  fs w' = <[path := ParquetFile (reset_index df)]> (fs w).
Proof.
  unfold ReadProcess.save_to_parquet, try_except, try_catch.
  rewrite bind_run. unfold to_parquet at 1.
  destruct (encodable w df); simpl; [|done].
  destruct (writable w path); simpl; [|done]. by intros [= _ <-].
Qed.

Lemma extract_json_files_Ok (path : string) (w w' : World) (df : DataFrame) :
  ReadProcess.extract_json_files path w = (Ok df, w') →
  ∃ frames, Stages.parsed w (Stages.matching_files w path) frames ∧
            df = concat_all frames ∧ fs w' = fs w.
Proof.
  unfold ReadProcess.extract_json_files.
  rewrite bind_run. unfold path_exists at 1. cbv beta iota.
  destruct (negb _); [done|].
  rewrite bind_run, matching_files_glob.
  destruct (decide (Stages.matching_files w path = [])); [done|].
  rewrite bind_run. unfold logger at 1. cbv beta iota.
  match goal with
  | |- context [mapM _ ?files] =>
      match goal with
      | |- context [try_except _ _ ?w0] =>
          destruct (mapM_read_json files w0) as (r & Hm & Hr)
      end
  end.
  unfold try_except, try_catch. rewrite bind_run, Hm.
  destruct r as [frames|e].
  - intros [= <- <-]. by exists frames.
  - destruct Hr as (-> & _). done.
Qed.

(** X14. When [main] of the ETL returns, the input files were all read and the
    six files of stage 1 hold the tables of the star schema built from the
    cleaned records; no other file has changed. *)
Theorem main_persists_the_star_schema (w w' : World) :
  ReadProcess.main w = (Ok (), w') →
  ∃ frames t,
    Stages.parsed w (Stages.matching_files w RAW_DATA_DIR) frames ∧
    ReadProcess.star_schema (Functional.clean_data (concat_all frames)) = Ok t ∧
    fs w' =
      <[FACT_TABLE_FILE := ParquetFile (ReadProcess.fact_table t)]>
      (<[DIM_LOCATION_FILE := ParquetFile (ReadProcess.dim_location t)]>
      (<[DIM_EPISODE_FILE := ParquetFile (ReadProcess.dim_episode t)]>
      (<[DIM_TRACK_FILE := ParquetFile (ReadProcess.dim_track t)]>
      (<[DIM_DEVICE_FILE := ParquetFile (ReadProcess.dim_device t)]>
      (<[DIM_DATE_FILE := ParquetFile (ReadProcess.dim_date t)]> (fs w)))))).
Proof.
  unfold ReadProcess.main. rewrite bind_run.
  destruct (ReadProcess.extract_json_files RAW_DATA_DIR w) as [[df|e] w1] eqn:Hextract;
    [|done].
  apply extract_json_files_Ok in Hextract as (frames & Hframes & -> & Hfs1).
  rewrite bind_run. unfold lift at 1. rewrite call_clean_data.
  rewrite bind_run. unfold lift at 1.
  destruct (ReadProcess.star_schema _) as [t|e] eqn:Hschema; [|done].
  pose proof (star_schema_default_index _ _ Hschema)
    as (Hi1 & Hi2 & Hi3 & Hi4 & Hi5 & Hi6).
  rewrite bind_run. unfold logger at 1. cbv beta iota.
  rewrite bind_run. unfold logger at 1. cbv beta iota.
  rewrite bind_run. unfold logger at 1. cbv beta iota.
  rewrite bind_run. unfold lift at 1. destruct (mapM _ _) as [nulls|e]; [|done].
  rewrite bind_run.
  match goal with
  | |- context [(if ?b then logger ?l1 ?m1 else logger ?l2 ?m2) ?w0] =>
      replace ((if b then logger l1 m1 else logger l2 m2) w0)
        with (Ok (), add_log (if b then (l1, m1) else (l2, m2)) w0)
        by (by destruct b)
  end.
  rewrite bind_run.
  destruct (ReadProcess.save_to_parquet (ReadProcess.dim_date t) _ _)
    as [[u1|e] w2] eqn:H1; [|done]. apply save_to_parquet_Ok in H1.
  rewrite bind_run.
  destruct (ReadProcess.save_to_parquet (ReadProcess.dim_device t) _ _)
    as [[u2|e] w3] eqn:H2; [|done]. apply save_to_parquet_Ok in H2.
  rewrite bind_run.
  destruct (ReadProcess.save_to_parquet (ReadProcess.dim_track t) _ _)
    as [[u3|e] w4] eqn:H3; [|done]. apply save_to_parquet_Ok in H3.
  rewrite bind_run.
  destruct (ReadProcess.save_to_parquet (ReadProcess.dim_episode t) _ _)
    as [[u4|e] w5] eqn:H4; [|done]. apply save_to_parquet_Ok in H4.
  rewrite bind_run.
  destruct (ReadProcess.save_to_parquet (ReadProcess.dim_location t) _ _)
    as [[u5|e] w6] eqn:H5; [|done]. apply save_to_parquet_Ok in H5.
  intros H6%save_to_parquet_Ok.
  rewrite reset_index_id in H1, H2, H3, H4, H5, H6 by done.
  exists frames, t. split_and!; [done..|].
  rewrite H6, H5, H4, H3, H2, H1. simpl. by rewrite Hfs1.
Qed.
End stage_1.

Section fact_table_more.
Context `{!Library}.
Import Pandas Functional.

Lemma columns_setitem_in (c : string) (s : Series) (df : DataFrame) :
  c ∈ columns df → columns (setitem c s df) = columns df.
Proof. intros Hc. simpl. by rewrite decide_True. Qed.

Lemma fill_key_Ok (k : string) (fact fact' : DataFrame) :
  fill_key k fact = Ok fact' →
  columns fact' = columns fact ∧ ∀ c, c ≠ k → col c fact' = col c fact.
Proof.
  unfold fill_key.
  intros (s & [Hk ->]%getitem_Ok & (s' & Hs' & [= <-])%result_bind_Ok)%result_bind_Ok.
  split; [by apply columns_setitem_in|]. intros c Hc. apply col_setitem_ne; [done|].
  unfold astype_int in Hs'. apply mapM_Ok, Forall2_length in Hs'.
  rewrite <- Hs'. unfold fillna. by rewrite length_fmap, length_col.
Qed.

Lemma to_flag_Ok (flag : string) (fact fact' : DataFrame) :
  to_flag flag fact = Ok fact' → flag ∈ columns fact →
  columns fact' = columns fact ∧
  col flag fact' = astype_bool (fillna (VInt 0) (to_numeric_coerce (col flag fact))) ∧
  ∀ c, c ≠ flag → col c fact' = col c fact.
Proof.
  unfold to_flag. intros Hfact Hflag. rewrite decide_True in Hfact by done.
  apply result_bind_Ok in Hfact as (s & [_ ->]%getitem_Ok & [= <-]).
  assert (length (astype_bool (fillna (VInt 0) (to_numeric_coerce (col flag fact))))
          = len fact) as Hlen.
  { unfold astype_bool, fillna, to_numeric_coerce. by rewrite !length_fmap, length_col. }
  split_and!.
  - by apply columns_setitem_in.
  - by apply col_setitem_eq.
  - intros c Hc. by apply col_setitem_ne.
Qed.

(** The columns of the fact table, and where its flag columns come from. *)
Lemma create_fact_table_Ok (df fact : DataFrame) :
  create_fact_table df = Ok fact →
  columns fact =
    ["event_id"; "date_id"; "track_id"; "episode_id"; "device_id"; "location_id";
     "ms_played"; "skipped"; "shuffle"; "offline"; "incognito_mode"] ∧
  ∀ flag, flag ∈ ["skipped"; "shuffle"; "offline"; "incognito_mode"] →
    col flag fact = astype_bool (fillna (VInt 0) (to_numeric_coerce (col flag df))).
Proof.
  unfold create_fact_table. intros Hfact.
  apply result_bind_Ok in Hfact as (temp & H0 & Hfact).
  apply result_bind_Ok in Hfact as (f0 & H1 & Hfact).
  apply result_bind_Ok in Hfact as (f1 & [Hc1 H2]%fill_key_Ok & Hfact).
  apply result_bind_Ok in Hfact as (f2 & [Hc2 H3]%fill_key_Ok & Hfact).
  apply result_bind_Ok in Hfact as (f3 & [Hc3 H4]%fill_key_Ok & Hfact).
  apply result_bind_Ok in Hfact as (f4 & [Hc4 H5]%fill_key_Ok & Hfact).
  assert (columns f0 =
    ["event_id"; "date_id"; "track_id"; "episode_id"; "device_id"; "location_id";
     "ms_played"; "skipped"; "shuffle"; "offline"; "incognito_mode"]) as Hc0.
  { by apply getitems_Ok in H1 as [_ ->]. }
  rewrite Hc3, Hc2, Hc1, Hc0 in Hc4. clear Hc1 Hc2 Hc3.
  apply result_bind_Ok in Hfact as (f5 & H6 & Hfact).
  apply to_flag_Ok in H6 as (Hc5 & H6 & H6'); [|rewrite Hc4; in_list].
  rewrite Hc4 in Hc5.
  apply result_bind_Ok in Hfact as (f6 & H7 & Hfact).
  apply to_flag_Ok in H7 as (Hc6 & H7 & H7'); [|rewrite Hc5; in_list].
  rewrite Hc5 in Hc6.
  apply result_bind_Ok in Hfact as (f7 & H8 & Hfact).
  apply to_flag_Ok in H8 as (Hc7 & H8 & H8'); [|rewrite Hc6; in_list].
  rewrite Hc6 in Hc7.
  apply to_flag_Ok in Hfact as (Hc8 & H9 & H9'); [|rewrite Hc7; in_list].
  rewrite Hc7 in Hc8. split; [done|].
  assert (∀ c, c ∈ ["skipped"; "shuffle"; "offline"; "incognito_mode"] →
            col c f4 = col c df) as Hsame.
  { intros c Hc. rewrite H5, H4, H3, H2;
      try (intros ->; apply (bool_decide_pack _) in Hc; vm_compute in Hc; exact Hc).
    rewrite (col_getitems _ _ _ _ H1).
    - apply (assign_dt_col_ne _ _ _ _ _ H0). intros <-.
      apply (bool_decide_pack _) in Hc. vm_compute in Hc. exact Hc.
    - rewrite !elem_of_cons in Hc. rewrite !elem_of_cons. tauto. }
  intros flag Hflag. rewrite <- (Hsame flag Hflag).
  rewrite !elem_of_cons, elem_of_nil in Hflag.
  destruct Hflag as [->|[->|[->|[->|[]]]]].
  - by rewrite H9', H8', H7', H6.
  - by rewrite H9', H8', H7, H6'.
  - by rewrite H9', H8, H7', H6'.
  - by rewrite H9, H8', H7', H6'.
Qed.

(** X15. The fact table has the eleven columns of the schema, in this order. *)
Theorem fact_table_columns (df fact : DataFrame) :
  Obj.call ReadProcess.create_fact_table df = Ok fact →
  columns fact =
    ["event_id"; "date_id"; "track_id"; "episode_id"; "device_id"; "location_id";
     "ms_played"; "skipped"; "shuffle"; "offline"; "incognito_mode"].
Proof. rewrite call_create_fact_table. by intros [? _]%create_fact_table_Ok. Qed.

(** X16. Each flag column of the fact table is the column of the merged table
    read as numbers, with 0 for what is missing or is no number, and cast to
    booleans: every flag is a boolean, and a missing flag is [False]. *)
Theorem fact_table_flags (df fact : DataFrame) (flag : string) :
  Obj.call ReadProcess.create_fact_table df = Ok fact →
  flag ∈ ["skipped"; "shuffle"; "offline"; "incognito_mode"] →
  col flag fact = astype_bool (fillna (VInt 0) (to_numeric_coerce (col flag df))) ∧
  Forall2 (λ x y, ∃ b, y = VBool b ∧ (x = NaN → b = false) ∧
                       ∀ b0, x = VBool b0 → b = b0)
          (col flag df) (col flag fact).
Proof.
  rewrite call_create_fact_table. intros [_ Hflags]%create_fact_table_Ok Hflag.
  rewrite (Hflags flag Hflag). split; [done|].
  unfold astype_bool, fillna, to_numeric_coerce. rewrite <- !list_fmap_compose.
  apply Forall2_fmap_r, Forall_Forall2_diag, Forall_forall. intros x _. simpl.
  eexists. split; [reflexivity|]. split.
  - by intros ->.
  - by intros b0 ->.
Qed.
End fact_table_more.

Section builders_more.
Context `{!Library}.
Import Pandas Functional.

Lemma getitems_select_columns (cs : list string) (mask : list bool)
    (df sel : DataFrame) :
  getitems cs (select mask df) = Ok sel → Forall (λ c, c ∈ columns df) cs.
Proof. by intros [? _]%getitems_Ok. Qed.

(** X17. What each dimension builder needs of the table it is given to return:
    the columns it reads, and for the date dimension a timestamp column of
    instants.  Without them it raises. *)
Theorem builders_need_their_columns (df : DataFrame) :
  ((∃ dim, Obj.call ReadProcess.create_dim_date df = Ok dim) ↔
     "ts" ∈ columns df ∧ Forall datetimelike (col "ts" df)) ∧
  ((∃ dim, Obj.call ReadProcess.create_dim_device df = Ok dim) ↔
     "platform" ∈ columns df) ∧
  ((∃ dim, Obj.call ReadProcess.create_dim_track df = Ok dim) ↔
     Forall (λ c, c ∈ columns df)
       ["spotify_track_uri"; "master_metadata_track_name";
        "master_metadata_album_artist_name"; "master_metadata_album_album_name"]) ∧
  ((∃ dim, Obj.call ReadProcess.create_dim_episode df = Ok dim) ↔
     Forall (λ c, c ∈ columns df)
       ["spotify_episode_uri"; "episode_name"; "episode_show_name"]) ∧
  ((∃ dim, Obj.call ReadProcess.create_dim_location df = Ok dim) ↔
     Forall (λ c, c ∈ columns df) ["ip_addr"; "conn_country"]).
Proof.
  rewrite call_create_dim_date.
  setoid_rewrite call_create_dim_device. setoid_rewrite call_create_dim_track.
  setoid_rewrite call_create_dim_episode. setoid_rewrite call_create_dim_location.
  split_and!; (split; [intros [dim Hdim]|]).
  - unfold create_dim_date in Hdim.
    by apply result_bind_Ok in Hdim as (t1 & (? & ? & _)%assign_dt_Ok & _).
  - intros [? ?]. by apply create_dim_date_total.
  - unfold create_dim_device in Hdim.
    by apply result_bind_Ok in Hdim as (? & [? _]%getitem_Ok & _).
  - apply create_dim_device_total.
  - unfold create_dim_track in Hdim.
    apply result_bind_Ok in Hdim as (? & _ & Hdim). cbv zeta in Hdim.
    by apply result_bind_Ok in Hdim as (? & ?%getitems_select_columns & _).
  - apply create_dim_track_total.
  - unfold create_dim_episode in Hdim.
    apply result_bind_Ok in Hdim as (? & _ & Hdim). cbv zeta in Hdim.
    by apply result_bind_Ok in Hdim as (? & ?%getitems_select_columns & _).
  - apply create_dim_episode_total.
  - unfold create_dim_location in Hdim.
    by apply result_bind_Ok in Hdim as (? & [? _]%getitems_Ok & _).
  - intros [? [? _]%Forall_cons]%Forall_cons. by apply create_dim_location_total.
Qed.

End builders_more.

(** ** [utils.py] *)

Section path_facts.
Import Text.

Lemma before_last_slash_split (s t : string) :
  before_last_slash s = Some t → ∃ name, s = t +:+ String "/" name.
Proof.
  revert t. induction s as [|c s IH]; intros t; [done|]. simpl.
  destruct (before_last_slash s) as [t'|] eqn:Ht'.
  - intros [= <-]. destruct (IH t' eq_refl) as [name ->]. by exists name.
  - destruct (Ascii.eqb c "/") eqn:Hc; [|done]. intros [= <-].
    apply Ascii.eqb_eq in Hc as ->. by exists s.
Qed.

(** The parent of a path is a proper prefix of it. *)
Lemma path_parent_split (path parent : string) :
  path_parent path = Some parent → ∃ name, path = parent +:+ String "/" name.
Proof.
  unfold path_parent. destruct (before_last_slash path) as [[|c t]|] eqn:Ht; [done| |done].
  intros [= <-]. by apply before_last_slash_split.
Qed.

Lemma path_parent_length (path parent : string) :
  path_parent path = Some parent → String.length parent < String.length path.
Proof.
  intros [name ->]%path_parent_split. rewrite length_append. simpl. lia.
Qed.

Lemma parents_upto_fuel (n m : nat) (path : string) :
  String.length path ≤ n → String.length path ≤ m →
  parents_upto n path = parents_upto m path.
Proof.
  revert m path. induction n as [|n IH]; intros m path Hn Hm.
  - destruct path; [|simpl in Hn; lia]. by destruct m.
  - destruct m as [|m].
    + destruct path; [done | simpl in Hm; lia].
    + simpl. destruct (path_parent path) as [p|] eqn:Hp; [|done].
      apply path_parent_length in Hp. f_equal. apply IH; lia.
Qed.

Lemma path_parents_unfold (path : string) :
  path_parents path =
    match path_parent path with
    | Some parent => parent :: path_parents parent
    | None => []
    end.
Proof.
  unfold path_parents. destruct (String.length path) as [|n] eqn:Hlen.
  - destruct path; [done | discriminate].
  - simpl. destruct (path_parent path) as [p|] eqn:Hp; [|done].
    apply path_parent_length in Hp. f_equal. apply parents_upto_fuel; lia.
Qed.

(** An ancestor of a path is a proper prefix of it. *)
Lemma path_parents_split (path a : string) :
  a ∈ path_parents path → ∃ rest, path = a +:+ rest ∧ rest ≠ EmptyString.
Proof.
  remember (String.length path) as n eqn:Hn. revert path a Hn.
  induction (lt_wf n) as [n _ IH]. intros path a -> Ha.
  rewrite path_parents_unfold in Ha.
  destruct (path_parent path) as [p|] eqn:Hp; [|by apply elem_of_nil in Ha].
  pose proof (path_parent_length _ _ Hp) as Hlt.
  apply path_parent_split in Hp as [name ->].
  apply elem_of_cons in Ha as [->|Ha]; [by eexists|].
  destruct (IH _ Hlt p a eq_refl Ha) as (rest & -> & Hrest).
  exists (rest +:+ String "/" name). split; [by rewrite append_assoc|].
  by destruct rest.
Qed.

Lemma path_parents_ne (path : string) : path ∉ path_parents path.
Proof.
  intros (rest & Heq & Hrest)%path_parents_split.
  by apply (append_suffix_ne path rest).
Qed.

Lemma path_parent_ne (path parent : string) :
  path_parent path = Some parent → parent ≠ path.
Proof. intros Hp%path_parent_length ->. lia. Qed.

Lemma path_parent_in (path parent : string) :
  path_parent path = Some parent → parent ∈ path_parents path.
Proof. intros Hp. rewrite path_parents_unfold, Hp. apply list_elem_of_here. Qed.

Lemma path_parents_parent (path parent : string) :
  path_parent path = Some parent → path_parents parent ⊆ path_parents path.
Proof.
  intros Hp a Ha. rewrite (path_parents_unfold path), Hp. by apply list_elem_of_further.
Qed.
End path_facts.

Section mkdir_facts.
Import Pandas OS Stages.

Lemma extends_refl (m : gmap string Node) : extends m m.
Proof.
  intros p [entries| | | |] Hp; try done. exists []. by rewrite app_nil_r.
Qed.

Lemma extends_trans (m1 m2 m3 : gmap string Node) :
  extends m1 m2 → extends m2 m3 → extends m1 m3.
Proof.
  intros H12 H23 p node Hp. specialize (H12 p node Hp).
  destruct node as [entries| | | |]; try (by apply (H23 p _ H12)).
  destruct H12 as [more H12]. destruct (H23 p _ H12) as [more' H23'].
  exists (more ++ more'). by rewrite app_assoc.
Qed.

Lemma add_directory_path (path : string) (m : gmap string Node) :
  add_directory path m !! path = Some (Directory []).
Proof. unfold add_directory. apply lookup_insert_eq. Qed.

Lemma add_directory_other (path p : string) (m : gmap string Node) :
  p ≠ path → p ∉ Text.path_parents path → add_directory path m !! p = m !! p.
Proof.
  intros Hp Hup. unfold add_directory. rewrite lookup_insert_ne by done.
  destruct (Text.path_parent path) as [parent|] eqn:Hparent; [|done].
  destruct (m !! parent) as [[]|]; try done.
  rewrite lookup_insert_ne; [done|]. intros <-. by apply Hup, path_parent_in.
Qed.

Lemma add_directory_extends (path : string) (m : gmap string Node) :
  m !! path = None → extends m (add_directory path m).
Proof.
  intros Hnone p node Hp. unfold add_directory.
  assert (p ≠ path) as Hne by (intros ->; congruence).
  rewrite lookup_insert_ne by done.
  destruct (Text.path_parent path) as [parent|] eqn:Hparent;
    [|by apply (extends_refl m p node)].
  destruct (m !! parent) as [[entries| | | |]|] eqn:Hm;
    try (by apply (extends_refl m p node)).
  destruct (decide (p = parent)) as [->|Hpp].
  - rewrite Hm in Hp. injection Hp as <-. rewrite lookup_insert_eq. by eexists.
  - rewrite lookup_insert_ne by done. by apply (extends_refl m p node).
Qed.

(** [os.mkdir] makes the directory, or raises and changes nothing; what it
    raises is a file-not-found error only when the path is missing. *)
Lemma os_mkdir_run (path : string) (w : World) :
  (os_mkdir path w = (Ok (), set_fs (add_directory path) w) ∧ fs w !! path = None) ∨
  (∃ e, os_mkdir path w = (Raise e, w) ∧ is_OSError e = true ∧
        (is_FileNotFoundError e = true → fs w !! path = None)).
Proof.
  unfold os_mkdir. destruct (existsb _ _); [right; by eexists|].
  destruct (bool_decide (is_Some (fs w !! path))) eqn:Hpath; [right; by eexists|].
  apply bool_decide_eq_false, eq_None_not_Some in Hpath.
  destruct (missing_parent path w); [right; by eexists|].
  destruct (creatable w path); [by left | right; by eexists].
Qed.

Lemma is_OSError_Exception (e : exn) : is_OSError e = true → is_Exception e = true.
Proof. by destruct e. Qed.

Lemma not_directory (w : World) (path : string) :
  match fs w !! path with Some (Directory _) => true | _ => false end = false →
  ∀ entries, fs w !! path ≠ Some (Directory entries).
Proof. intros Hd entries Heq. by rewrite Heq in Hd. Qed.

(** What is left to do once [os.mkdir] has raised another error than a
    file-not-found error: nothing. *)
Lemma exist_ok_run (path : string) (e : exn) (w : World) :
  (isd ← path_is_dir path; if isd : bool then mret () else raise e) w =
    (match fs w !! path with Some (Directory _) => Ok () | _ => Raise e end, w).
Proof.
  rewrite bind_run. unfold path_is_dir.
  by destruct (fs w !! path) as [[]|].
Qed.

Lemma exist_ok_spec (path : string) (e : exn) (w : World) :
  is_OSError e = true →
  makes_directory path w
    (match fs w !! path with Some (Directory _) => Ok () | _ => Raise e end) w.
Proof.
  intros He%is_OSError_Exception.
  split_and!; [done|done|apply extends_refl|done|].
  destruct (fs w !! path) as [[entries| | | |]|] eqn:Hpath; try done.
  exists entries. by split.
Qed.

Lemma mkdir_exist_ok_spec (path : string) (w : World) :
  makes_directory path w (mkdir_exist_ok path w).1 (mkdir_exist_ok path w).2.
Proof.
  unfold mkdir_exist_ok, try_catch.
  destruct (os_mkdir_run path w) as [[-> Hnone]|(e & -> & He & Hfnf)].
  - simpl. split_and!; [done| | | |].
    + intros p ??. by apply add_directory_other.
    + by apply add_directory_extends.
    + rewrite Hnone. by intros [? [=]].
    + exists []. split; [apply add_directory_path | done].
  - rewrite He. destruct (is_FileNotFoundError e) eqn:Hclass.
    + unfold raise, lift. simpl.
      split_and!; [done|done|apply extends_refl|done|by apply is_OSError_Exception|].
      intros ?. by rewrite Hfnf.
    + rewrite exist_ok_run. by apply exist_ok_spec.
Qed.

Lemma mkdir_parents_cons (path parent : string) (up : list string) (w : World) :
  mkdir_parents path (parent :: up) w =
    match os_mkdir path w with
    | (Ok u, w') => (Ok u, w')
    | (Raise e, w') =>
        if is_OSError e then
          if is_FileNotFoundError e then
            match mkdir_parents parent up w' with
            | (Ok _, w'') => mkdir_exist_ok path w''
            | (Raise e', w'') => (Raise e', w'')
            end
          else (isd ← path_is_dir path; if isd : bool then mret () else raise e) w'
        else (Raise e, w')
    end.
Proof.
  simpl. unfold try_catch. destruct (os_mkdir path w) as [[|e] w']; [done|].
  destruct (is_OSError e); [|done]. by destruct (is_FileNotFoundError e).
Qed.

Lemma mkdir_parents_spec (up : list string) (path : string) (w : World) :
  up = Text.path_parents path →
  makes_directory path w (mkdir_parents path up w).1 (mkdir_parents path up w).2.
Proof.
  revert path w. induction up as [|parent up IH]; intros path w Hup.
  - pose proof (mkdir_exist_ok_spec path w) as Hspec. revert Hspec.
    unfold mkdir_exist_ok. simpl. unfold try_catch.
    destruct (os_mkdir path w) as [[[]|e] w1]; [done|].
    destruct (is_OSError e); [|done]. by destruct (is_FileNotFoundError e).
  - rewrite mkdir_parents_cons.
    destruct (os_mkdir_run path w) as [[-> Hnone]|(e & -> & He & Hfnf)].
    + simpl. split_and!; [done| | | |].
      * intros p ??. by apply add_directory_other.
      * by apply add_directory_extends.
      * rewrite Hnone. by intros [? [=]].
      * exists []. split; [apply add_directory_path | done].
    + rewrite He. destruct (is_FileNotFoundError e) eqn:Hclass.
      * specialize (Hfnf eq_refl).
        assert (Text.path_parent path = Some parent ∧ up = Text.path_parents parent)
          as [Hparent Hup'].
        { rewrite path_parents_unfold in Hup.
          destruct (Text.path_parent path); [|done]. by injection Hup as -> ->. }
        destruct (IH parent w Hup') as (Hlog1 & Hframe1 & Hext1 & _ & _).
        assert (fs (mkdir_parents parent up w).2 !! path = None) as Hnone1.
        { rewrite Hframe1; [done| |].
          - intros ->. by apply path_parent_ne in Hparent.
          - intros (rest & Heq & Hrest)%path_parents_split.
            apply path_parent_length in Hparent.
            apply (f_equal String.length) in Heq. rewrite length_append in Heq. lia. }
        destruct (mkdir_parents parent up w) as [[[]|e1] w1] eqn:Hrec; simpl in *.
        -- destruct (mkdir_exist_ok_spec path w1) as (Hlog2 & Hframe2 & Hext2 & _ & Hr2).
           split_and!.
           ++ congruence.
           ++ intros p Hp Hnotin. rewrite Hframe2 by done.
              apply Hframe1; [|intros Hin; apply Hnotin; by apply (path_parents_parent path parent Hparent)].
              intros ->. by apply Hnotin, path_parent_in.
           ++ by eapply extends_trans.
           ++ rewrite Hfnf. by intros [? [=]].
           ++ destruct (mkdir_exist_ok path w1) as [[[]|e2] w2]; simpl in *; [|done].
              destruct Hr2 as (entries & Hdir & Hnew). exists entries. split; [done|].
              intros _. by apply Hnew.
        -- destruct (IH parent w Hup') as (_ & _ & _ & _ & Hr1). rewrite Hrec in Hr1.
           simpl in Hr1. destruct Hr1 as [Hexn _].
           split_and!; [done| |done| |done|].
           ++ intros p Hp Hnotin.
              apply Hframe1; [|intros Hin; apply Hnotin; by apply (path_parents_parent path parent Hparent)].
              intros ->. by apply Hnotin, path_parent_in.
           ++ rewrite Hfnf. by intros [? [=]].
           ++ intros ?. by rewrite Hnone1.
      * rewrite exist_ok_run. by apply exist_ok_spec.
Qed.

(** [mkdir(parents=True, exist_ok=True)] *)
Lemma mkdir_spec (path : string) (w : World) :
  makes_directory path w (mkdir path w).1 (mkdir path w).2.
Proof. by apply mkdir_parents_spec. Qed.
End mkdir_facts.

Section utils.
Import Pandas OS Stages.

(** X18. [validate_input_file] never raises and changes no file; it answers
    [True] exactly for a path that exists and is no directory, and logs an
    error when it answers [False]. *)
Theorem validate_input_file_spec (file_path file_type : string) (w : World) :
  let run := Utils.validate_input_file file_path file_type w in
  ∃ ok, run.1 = Ok ok ∧ fs run.2 = fs w ∧
    (ok = true ↔ ∃ node, fs w !! file_path = Some node ∧ ∀ entries, node ≠ Directory entries) ∧
    (ok = false → ∃ msg, last (log run.2) = Some (ERROR, msg)).
Proof.
  cbv zeta. destruct (Utils.validate_input_file file_path file_type w) as [r w'] eqn:Hrun.
  revert Hrun. unfold Utils.validate_input_file.
  rewrite bind_run. unfold path_exists at 1. cbv beta iota.
  destruct (fs w !! file_path) as [node|] eqn:Hnode.
  - rewrite bool_decide_eq_true_2 by done. cbn [negb]. cbv iota.
    rewrite bind_run. unfold path_is_file at 1. rewrite Hnode.
    destruct node as [entries| | | |]; cbn [negb]; cbv beta iota; intros [= <- <-];
      simpl; eexists; (split; [reflexivity|]); (split; [reflexivity|]);
      try (split; [split; [intros _; eexists; split; [reflexivity|done] | done] | done]).
    split.
    + split; [done|]. intros (node & [= <-] & Hne). by destruct (Hne entries).
    + intros _. eexists. by rewrite last_snoc.
  - rewrite bool_decide_eq_false_2 by (by intros [? [=]]). cbn [negb]. cbv iota.
    intros [= <- <-]. simpl. eexists. split; [reflexivity|]. split; [reflexivity|]. split.
    + split; [done|]. by intros (node & [=] & _).
    + intros _. eexists. by rewrite last_snoc.
Qed.


(** X20. [ensure_output_directory] never raises.  It changes no path but
    the directory and its ancestors; what exists stays, files as they are
    and directories with at least their entries, and nothing changes when
    the path exists.  It answers [True] exactly when the path is a
    directory afterwards, a directory it has made being empty, and it logs
    the error when it answers [False]. *)
Theorem ensure_output_directory_spec (output_dir : string) (w : World) :
  let run := Utils.ensure_output_directory output_dir w in
  ∃ ok, run.1 = Ok ok ∧
    (∀ p, p ≠ output_dir → p ∉ Text.path_parents output_dir →
       fs run.2 !! p = fs w !! p) ∧
    extends (fs w) (fs run.2) ∧
    (is_Some (fs w !! output_dir) → fs run.2 = fs w) ∧
    (ok = true ↔ ∃ entries, fs run.2 !! output_dir = Some (Directory entries)) ∧
    (ok = true → fs w !! output_dir = None →
       fs run.2 !! output_dir = Some (Directory [])) ∧
    (ok = false → ∃ msg, last (log run.2) = Some (ERROR, msg)).
Proof.
  cbv zeta. destruct (Utils.ensure_output_directory output_dir w) as [r w'] eqn:Hrun.
  revert Hrun. unfold Utils.ensure_output_directory, try_except, try_catch.
  rewrite bind_run.
  destruct (mkdir_spec output_dir w) as (Hlog & Hframe & Hext & Hsame & Hr).
  destruct (mkdir output_dir w) as [[[]|e] w1]; simpl in *.
  - intros [= <- <-]. simpl. exists true. split_and!; try done.
    + split; [intros _ | done]. destruct Hr as (entries & Hdir & _). by exists entries.
    + intros _ Hnone. destruct Hr as (entries & Hdir & Hnew). by rewrite Hdir, Hnew.
  - destruct Hr as [-> Hr]. intros [= <- <-]. simpl. exists false.
    split_and!; try done.
    + split; [done|]. intros [entries Hdir]. by destruct (Hr entries).
    + intros _. eexists. apply last_snoc.
Qed.
End utils.


(** ** [validate.py] and stage 3 *)

Section harmless_facts.
Import Pandas OS Stages Behaviour.

Lemma harmless_ret {A} (a : A) : harmless (mret a).
Proof. intros w. split; [by exists a | done]. Qed.

Lemma harmless_bind {A B} (m : M World A) (f : A → M World B) :
  harmless m → (∀ a, harmless (f a)) → harmless (m ≫= f).
Proof.
  intros Hm Hf w. rewrite bind_run. destruct (Hm w) as [[a Ha] Hfs].
  destruct (m w) as [r w']. simpl in *. subst r.
  destruct (Hf a w') as [Hb Hfs']. split; [done|]. by rewrite Hfs'.
Qed.

Lemma harmless_logger (lvl : Level) (msg : string) : harmless (logger lvl msg).
Proof. intros w. split; [by exists () | done]. Qed.

Lemma harmless_path_exists (path : string) : harmless (path_exists path).
Proof. intros w. split; [by eexists | done]. Qed.

Lemma harmless_when (c : bool) (body : M World unit) :
  harmless body → harmless (when c body).
Proof. intros Hbody. destruct c; [done | apply harmless_ret]. Qed.

Lemma harmless_for_each {A} (xs : list A) (body : A → M World unit) :
  (∀ x, harmless (body x)) → harmless (for_each xs body).
Proof.
  intros Hbody. induction xs as [|x xs IH]; [apply harmless_ret|].
  simpl. apply harmless_bind; [done|]. by intros _.
Qed.

(** A body that reads only, under a handler that returns. *)
Lemma harmless_try_except {A} (body : M World A) (handler : exn → M World A) :
  confined (λ _, True) (λ _, False) body → (∀ e, harmless (handler e)) →
  harmless (try_except body handler).
Proof.
  intros Hbody Hhandler w. unfold try_except, try_catch.
  destruct (Hbody w) as (Hfs & _ & Hexn).
  assert (fs (body w).2 = fs w) as Hfs' by (apply map_eq; intros p; by apply Hfs).
  destruct (body w) as [[a|e] w']; simpl in *; [split; [by exists a | done]|].
  rewrite (Hexn e eq_refl). destruct (Hhandler e w') as [Hh Hhfs].
  split; [done|]. by rewrite Hhfs.
Qed.

(** A body that always returns: the handler does not run. *)
Lemma harmless_try_except_body {A} (body : M World A) (handler : exn → M World A) :
  harmless body → harmless (try_except body handler).
Proof.
  intros Hbody w. unfold try_except, try_catch. destruct (Hbody w) as [[a Ha] Hfs].
  destruct (body w) as [r w']. simpl in *. subst r. split; [by exists a | done].
Qed.

Lemma confined_for_each {A} (keep : string → Prop) (asked : value → Prop)
    (xs : list A) (body : A → M World unit) :
  (∀ x, confined keep asked (body x)) → confined keep asked (for_each xs body).
Proof.
  intros Hbody. induction xs as [|x xs IH]; [apply confined_ret|].
  simpl. apply confined_bind; [done|]. by intros _.
Qed.

Lemma getitems_raises (cs : list string) (df : DataFrame) :
  raises_exceptions (getitems cs df).
Proof.
  unfold getitems. destruct (list_find _ cs) as [[i c]|]; [|done].
  by intros e [= <-].
Qed.
End harmless_facts.

Section validation.
Context `{!Library, !Reporting, !Environment}.
Import Pandas OS Stages Behaviour Config.

Lemma harmless_log_top (col what : string) (df : DataFrame) :
  harmless (Validate.log_top col what df).
Proof.
  apply harmless_try_except; [|intros ?; apply harmless_logger].
  apply confined_bind_lift; [apply getitem_raises|]. intros s _.
  apply confined_for_each. intros entry. apply confined_logger.
Qed.

Lemma harmless_validate_data : harmless Validate.validate_data.
Proof.
  unfold Validate.validate_data.
  apply harmless_bind; [apply harmless_path_exists|]. intros ex.
  destruct (negb ex); [apply harmless_logger|].
  apply harmless_bind.
  { apply harmless_try_except.
    - apply confined_bind; [apply confined_read_parquet|]. intros df. apply confined_ret.
    - intros e. apply harmless_bind; [apply harmless_logger|]. intros _.
      apply harmless_ret. }
  intros [df|]; [|apply harmless_ret].
  do 3 (apply harmless_bind; [apply harmless_logger|intros _]).
  apply harmless_bind.
  { apply harmless_for_each. intros col. destruct (decide _); [|apply harmless_logger].
    apply harmless_try_except; [|intros ?; apply harmless_logger].
    apply confined_bind_lift; [apply getitem_raises|]. intros s _. apply confined_logger. }
  intros _. apply harmless_bind.
  { apply harmless_when. apply harmless_bind; [apply harmless_logger|]. intros _.
    apply harmless_log_top. }
  intros _. apply harmless_bind.
  { apply harmless_when. apply harmless_bind; [apply harmless_logger|]. intros _.
    apply harmless_log_top. }
  intros _. apply harmless_bind; [apply harmless_logger|]. intros _.
  apply harmless_try_except; [|intros ?; apply harmless_logger].
  apply confined_bind_lift; [apply getitems_raises|]. intros shown _.
  apply confined_logger.
Qed.

(** X21. The validation report and stage 3 of the orchestrator always return and
    change no file: whatever the enriched table holds, and whether it is there
    or not, the report only logs. *)
Theorem validation_is_harmless :
  harmless Validate.validate_data ∧ harmless Orchestrator.paso_3.
Proof.
  split; [apply harmless_validate_data|]. unfold Orchestrator.paso_3.
  apply harmless_bind; [apply harmless_logger|]. intros _.
  apply harmless_try_except_body.
  apply harmless_bind; [apply harmless_validate_data|]. intros _. apply harmless_logger.
Qed.
End validation.

(** ** Stage 1 and the orchestrator *)

Section raises_facts.
Context `{!Library}.
Import Pandas Behaviour.

Lemma raises_Ok {A} (a : A) : raises_exceptions (Ok a).
Proof. by intros e. Qed.

Lemma raises_bind {A B} (m : result A) (f : A → result B) :
  raises_exceptions m → (∀ a, raises_exceptions (f a)) → raises_exceptions (m ≫= f).
Proof.
  intros Hm Hf e. destruct m as [a|e']; simpl.
  - apply Hf.
  - intros [= <-]. by apply Hm.
Qed.

Lemma raises_mapM {A B} (f : A → result B) (l : list A) :
  (∀ x, raises_exceptions (f x)) → raises_exceptions (mapM f l).
Proof.
  intros Hf. induction l as [|x l IH]; [apply raises_Ok|].
  simpl. apply raises_bind; [done|]. intros y.
  apply raises_bind; [done|]. intros k. apply raises_Ok.
Qed.

Lemma raises_getitem (c : string) (df : DataFrame) : raises_exceptions (getitem c df).
Proof. intros e. apply getitem_raises. Qed.

Lemma raises_dt (f : Z → value) (s : Series) : raises_exceptions (dt f s).
Proof. apply raises_mapM. intros v e. destruct v; simpl; try done; by intros [= <-]. Qed.

Lemma raises_drop_duplicates (c : string) (df : DataFrame) :
  raises_exceptions (drop_duplicates c df).
Proof. unfold drop_duplicates. destruct (decide _); [done|]. by intros e [= <-]. Qed.

Lemma raises_astype_int (s : Series) : raises_exceptions (astype_int s).
Proof.
  apply raises_mapM. intros v e. destruct v; simpl; try done; try (by intros [= <-]).
  destruct (int_of_str _); [done|]. by intros [= <-].
Qed.

Lemma raises_merge_left (left right : DataFrame) (key : string) :
  raises_exceptions (merge_left left right key).
Proof. intros e. apply merge_left_raises. Qed.

Lemma raises_assign_dt (c : string) (f : Z → value) (temp : DataFrame) :
  raises_exceptions (Functional.assign_dt c f temp).
Proof.
  apply raises_bind; [apply raises_getitem|]. intros ts.
  apply raises_bind; [apply raises_dt|]. intros s. apply raises_Ok.
Qed.

Ltac raises :=
  repeat first
    [ apply raises_Ok
    | apply raises_getitem | apply getitems_raises | apply raises_drop_duplicates
    | apply raises_assign_dt | apply raises_astype_int | apply raises_merge_left
    | apply raises_bind; [|intros ?] ].

Lemma raises_create_fact_table (df : DataFrame) :
  raises_exceptions (Obj.call ReadProcess.create_fact_table df).
Proof.
  rewrite call_create_fact_table.
  unfold Functional.create_fact_table, Functional.fill_key. raises.
  all: unfold Functional.to_flag; try destruct (decide _); raises.
Qed.

Lemma raises_star_schema (df : DataFrame) : raises_exceptions (ReadProcess.star_schema df).
Proof.
  unfold ReadProcess.star_schema.
  rewrite call_create_dim_date, call_create_dim_device, call_create_dim_track,
    call_create_dim_episode, call_create_dim_location.
  unfold Functional.create_dim_date, Functional.create_dim_device,
    Functional.create_dim_track, Functional.create_dim_episode,
    Functional.create_dim_location, ReadProcess.attach_key.
  raises. apply raises_create_fact_table.
Qed.
End raises_facts.

Section stage_1_confined.
Context `{!Library, !Environment}.
Import Pandas OS Stages Behaviour Config.
Context (keep : string → Prop) (asked : value → Prop).

Lemma confined_path_resolve (path : string) : confined keep asked (path_resolve path).
Proof. intros w. split_and!; [done|by left|done]. Qed.

Lemma confined_path_glob (path pattern : string) :
  confined keep asked (path_glob path pattern).
Proof. intros w. split_and!; [done|by left|done]. Qed.

Lemma confined_read_json (f : string) (cs : list string) :
  confined keep asked (read_json f cs).
Proof.
  intros w. split_and!; [done|by left|]. unfold read_json. simpl.
  destruct (fs w !! f) as [[|[]| | |]|]; by intros ? [= <-].
Qed.

Lemma confined_mapM {A B} (f : A → M World B) (l : list A) :
  (∀ x, confined keep asked (f x)) → confined keep asked (mapM f l).
Proof.
  intros Hf. induction l as [|x l IH]; [apply confined_ret|].
  rewrite mapM_cons. apply confined_bind; [done|]. intros y.
  apply confined_bind; [done|]. intros k. apply confined_ret.
Qed.

Lemma confined_extract_json_files (path : string) :
  confined keep asked (ReadProcess.extract_json_files path).
Proof.
  unfold ReadProcess.extract_json_files.
  apply confined_bind; [apply confined_path_exists|]. intros ex. destruct (negb ex).
  { apply confined_bind; [apply confined_path_resolve|]. intros r.
    apply confined_bind; [apply confined_logger|]. intros _.
    apply confined_bind; [apply confined_path_resolve|]. intros r'.
    by apply confined_raise. }
  apply confined_bind; [apply confined_path_glob|]. intros files.
  destruct (decide (files = [])).
  { apply confined_bind; [apply confined_path_resolve|]. intros r.
    apply confined_bind; [apply confined_logger|]. intros _.
    apply confined_bind; [apply confined_path_resolve|]. intros r'.
    by apply confined_raise. }
  apply confined_bind; [apply confined_logger|]. intros _.
  apply confined_try_catch.
  - apply confined_bind; [apply confined_mapM; intros f; apply confined_read_json|].
    intros frames.
    apply confined_bind; [apply confined_logger|]. intros _. apply confined_ret.
  - intros e He. apply confined_bind; [apply confined_logger|]. intros _.
    by apply confined_raise.
Qed.

Lemma confined_save_to_parquet (df : DataFrame) (path : string) :
  ¬ keep path → confined keep asked (ReadProcess.save_to_parquet df path).
Proof.
  intros Hpath. apply confined_try_catch.
  - apply confined_bind; [by apply confined_to_parquet|]. intros _.
    apply confined_logger.
  - intros e He. apply confined_bind; [apply confined_logger|]. intros _.
    by apply confined_raise.
Qed.

Lemma confined_main :
  (∀ p, p ∈ stage1_files → ¬ keep p) → confined keep asked ReadProcess.main.
Proof.
  intros Hkeep. unfold ReadProcess.main.
  apply confined_bind; [apply confined_extract_json_files|]. intros df.
  apply confined_bind.
  { apply confined_lift. rewrite call_clean_data. apply raises_Ok. }
  intros cleaned. apply confined_bind; [apply confined_lift, raises_star_schema|].
  intros t. do 3 (apply confined_bind; [apply confined_logger|intros _]).
  apply confined_bind.
  { apply confined_lift, raises_mapM. intros c.
    apply raises_bind; [apply raises_getitem|]. intros s. apply raises_Ok. }
  intros nulls. apply confined_bind.
  { destruct (bool_decide _); apply confined_logger. }
  intros _.
  repeat (apply confined_bind;
          [apply confined_save_to_parquet, Hkeep; unfold stage1_files; rewrite !elem_of_cons; tauto
          |intros _]).
  apply confined_save_to_parquet, Hkeep. unfold stage1_files.
  do 5 apply list_elem_of_further. apply list_elem_of_here.
Qed.
End stage_1_confined.

Section stage_1.
Context `{!Library, !Reporting, !Environment}.
Import Pandas OS Stages Behaviour Config.

(** X22. Stage 1 of the orchestrator returns when the ETL returns; when the ETL
    raises, whatever the error, the error is logged and the program exits
    with status 1.  Either way no file but the six tables of stage 1 has
    changed, and no database was queried. *)
Theorem stage_1_completes_or_exits (w : World) :
  let started := add_log (INFO, " PASO 1: EXTRACT & TRANSFORM") w in
  let etl := ReadProcess.main started in
  let run := Orchestrator.paso_1 w in
  match etl.1 with
  | Ok _ => run.1 = Ok ()
  | Raise e =>
      run.1 = Raise (SystemExit 1) ∧
      last (log run.2) = Some (ERROR, " Error en ETL: " +:+ str_exn e)
  end ∧
  (∀ p, p ∉ stage1_files → fs run.2 !! p = fs w !! p) ∧
  Forall (λ q, q ∈ lookups w) (lookups run.2).
Proof.
  intros started etl run.
  destruct (confined_main (λ p, p ∉ stage1_files) (λ _, False) ltac:(by intros p ? [])
              started) as (Hfs & Hq & Hexn). fold etl in Hfs, Hq, Hexn.
  assert (Forall (λ q, q ∈ lookups w) (lookups etl.2)) as Hlookups.
  { apply Forall_forall. intros q [?|[]]%Hq. done. }
  assert (run =
    match etl with
    | (Ok _, w1) => (Ok (), add_log (INFO, " ETL completado exitosamente") w1)
    | (Raise e, w1) =>
        (Raise (SystemExit 1), add_log (ERROR, " Error en ETL: " +:+ str_exn e) w1)
    end) as ->.
  { unfold run, Orchestrator.paso_1. rewrite bind_run. unfold logger at 1. cbv beta iota.
    fold started. unfold try_except, try_catch. rewrite bind_run. fold etl.
    destruct etl as [[[]|e] w1]; [done|]. simpl in Hexn. by rewrite (Hexn e eq_refl). }
  destruct etl as [[[]|e] w1]; simpl in *.
  - done.
  - split_and!; [done|by rewrite last_snoc|done..].
Qed.
End stage_1.

Section no_input.
Context `{!Library, !Reporting, !Environment}.
Import Pandas OS Stages Behaviour Config.

Lemma matching_files_ext (w w' : World) (path : string) :
  fs w' !! path = fs w !! path → matching_files w' path = matching_files w path.
Proof. unfold matching_files. by intros ->. Qed.

Lemma raw_is_not_processed : RAW_DATA_DIR ≠ PROCESSED_DATA_DIR.
Proof. intros Heq%joinpath_inj. rewrite !append_cons in Heq. discriminate. Qed.

Lemma raw_is_not_logs : RAW_DATA_DIR ≠ LOGS_DIR.
Proof.
  unfold RAW_DATA_DIR, LOGS_DIR, joinpath, DATA_DIR. rewrite !append_cons. discriminate.
Qed.

Lemma raw_is_not_databases : RAW_DATA_DIR ≠ DB_DIR.
Proof. intros Heq%joinpath_inj. rewrite !append_cons in Heq. discriminate. Qed.

Lemma raw_not_above_processed : RAW_DATA_DIR ∉ Text.path_parents PROCESSED_DATA_DIR.
Proof.
  intros (rest & Heq & _)%path_parents_split. revert Heq.
  unfold RAW_DATA_DIR, PROCESSED_DATA_DIR, joinpath, DATA_DIR.
  rewrite !append_cons. discriminate.
Qed.

Lemma raw_not_above_logs : RAW_DATA_DIR ∉ Text.path_parents LOGS_DIR.
Proof. intros Hin. vm_compute in Hin. by apply elem_of_nil in Hin. Qed.

Lemma raw_not_above_databases : RAW_DATA_DIR ∉ Text.path_parents DB_DIR.
Proof.
  intros (rest & Heq & _)%path_parents_split. revert Heq.
  unfold RAW_DATA_DIR, DB_DIR, joinpath, DATA_DIR.
  rewrite !append_cons. discriminate.
Qed.

(** Making another directory leaves the input directory as it is. *)
Lemma mkdir_keeps_raw (path : string) (w w' : World) (r : result ()) :
  mkdir path w = (r, w') → RAW_DATA_DIR ≠ path → RAW_DATA_DIR ∉ Text.path_parents path →
  fs w' !! RAW_DATA_DIR = fs w !! RAW_DATA_DIR.
Proof.
  intros Hrun Hne Hup. destruct (mkdir_spec path w) as (_ & Hframe & _).
  rewrite Hrun in Hframe. by apply Hframe.
Qed.

(** Importing the configuration leaves the input directory without input
    when it had none. *)
Lemma import_config_no_input (w w0 : World) :
  Orchestrator.import_config w = (Ok (), w0) →
  matching_files w RAW_DATA_DIR = [] → matching_files w0 RAW_DATA_DIR = [].
Proof.
  unfold Orchestrator.import_config. rewrite bind_run.
  destruct (mkdir RAW_DATA_DIR w) as [[[]|?] w1] eqn:Hm1; [|done].
  rewrite bind_run.
  destruct (mkdir PROCESSED_DATA_DIR w1) as [[[]|?] w2] eqn:Hm2; [|done].
  rewrite bind_run.
  destruct (mkdir LOGS_DIR w2) as [[[]|?] w3] eqn:Hm3; [|done].
  intros Hm4 Hnone.
  apply mkdir_keeps_raw in Hm2; [|apply raw_is_not_processed|apply raw_not_above_processed].
  apply mkdir_keeps_raw in Hm3; [|apply raw_is_not_logs|apply raw_not_above_logs].
  apply mkdir_keeps_raw in Hm4; [|apply raw_is_not_databases|apply raw_not_above_databases].
  assert (fs w0 !! RAW_DATA_DIR = fs w1 !! RAW_DATA_DIR) as Hsame by congruence.
  destruct (mkdir_spec RAW_DATA_DIR w) as (_ & _ & _ & Hexists & Hr).
  rewrite Hm1 in Hexists, Hr. simpl in Hexists, Hr.
  destruct Hr as (entries & Hdir & Hnew).
  destruct (fs w !! RAW_DATA_DIR) as [node|] eqn:Hraw.
  - rewrite <- Hnone. apply matching_files_ext.
    rewrite Hsame, Hexists by done. done.
  - unfold matching_files. by rewrite Hsame, Hdir, Hnew.
Qed.
Lemma validate_input_directory_no_input (w : World) (dir_path : string) :
  matching_files w dir_path = [] →
  ∃ w', Utils.validate_input_directory dir_path (Some "*.json") w = (Ok false, w') ∧
        fs w' = fs w.
Proof.
  intros Hnone. unfold Utils.validate_input_directory.
  rewrite bind_run. unfold path_exists at 1. cbv beta iota.
  destruct (fs w !! dir_path) as [node|] eqn:Hnode.
  - rewrite bool_decide_eq_true_2 by done. cbn [negb]. cbv iota.
    rewrite bind_run. unfold path_is_dir at 1. rewrite Hnode.
    destruct node as [entries| | | |]; cbn [negb]; cbv beta iota;
      try (by eexists).
    rewrite bind_run, matching_files_glob, Hnone. by eexists.
  - rewrite bool_decide_eq_false_2 by (by intros [? [=]]). cbn [negb]. cbv iota.
    by eexists.
Qed.

Lemma validate_paths_no_input (w : World) :
  matching_files w RAW_DATA_DIR = [] →
  ∃ w', Orchestrator.validate_paths w = (Raise (SystemExit 1), w') ∧ fs w' = fs w.
Proof.
  intros Hnone. unfold Orchestrator.validate_paths.
  rewrite bind_run. unfold logger at 1. cbv beta iota.
  unfold try_except, try_catch. rewrite bind_run.
  match goal with
  | |- context [Utils.validate_input_directory _ _ ?w0] =>
      destruct (validate_input_directory_no_input w0 RAW_DATA_DIR Hnone)
        as (w1 & -> & Hfs1)
  end.
  cbn [negb when]. rewrite !bind_run. unfold logger at 1. cbv beta iota.
  simpl. eexists. split; [reflexivity|]. simpl. by rewrite Hfs1.
Qed.

(** X23. Without a JSON file in the input directory the program stops before
    stage 1: once the configuration is imported, the validation of the
    paths exits with status 1, and no file is written. *)
Theorem pipeline_without_input_exits (w w0 : World) :
  Orchestrator.import_config w = (Ok (), w0) →
  matching_files w RAW_DATA_DIR = [] →
  (Orchestrator.main_py w).1 = Raise (SystemExit 1) ∧
  fs (Orchestrator.main_py w).2 = fs w0.
Proof.
  intros Himport Hnone. unfold Orchestrator.main_py.
  rewrite bind_run, Himport. rewrite bind_run.
  destruct (validate_paths_no_input w0 (import_config_no_input _ _ Himport Hnone))
    as (w1 & -> & Hfs1).
  done.
Qed.
End no_input.

Section more_examples.
Import Pandas OS.

Lemma main_persists_the_star_schema_witness :
  let w := Worlds.two_exports in
  let w' := (@ReadProcess.main Examples.library Examples.environment w).2 in
  ∃ frames t,
    @Stages.parsed Examples.library w
      (Stages.matching_files w (@Config.RAW_DATA_DIR Examples.environment)) frames ∧
    @ReadProcess.star_schema Examples.library
      (Functional.clean_data (concat_all frames)) = Ok t ∧
    fs w' =
      <[@Config.FACT_TABLE_FILE Examples.environment
          := ParquetFile (ReadProcess.fact_table t)]>
      (<[@Config.DIM_LOCATION_FILE Examples.environment
          := ParquetFile (ReadProcess.dim_location t)]>
      (<[@Config.DIM_EPISODE_FILE Examples.environment
          := ParquetFile (ReadProcess.dim_episode t)]>
      (<[@Config.DIM_TRACK_FILE Examples.environment
          := ParquetFile (ReadProcess.dim_track t)]>
      (<[@Config.DIM_DEVICE_FILE Examples.environment
          := ParquetFile (ReadProcess.dim_device t)]>
      (<[@Config.DIM_DATE_FILE Examples.environment
          := ParquetFile (ReadProcess.dim_date t)]> (fs w)))))).
Proof.
  cbv zeta.
  apply (@main_persists_the_star_schema Examples.library Examples.environment
           Worlds.two_exports).
  vm_compute. reflexivity.
Defined.

Lemma pipeline_without_input_exits_witness :
  (@Orchestrator.main_py Examples.library Runs.reporting Examples.environment
     Runs.fresh).1 = Raise (SystemExit 1) ∧
  fs (@Orchestrator.main_py Examples.library Runs.reporting Examples.environment
        Runs.fresh).2 =
    fs (@Orchestrator.import_config Examples.environment Runs.fresh).2.
Proof.
  apply (@pipeline_without_input_exits Examples.library Runs.reporting
           Examples.environment Runs.fresh).
  - vm_compute. reflexivity.
  - vm_compute. reflexivity.
Defined.

Lemma fact_table_columns_witness :
  columns (ReadProcess.fact_table Examples.two_plays_tables) =
    ["event_id"; "date_id"; "track_id"; "episode_id"; "device_id"; "location_id";
     "ms_played"; "skipped"; "shuffle"; "offline"; "incognito_mode"].
Proof.
  apply (@fact_table_columns Examples.library
           (ReadProcess.merged Examples.two_plays_tables)).
  vm_compute. reflexivity.
Defined.

Lemma fact_table_flags_witness :
  col "incognito_mode" (ReadProcess.fact_table Examples.two_plays_tables) =
    @astype_bool (fillna (VInt 0) (@to_numeric_coerce Examples.library
      (col "incognito_mode" (ReadProcess.merged Examples.two_plays_tables)))).
Proof.
  apply (@fact_table_flags Examples.library
           (ReadProcess.merged Examples.two_plays_tables)
           (ReadProcess.fact_table Examples.two_plays_tables) "incognito_mode").
  - vm_compute. reflexivity.
  - in_list.
Defined.
End more_examples.

Section dimension_keys.
Context `{!Library}.
Import Pandas Functional.

Lemma col_with_sentinel (nk id : string) (unknown : list (string * value))
    (d : DataFrame) :
  nk ≠ id →
  col nk (with_sentinel id unknown d) =
    default NaN ((list_to_map unknown : gmap string value) !! nk) :: col nk d.
Proof.
  intros Hne. unfold with_sentinel. rewrite col_concat, col_from_record.
  by rewrite col_setitem_ne by (by rewrite ?length_index).
Qed.

Lemma elem_of_col_select_notna (c : string) (df : DataFrame) (v : value) :
  v ∈ col c (select (notna (col c df)) df) ↔ v ∈ col c df ∧ v ≠ NaN.
Proof.
  rewrite !elem_of_col. split.
  - intros (r & [Hr Hna]%elem_of_select_notna & <-). split; [by exists r | done].
  - intros [(r & Hr & <-) Hna]. exists r. split; [|done].
    by apply elem_of_select_notna.
Qed.

(** X24. The natural keys of a dimension are the key of its reserved row
    and the keys of the data: every platform and every address of the table,
    a missing one included, and every track and episode URI that is not
    missing, and nothing else. *)
Theorem dimensions_hold_the_keys_of_the_data (df dim : DataFrame) (v : value) :
  (Obj.call ReadProcess.create_dim_device df = Ok dim →
     v ∈ col "platform" dim ↔ v = VStr "Unknown" ∨ v ∈ col "platform" df) ∧
  (Obj.call ReadProcess.create_dim_track df = Ok dim →
     v ∈ col "spotify_track_uri" dim ↔
     v = VStr "Unknown" ∨ (v ∈ col "spotify_track_uri" df ∧ v ≠ NaN)) ∧
  (Obj.call ReadProcess.create_dim_episode df = Ok dim →
     v ∈ col "spotify_episode_uri" dim ↔
     v = VStr "Unknown" ∨ (v ∈ col "spotify_episode_uri" df ∧ v ≠ NaN)) ∧
  (Obj.call ReadProcess.create_dim_location df = Ok dim →
     v ∈ col "ip_addr" dim ↔ v = VStr "0.0.0.0" ∨ v ∈ col "ip_addr" df).
Proof.
  rewrite call_create_dim_device, call_create_dim_track, call_create_dim_episode,
    call_create_dim_location.
  split_and!.
  - unfold create_dim_device.
    intros (platform & [_ ->]%getitem_Ok &
            (sel & Hsel & (ded & Hded & [= <-])%result_bind_Ok)%result_bind_Ok)
      %result_bind_Ok.
    apply col_drop_duplicates in Hded as [_ Hded].
    rewrite col_with_sentinel by done. rewrite elem_of_cons, col_reset_index, Hded.
    rewrite (col_getitems _ _ _ _ Hsel) by in_list.
    rewrite col_setitem_ne by (done || by rewrite length_fmap, length_col). done.
  - unfold create_dim_track.
    intros (uri & [_ ->]%getitem_Ok &
            (sel & Hsel & (ded & Hded & [= <-])%result_bind_Ok)%result_bind_Ok)
      %result_bind_Ok.
    apply col_drop_duplicates in Hded as [_ Hded].
    rewrite col_with_sentinel by done.
    rewrite elem_of_cons, col_rename_ne, col_reset_index, Hded by (by repeat constructor).
    rewrite (col_getitems _ _ _ _ Hsel) by in_list.
    by rewrite elem_of_col_select_notna.
  - unfold create_dim_episode.
    intros (uri & [_ ->]%getitem_Ok &
            (sel & Hsel & (ded & Hded & [= <-])%result_bind_Ok)%result_bind_Ok)
      %result_bind_Ok.
    apply col_drop_duplicates in Hded as [_ Hded].
    rewrite col_with_sentinel by done.
    rewrite elem_of_cons, col_rename_ne, col_reset_index, Hded by (by repeat constructor).
    rewrite (col_getitems _ _ _ _ Hsel) by in_list.
    by rewrite elem_of_col_select_notna.
  - unfold create_dim_location.
    intros (sel & Hsel & (ded & Hded & [= <-])%result_bind_Ok)%result_bind_Ok.
    apply col_drop_duplicates in Hded as [_ Hded].
    rewrite col_with_sentinel by done. rewrite elem_of_cons, col_reset_index, Hded.
    by rewrite (col_getitems _ _ _ _ Hsel) by in_list.
Qed.
End dimension_keys.

Lemma dimensions_hold_the_keys_of_the_data_witness :
  VStr "iOS 15" ∈ Pandas.col "platform" (ReadProcess.dim_device Examples.two_plays_tables) ↔
  VStr "iOS 15" = VStr "Unknown" ∨
  VStr "iOS 15" ∈ Pandas.col "platform" (Functional.clean_data Examples.two_plays).
Proof.
  apply (@dimensions_hold_the_keys_of_the_data Examples.library
           (Functional.clean_data Examples.two_plays)
           (ReadProcess.dim_device Examples.two_plays_tables) (VStr "iOS 15")).
  vm_compute. reflexivity.
Defined.

Section dimension_tables.
Context `{!Library}.
Import Pandas Spec Functional.

(** No key of the date dimension is the reserved surrogate key. *)
Lemma create_dim_date_no_sentinel (df dim : DataFrame) :
  create_dim_date df = Ok dim → VInt Config.UNKNOWN_ID ∉ col "date_id" dim.
Proof.
  intros Hdim Hin. apply (create_dim_date_keys _ _ _ Hdim) in Hin.
  apply list_elem_of_fmap in Hin as (v & Hv & _). by destruct v.
Qed.

(** With the reserved row in front, the natural keys are distinct when
    those of the data rows are and the key of the reserved row is none of
    them. *)
Lemma sentinel_keys_unique (nk id : string) (unknown : list (string * value))
    (d : DataFrame) :
  nk ≠ id → NoDup (col nk d) →
  default NaN ((list_to_map unknown : gmap string value) !! nk) ∉ col nk d →
  natural_keys_unique nk (with_sentinel id unknown d).
Proof.
  intros Hne Hnodup Hnew. unfold natural_keys_unique.
  rewrite col_with_sentinel by done. by apply NoDup_cons.
Qed.

Lemma create_dim_device_keys_unique (df dim : DataFrame) :
  create_dim_device df = Ok dim →
  VStr Config.UNKNOWN_VALUE ∉ col "platform" df → natural_keys_unique "platform" dim.
Proof.
  unfold create_dim_device.
  intros (platform & [_ ->]%getitem_Ok &
          (sel & Hsel & (ded & Hded & [= <-])%result_bind_Ok)%result_bind_Ok)
    %result_bind_Ok Hnew.
  apply col_drop_duplicates in Hded as [Hnodup Hded].
  apply sentinel_keys_unique; [done|by rewrite col_reset_index|].
  rewrite col_reset_index, Hded, (col_getitems _ _ _ _ Hsel) by in_list.
  by rewrite col_setitem_ne by (done || by rewrite length_fmap, length_col).
Qed.

Lemma create_dim_track_keys_unique (df dim : DataFrame) :
  create_dim_track df = Ok dim →
  VStr Config.UNKNOWN_VALUE ∉ col "spotify_track_uri" df →
  natural_keys_unique "spotify_track_uri" dim.
Proof.
  unfold create_dim_track.
  intros (uri & [_ ->]%getitem_Ok &
          (sel & Hsel & (ded & Hded & [= <-])%result_bind_Ok)%result_bind_Ok)
    %result_bind_Ok Hnew.
  apply col_drop_duplicates in Hded as [Hnodup Hded].
  apply sentinel_keys_unique; [done| |];
    rewrite col_rename_ne, col_reset_index by (by repeat constructor); [done|].
  rewrite Hded, (col_getitems _ _ _ _ Hsel) by in_list.
  rewrite elem_of_col_select_notna. by intros [? _].
Qed.

Lemma create_dim_episode_keys_unique (df dim : DataFrame) :
  create_dim_episode df = Ok dim →
  VStr Config.UNKNOWN_VALUE ∉ col "spotify_episode_uri" df →
  natural_keys_unique "spotify_episode_uri" dim.
Proof.
  unfold create_dim_episode.
  intros (uri & [_ ->]%getitem_Ok &
          (sel & Hsel & (ded & Hded & [= <-])%result_bind_Ok)%result_bind_Ok)
    %result_bind_Ok Hnew.
  apply col_drop_duplicates in Hded as [Hnodup Hded].
  apply sentinel_keys_unique; [done| |];
    rewrite col_rename_ne, col_reset_index by (by repeat constructor); [done|].
  rewrite Hded, (col_getitems _ _ _ _ Hsel) by in_list.
  rewrite elem_of_col_select_notna. by intros [? _].
Qed.

Lemma create_dim_location_keys_unique (df dim : DataFrame) :
  create_dim_location df = Ok dim →
  VStr "0.0.0.0" ∉ col "ip_addr" df → natural_keys_unique "ip_addr" dim.
Proof.
  unfold create_dim_location.
  intros (sel & Hsel & (ded & Hded & [= <-])%result_bind_Ok)%result_bind_Ok Hnew.
  apply col_drop_duplicates in Hded as [Hnodup Hded].
  apply sentinel_keys_unique; [done|by rewrite col_reset_index|].
  by rewrite col_reset_index, Hded, (col_getitems _ _ _ _ Hsel) by in_list.
Qed.

(** C1, as the code has it.  The date dimension has distinct [date_id]
    values and no reserved row: none of its keys is -1, and each is the
    hour key of a record of the input.  Each of the device, track, episode
    and location dimensions has one row with surrogate key -1, its first
    row; the natural keys of the rows after it are distinct, and those of
    the whole table are distinct when no record of the input has the
    natural key of the reserved row as its own.  All five builders return
    a table when they are given a table of cleaned events. *)
Theorem dimension_tables (df : DataFrame) :
  (∀ dim, Obj.call ReadProcess.create_dim_date df = Ok dim →
     natural_keys_unique "date_id" dim ∧
     (VInt Config.UNKNOWN_ID ∉ col "date_id" dim) ∧
     (∀ v, v ∈ col "date_id" dim ↔
           v ∈ dt_value (λ t, VStr (Calendar.strftime_YmdH t)) <$> col "ts" df)) ∧
  (∀ dim, Obj.call ReadProcess.create_dim_device df = Ok dim →
     one_sentinel_first "device_id" dim ∧ data_keys_unique "platform" dim ∧
     (VStr Config.UNKNOWN_VALUE ∉ col "platform" df →
      natural_keys_unique "platform" dim)) ∧
  (∀ dim, Obj.call ReadProcess.create_dim_track df = Ok dim →
     one_sentinel_first "track_id" dim ∧ data_keys_unique "spotify_track_uri" dim ∧
     (VStr Config.UNKNOWN_VALUE ∉ col "spotify_track_uri" df →
      natural_keys_unique "spotify_track_uri" dim)) ∧
  (∀ dim, Obj.call ReadProcess.create_dim_episode df = Ok dim →
     one_sentinel_first "episode_id" dim ∧ data_keys_unique "spotify_episode_uri" dim ∧
     (VStr Config.UNKNOWN_VALUE ∉ col "spotify_episode_uri" df →
      natural_keys_unique "spotify_episode_uri" dim)) ∧
  (∀ dim, Obj.call ReadProcess.create_dim_location df = Ok dim →
     one_sentinel_first "location_id" dim ∧ data_keys_unique "ip_addr" dim ∧
     (VStr "0.0.0.0" ∉ col "ip_addr" df → natural_keys_unique "ip_addr" dim)) ∧
  (is_events df →
     (∃ dim, Obj.call ReadProcess.create_dim_date df = Ok dim) ∧
     (∃ dim, Obj.call ReadProcess.create_dim_device df = Ok dim) ∧
     (∃ dim, Obj.call ReadProcess.create_dim_track df = Ok dim) ∧
     (∃ dim, Obj.call ReadProcess.create_dim_episode df = Ok dim) ∧
     (∃ dim, Obj.call ReadProcess.create_dim_location df = Ok dim)).
Proof.
  rewrite call_create_dim_date.
  setoid_rewrite call_create_dim_device. setoid_rewrite call_create_dim_track.
  setoid_rewrite call_create_dim_episode. setoid_rewrite call_create_dim_location.
  split.
  { intros dim Hdim. split; [by apply (create_dim_date_spec df)|].
    split; [by apply (create_dim_date_no_sentinel df)|].
    intros v. by apply create_dim_date_keys. }
  split.
  { intros dim Hdim. destruct (create_dim_device_spec _ _ Hdim) as (? & ? & _).
    split; [done|]. split; [done|]. by apply (create_dim_device_keys_unique df). }
  split.
  { intros dim Hdim. destruct (create_dim_track_spec _ _ Hdim) as (? & ? & _).
    split; [done|]. split; [done|]. by apply (create_dim_track_keys_unique df). }
  split.
  { intros dim Hdim. destruct (create_dim_episode_spec _ _ Hdim) as (? & ? & _).
    split; [done|]. split; [done|]. by apply (create_dim_episode_keys_unique df). }
  split.
  { intros dim Hdim. destruct (create_dim_location_spec _ _ Hdim) as (? & ? & _).
    split; [done|]. split; [done|]. by apply (create_dim_location_keys_unique df). }
  intros Hev. pose proof (is_events_column df) as Hcol.
  assert (∀ c, c ∈ event_columns → c ∈ columns df) as Hin by (intros; by apply Hcol).
  split; [apply create_dim_date_total; [|by destruct Hev]|].
  { apply Hin. in_list. }
  split; [apply create_dim_device_total|].
  { apply Hin. in_list. }
  split; [apply create_dim_track_total|].
  { repeat (apply Forall_cons; split); [..|done]; apply Hin; in_list. }
  split; [apply create_dim_episode_total|].
  { repeat (apply Forall_cons; split); [..|done]; apply Hin; in_list. }
  apply create_dim_location_total; apply Hin; in_list.
Qed.
End dimension_tables.

(** The two plays of [Examples.two_plays] give a device dimension with the
    reserved row first and distinct platforms, that of the reserved row
    included, and a date dimension without the key -1. *)
Lemma dimension_tables_witness :
  let df := Functional.clean_data Examples.two_plays in
  let t := Examples.two_plays_tables in
  (Spec.one_sentinel_first "device_id" (ReadProcess.dim_device t) ∧
   Spec.data_keys_unique "platform" (ReadProcess.dim_device t) ∧
   Spec.natural_keys_unique "platform" (ReadProcess.dim_device t)) ∧
  (VInt Config.UNKNOWN_ID ∉ Pandas.col "date_id" (ReadProcess.dim_date t)).
Proof.
  intros df t.
  destruct (@dimension_tables Examples.library df) as (Hdate & Hdevice & _).
  split.
  - destruct (Hdevice (ReadProcess.dim_device t)) as (Hfirst & Hdata & Hall);
      [vm_compute; reflexivity|].
    split; [exact Hfirst|]. split; [exact Hdata|]. apply Hall.
    apply (bool_decide_unpack _). vm_compute. exact I.
  - destruct (Hdate (ReadProcess.dim_date t)) as (_ & Hno & _);
      [vm_compute; reflexivity|].
    exact Hno.
Defined.

Section clean_twice.
Import Pandas Functional.

Lemma audiobook_cols_clean_data (df : DataFrame) :
  audiobook_cols (clean_data df) = audiobook_cols (reduced df).
Proof.
  unfold audiobook_cols, clean_data. cbv zeta. simpl.
  destruct (decide _); [done|]. by rewrite filter_app, app_nil_r.
Qed.

Lemma audiobook_cols_dropped (df : DataFrame) :
  drops_group df = true → audiobook_cols (reduced df) = [].
Proof.
  intros Hdrop. unfold reduced. rewrite Hdrop. unfold audiobook_cols at 1. simpl.
  apply filter_none, Forall_forall. intros c [Hno Hc]%list_elem_of_filter Hcontains.
  apply Hno. unfold audiobook_cols. by apply list_elem_of_filter.
Qed.

Lemma drops_group_clean_data (df : DataFrame) : drops_group (clean_data df) = false.
Proof.
  unfold drops_group at 1. rewrite audiobook_cols_clean_data.
  destruct (decide (audiobook_cols (reduced df) = [])) as [|Hne]; [done|].
  destruct (drops_group df) eqn:Hdrop; [by destruct Hne; apply audiobook_cols_dropped|].
  assert (reduced df = df) as Hsame by (unfold reduced; by rewrite Hdrop).
  rewrite Hsame in Hne |- *.
  apply not_true_is_false. intros Hall. rewrite all_null_spec in Hall.
  unfold drops_group in Hdrop. rewrite decide_False in Hdrop by done.
  apply not_true_iff_false in Hdrop. apply Hdrop, all_null_spec.
  intros r c [i Hi]%list_elem_of_lookup Hc.
  assert (c ≠ "event_id") as Hev.
  { intros ->. apply elem_of_audiobook_cols in Hc as [_ Hc].
    by apply event_id_not_audiobook. }
  rewrite <- (Hall (mkRow (Z.of_nat i) (<["event_id" := VInt (Z.of_nat i)]> (cells r))) c);
    [|apply list_elem_of_lookup; exists i; by rewrite rows_clean_data, Hsame, Hi|done].
  by rewrite cell_mkRow, lookup_insert_ne.
Qed.

(** X25. Cleaning a cleaned table changes nothing: the audiobook columns
    that were kept are kept, and the rows get the numbers they have. *)
Theorem clean_data_twice (df : DataFrame) :
  ∃ out, Obj.call ReadProcess.clean_data df = Ok out ∧
         Obj.call ReadProcess.clean_data out = Ok out.
Proof.
  exists (clean_data df). rewrite !call_clean_data. split; [done|]. f_equal.
  assert (reduced (clean_data df) = clean_data df) as Hreduced
    by (unfold reduced; by rewrite drops_group_clean_data).
  assert (rows (clean_data (clean_data df)) = rows (clean_data df)) as Hrows.
  { apply list_eq. intros i. rewrite (rows_clean_data (clean_data df)), Hreduced.
    rewrite rows_clean_data. destruct (rows (reduced df) !! i) as [r|]; [|done].
    simpl. by rewrite insert_insert_eq. }
  assert (columns (clean_data (clean_data df)) = columns (clean_data df)) as Hcolumns.
  { unfold clean_data at 1. cbv zeta. rewrite Hreduced. simpl columns at 1.
    rewrite decide_True; [done|]. apply columns_clean_data. by left. }
  destruct (clean_data (clean_data df)), (clean_data df). simpl in *. congruence.
Qed.
End clean_twice.
